(** * Saving-Tracker: the plan accounting and scheduling engine

    A shallow embedding of the engine functions of the application script
    (the newer of the two variants held in [src/unnamed/part_000], lines
    1-816): [mergeExclusions], [isDateInExclusions], [countCalculationDays],
    [calculateRequiredDaily], [refreshPlanTarget], [checkDailyReset] and the
    mode-toggle and start-day handlers of [setupEvents].

    Conventions of the embedding.
    - A JavaScript number that holds an amount of money is a rational [Q];
      the arithmetic of the program is read exactly (no rounding).  A field
      that may be absent from a stored plan is an [option]; [None] stands for
      [undefined], and [x || 0] is [orZero x].
    - Where a test of the program turns on the rounding of its numbers, the
      IEEE 754 doubles, the computation is embedded on [float] (binary64,
      rounding to nearest, ties to even): the surcharge rule of
      [calculateRequiredDaily] in [calculateRequiredDaily64], the number of
      days of [calculateProjectedEndDate] and the test for the confirmation
      dialog of a purchase.  A rational is read there as the double nearest
      to it ([double]), which is the number itself when a double holds it.
    - A [Date] object that the program has put at local midnight is the
      number of its civil day, counted from 1970-01-01 (a [Z]); an
      [Invalid Date] is kept apart ([JsDate]).
    - A date string is a [string]; the relational operators of the program
      on strings are the lexicographic order on character codes.
    - The clock is an explicit argument [now]: the civil day in Asia/Manila. *)

From Stdlib Require Import ZArith QArith Qminmax Lqa Lia.
From Stdlib Require Import Floats.PrimFloat.
From Stdlib Require Import List Bool Ascii String.
From Stdlib Require Import OrdersEx OrdersFacts.
From Stdlib Require Import Sorting.Sorted.
Import ListNotations.

Open Scope Z_scope.

(** ** Strings in lexicographic order *)

Module StrFacts := OrderedTypeFacts String_as_OT.

(** [a < b] on strings. *)
Definition str_ltb (a b : string) : bool :=
  match String_as_OT.compare a b with Lt => true | _ => false end.

(** [a <= b] on strings. *)
Definition str_leb (a b : string) : bool := negb (str_ltb b a).

(** [a.localeCompare(b)] on date strings of one shape (digits, with hyphens
    at fixed places), where the collation order is the lexicographic one. *)
Definition localeCompare (a b : string) : comparison :=
  String_as_OT.compare a b.

(** ** Calendar days *)

(** The day of the week of a civil day, [Date.prototype.getDay]: 0 is Sunday,
    6 is Saturday; 1970-01-01 was a Thursday. *)
Definition getDay (d : Z) : Z := (d + 4) mod 7.

(** Year, month and day of month of a civil day (proleptic Gregorian
    calendar). *)
Definition civil_from_days (d : Z) : Z * Z * Z :=
  let z := d + 719468 in
  let era := z / 146097 in
  let doe := z - era * 146097 in
  let yoe := (doe - doe / 1460 + doe / 36524 - doe / 146096) / 365 in
  let y := yoe + era * 400 in
  let doy := doe - (365 * yoe + yoe / 4 - yoe / 100) in
  let mp := (5 * doy + 2) / 153 in
  let dd := doy - (153 * mp + 2) / 5 + 1 in
  let m := if mp <? 10 then mp + 3 else mp - 9 in
  (if m <=? 2 then y + 1 else y, m, dd).

(** The civil day of a year, month and day of month. *)
Definition days_from_civil (y m d : Z) : Z :=
  let y' := if m <=? 2 then y - 1 else y in
  let era := y' / 400 in
  let yoe := y' - era * 400 in
  let mp := if m <=? 2 then m + 9 else m - 3 in
  let doy := (153 * mp + 2) / 5 + d - 1 in
  let doe := yoe * 365 + yoe / 4 - yoe / 100 + doy in
  era * 146097 + doe - 719468.

Definition digit (n : Z) : ascii := ascii_of_nat (48 + Z.to_nat (n mod 10)).

Definition pad2 (n : Z) : string :=
  String (digit (n / 10)) (String (digit n) EmptyString).

Definition pad4 (n : Z) : string :=
  String (digit (n / 1000)) (String (digit (n / 100)) (pad2 n)).

(** [date.toLocaleDateString('en-CA')]: the civil day as YYYY-MM-DD. *)
Definition toLocaleDateString (d : Z) : string :=
  let '(y, m, dd) := civil_from_days d in
  (pad4 y ++ "-" ++ pad2 m ++ "-" ++ pad2 dd)%string.

(** A [Date] object as the program holds it after [setHours(0, 0, 0, 0)]. *)
Inductive JsDate : Type :=
| InvalidDate
| Midnight (day : Z).

Definition digitValue (c : ascii) : option Z :=
  let n := Z.of_nat (nat_of_ascii c) in
  if (48 <=? n) && (n <=? 57) then Some (n - 48) else None.

Definition number2 (a b : ascii) : option Z :=
  match digitValue a, digitValue b with
  | Some x, Some y => Some (10 * x + y)
  | _, _ => None
  end.

(** The civil day that a YYYY-MM-DD string names; [InvalidDate] when the
    string has another shape or names no day of the calendar. *)
Definition parseISODate (s : string) : JsDate :=
  match s with
  | String y1 (String y2 (String y3 (String y4 (String "-"
      (String m1 (String m2 (String "-"
      (String d1 (String d2 EmptyString))))))))) =>
      match number2 y1 y2, number2 y3 y4, number2 m1 m2, number2 d1 d2 with
      | Some yh, Some yl, Some m, Some d =>
          let y := 100 * yh + yl in
          let n := days_from_civil y m d in
          if (1 <=? m) && (m <=? 12) && (1 <=? d) && (d <=? 31)
             && (toLocaleDateString n =? s)%string
          then Midnight n else InvalidDate
      | _, _, _, _ => InvalidDate
      end
  | _ => InvalidDate
  end.

(** [a > b] and [a <= b] on [Date] objects: a comparison with an invalid
    date is false. *)
Definition dateGt (a b : JsDate) : bool :=
  match a, b with
  | Midnight x, Midnight y => y <? x
  | _, _ => false
  end.

Definition dateLe (a b : JsDate) : bool :=
  match a, b with
  | Midnight x, Midnight y => x <=? y
  | _, _ => false
  end.

(** ** Exclusion ranges *)

(** An exclusion [{start, end}]: two date strings, both ends included. *)
Record Range : Type := mkRange { start : string; end_ : string }.

(** [Array.prototype.sort] with the comparator
    [(a, b) => a.start.localeCompare(b.start)].  The sort of the language is
    stable, which fixes its result: ascending by [start], ranges of equal
    [start] in their order of arrival. *)
Fixpoint insertByStart (x : Range) (l : list Range) : list Range :=
  match l with
  | [] => [x]
  | y :: l' =>
      match localeCompare (start x) (start y) with
      | Gt => y :: insertByStart x l'
      | _ => x :: y :: l'
      end
  end.

Fixpoint sortByStart (l : list Range) : list Range :=
  match l with
  | [] => []
  | x :: l' => insertByStart x (sortByStart l')
  end.

(** The [for] loop of [mergeExclusions]: [merged] is the array built so far,
    [current] the accumulator, [rest] the ranges [sorted[i..]] still to be
    read.  The script writes the later end into the record [current], a
    record that the array it was given holds too; ranges are values here,
    and the loop is modelled by the array that it returns. *)
Fixpoint mergeLoop (merged : list Range) (current : Range)
    (rest : list Range) : list Range :=
  match rest with
  | [] => merged ++ [current]
  | next :: rest' =>
      if str_leb (start next) (end_ current) then
        if str_ltb (end_ current) (end_ next) then
          mergeLoop merged (mkRange (start current) (end_ next)) rest'
        else mergeLoop merged current rest'
      else mergeLoop (merged ++ [current]) next rest'
  end.

(** [mergeExclusions(exclusions)]; [None] is an absent array. *)
Definition mergeExclusions (exclusions : option (list Range)) : list Range :=
  match exclusions with
  | None => []
  | Some l =>
      match sortByStart l with
      | [] => []
      | current :: rest => mergeLoop [] current rest
      end
  end.

(** The test [dStr >= ex.start && dStr <= ex.end]. *)
Definition inRange (dStr : string) (ex : Range) : bool :=
  str_leb (start ex) dStr && str_leb dStr (end_ ex).

(** [isDateInExclusions(date, exclusions)]. *)
Definition isDateInExclusions (date : Z) (exclusions : list Range) : bool :=
  let dStr := toLocaleDateString date in
  existsb (inRange dStr) exclusions.

(** ** Counting the days that qualify *)

(** An argument of [countCalculationDays]: a date string, a [Date] object or
    [null]. *)
Inductive DateArg : Type :=
| ArgString (s : string)
| ArgDate (d : JsDate)
| ArgNull.

(** The local midnight that [countCalculationDays] starts from:
    [new Date(s + 'T00:00:00')] for a string, a copy for a [Date], the epoch
    for [null]; then [setHours(0, 0, 0, 0)]. *)
Definition midnightOf (a : DateArg) : JsDate :=
  match a with
  | ArgString s => parseISODate s
  | ArgDate d => d
  | ArgNull => Midnight 0
  end.

(** The [while (cur <= last)] loop of [countCalculationDays]. *)
Fixpoint countLoop (fuel : nat) (mergedEx : list Range) (cur last count : Z)
    : Z :=
  match fuel with
  | O => count
  | S fuel' =>
      if cur <=? last then
        let dayNum := getDay cur in
        let isWeekend := (dayNum =? 0) || (dayNum =? 6) in
        let dStr := toLocaleDateString cur in
        let isExcluded := existsb (inRange dStr) mergedEx in
        countLoop fuel' mergedEx (cur + 1) last
          (if negb isWeekend && negb isExcluded then count + 1 else count)
      else count
  end.

(** [countCalculationDays(start, end, exclusions)].  The loop runs once per
    day from [cur] to [last]; the fuel is one more than that. *)
Definition countCalculationDays (start_ end' : DateArg)
    (exclusions : list Range) : Z :=
  let mergedEx := mergeExclusions (Some exclusions) in
  match midnightOf start_, midnightOf end' with
  | Midnight cur, Midnight last =>
      countLoop (S (Z.to_nat (last - cur + 1))) mergedEx cur last 0
  | _, _ => 0
  end.

(** ** The document *)

Record Product : Type := mkProduct { prodName : string; price : Q }.

(** An entry of a plan's history, [{date, totalSaved}]. *)
Record PlanSnapshot : Type := mkPlanSnapshot {
  date : string;
  snapTotalSaved : Q
}.

(** An entry of the document's history, [{date, savings}]. *)
Record Snapshot : Type := mkSnapshot {
  snapDate : string;
  savings : Q
}.

(** A plan.  The fields that the script reads through [x || 0], [x || []] or
    [x === false] may be absent from a stored plan and are options. *)
Record Plan : Type := mkPlan {
  id : string;
  name : string;
  startDate : string;
  endDate : option string;
  useEndDate : option bool;
  goal : option Q;
  exclusions : option (list Range);
  products : list Product;
  totalSaved : option Q;
  totalSpent : option Q;
  penaltyDebt : option Q;
  estimateMode : bool;
  manualSavingsMode : bool;
  penaltyMode : bool;
  dayActive : bool;
  dailyAllowance : option Q;
  dailySpent : option Q;
  dailySavingsGoal : option Q;
  history : option (list PlanSnapshot)
}.

(** The document [state]; its [history] is [stateHistory] here and its
    [totalSpent] is [stateTotalSpent], the plan having fields of these
    names. *)
Record State : Type := mkState {
  tosAgreed : bool;
  plans : list Plan;
  totalSavings : Q;
  stateTotalSpent : Q;
  lastLoginDate : option string;
  stateHistory : list Snapshot
}.

(** The script's globals and what [Store.save] wrote last. *)
Record App : Type := mkApp {
  state : State;
  currentPlanId : option string;
  storage : option State
}.

(** [x || 0] on a number field. *)
Definition orZero (x : option Q) : Q :=
  match x with Some q => q | None => 0%Q end.

(** [x || []]. *)
Definition orEmpty {A : Type} (x : option (list A)) : list A :=
  match x with Some l => l | None => [] end.

(** [s || d] on a string field: the empty string is falsy. *)
Definition strOr (s : option string) (d : string) : string :=
  match s with
  | Some EmptyString | None => d
  | Some s' => s'
  end.

(** [!x] on a number field. *)
Definition falsy (x : option Q) : bool :=
  match x with Some q => Qeq_bool q 0 | None => true end.

(** [x < y] on numbers. *)
Definition Qltb (x y : Q) : bool := negb (Qle_bool y x).

(** [plan.useEndDate !== false]. *)
Definition usesEndDate (plan : Plan) : bool :=
  match useEndDate plan with Some false => false | _ => true end.

Definition setDailySavingsGoal (g : option Q) (p : Plan) : Plan :=
  mkPlan (id p) (name p) (startDate p) (endDate p) (useEndDate p) (goal p)
    (exclusions p) (products p) (totalSaved p) (totalSpent p) (penaltyDebt p)
    (estimateMode p) (manualSavingsMode p) (penaltyMode p) (dayActive p)
    (dailyAllowance p) (dailySpent p) g (history p).

Definition setEstimateMode (b : bool) (p : Plan) : Plan :=
  mkPlan (id p) (name p) (startDate p) (endDate p) (useEndDate p) (goal p)
    (exclusions p) (products p) (totalSaved p) (totalSpent p) (penaltyDebt p)
    b (manualSavingsMode p) (penaltyMode p) (dayActive p)
    (dailyAllowance p) (dailySpent p) (dailySavingsGoal p) (history p).

Definition setManualSavingsMode (b : bool) (p : Plan) : Plan :=
  mkPlan (id p) (name p) (startDate p) (endDate p) (useEndDate p) (goal p)
    (exclusions p) (products p) (totalSaved p) (totalSpent p) (penaltyDebt p)
    (estimateMode p) b (penaltyMode p) (dayActive p)
    (dailyAllowance p) (dailySpent p) (dailySavingsGoal p) (history p).

(** ** The daily target *)

(** [getTodayStr()]: the civil day of Manila as a string. *)
Definition getTodayStr (now : Z) : string := toLocaleDateString now.

(** [getManilaDate()]: local midnight of that day. *)
Definition getManilaDate (now : Z) : Z := now.

(** [new Date(plan.endDate)] followed by [setHours(0, 0, 0, 0)], on a host
    whose clock is that of Manila: [null] gives the epoch. *)
Definition newDate (v : option string) : JsDate :=
  match v with
  | None => Midnight 0
  | Some s => parseISODate s
  end.

(** [calculateRequiredDaily(plan, allowance)].  The allowance and the result
    are [None] when the script's value is not a number ([undefined] or
    [NaN]). *)
Definition calculateRequiredDaily (now : Z) (plan : Plan)
    (allowance : option Q) : option Q :=
  let today := getManilaDate now in
  if isDateInExclusions today (orEmpty (exclusions plan)) then Some 0%Q
  else
    match useEndDate plan with
    | Some false =>
        if negb (manualSavingsMode plan)
        then option_map (fun a => a * 0.5)%Q allowance
        else Some (orZero (dailySavingsGoal plan))
    | _ =>
        if falsy (goal plan) then Some 0%Q
        else
          let end' := newDate (endDate plan) in
          if dateGt (Midnight today) end' then Some 0%Q
          else
            let daysLeft :=
              countCalculationDays (ArgDate (Midnight today)) (ArgDate end')
                (orEmpty (exclusions plan)) in
            if daysLeft <=? 0 then allowance
            else
              let currentSavings := orZero (totalSaved plan) in
              let remainingNeeded := (orZero (goal plan) - currentSavings)%Q in
              let target := Qmax 0 (remainingNeeded / inject_Z daysLeft) in
              match allowance with
              | Some a =>
                  let target :=
                    if usesEndDate plan && negb (manualSavingsMode plan)
                       && Qle_bool 80 a && Qltb target 50
                    then (target + a * 0.20)%Q
                    else target in
                  Some (Qmin a target)
              | None => None
              end
    end.

(** [refreshPlanTarget(plan)]. *)
Definition refreshPlanTarget (now : Z) (plan : Plan) : Plan :=
  if negb (dayActive plan) then plan
  else if negb (manualSavingsMode plan) then
    setDailySavingsGoal
      (calculateRequiredDaily now plan (dailyAllowance plan)) plan
  else plan.

(** ** The daily rollover *)

(** [h.push(e); if (h.length > 30) h.shift();] *)
Definition pushCapped {A : Type} (h : list A) (e : A) : list A :=
  let h' := h ++ [e] in
  if (30 <? List.length h')%nat then tl h' else h'.

(** The body of the [forEach] of [checkDailyReset] on one plan;
    [totalSavings] is [state.totalSavings], which the body adds to. *)
Definition closeDay (lastLogin : option string) (todayStr : string)
    (totalSavings : Q) (plan : Plan) : Q * Plan :=
  if dayActive plan then
    let actualSavings :=
      (orZero (dailyAllowance plan) - orZero (dailySpent plan))%Q in
    let target := orZero (dailySavingsGoal plan) in
    let penaltyDebt' :=
      if penaltyMode plan && (estimateMode plan || manualSavingsMode plan)
      then
        if Qltb actualSavings target
        then Some (orZero (penaltyDebt plan) + (target - actualSavings))%Q
        else penaltyDebt plan
      else penaltyDebt plan in
    let totalSaved' := (orZero (totalSaved plan) + actualSavings)%Q in
    let totalSpent' :=
      (orZero (totalSpent plan) + orZero (dailySpent plan))%Q in
    let history' :=
      pushCapped (orEmpty (history plan))
        (mkPlanSnapshot (strOr lastLogin todayStr) totalSaved') in
    ((totalSavings + actualSavings)%Q,
     mkPlan (id plan) (name plan) (startDate plan) (endDate plan)
       (useEndDate plan) (goal plan) (exclusions plan) (products plan)
       (Some totalSaved') (Some totalSpent') penaltyDebt'
       (estimateMode plan) (manualSavingsMode plan) (penaltyMode plan)
       false (Some 0%Q) (Some 0%Q) (Some 0%Q) (Some history'))
  else (totalSavings, plan).

(** [state.plans.forEach(plan => ...)]. *)
Fixpoint closeDays (lastLogin : option string) (todayStr : string)
    (totalSavings : Q) (ps : list Plan) : Q * list Plan :=
  match ps with
  | [] => (totalSavings, [])
  | plan :: ps' =>
      let '(totalSavings', plan') :=
        closeDay lastLogin todayStr totalSavings plan in
      let '(totalSavings'', ps'') :=
        closeDays lastLogin todayStr totalSavings' ps' in
      (totalSavings'', plan' :: ps'')
  end.

(** [state.lastLoginDate !== todayStr]. *)
Definition differs (lastLogin : option string) (todayStr : string) : bool :=
  match lastLogin with
  | Some s => negb (String.eqb s todayStr)
  | None => true
  end.

(** [saveState()]. *)
Definition saveState (app : App) : App :=
  mkApp (state app) (currentPlanId app) (Some (state app)).

(** The document after [checkDailyReset()] on the civil day [now]. *)
Definition rollover (now : Z) (st : State) : State :=
  let todayStr := getTodayStr now in
  if differs (lastLoginDate st) todayStr then
    let '(totalSavings', plans') :=
      closeDays (lastLoginDate st) todayStr (totalSavings st) (plans st) in
    mkState (tosAgreed st) plans' totalSavings' (stateTotalSpent st)
      (Some todayStr)
      (pushCapped (stateHistory st)
         (mkSnapshot (strOr (lastLoginDate st) todayStr) totalSavings'))
  else st.

(** [checkDailyReset()]. *)
Definition checkDailyReset (now : Z) (app : App) : App :=
  let todayStr := getTodayStr now in
  if differs (lastLoginDate (state app)) todayStr then
    saveState (mkApp (rollover now (state app)) (currentPlanId app)
                 (storage app))
  else app.

(** ** The handlers of the plan screen *)

(** How a handler ends: it runs to its end, it returns after an [alert], or
    it throws a [TypeError] on a plan that is not there. *)
Inductive outcome : Type :=
| Completed (app : App)
| Alerted (msg : string)
| Thrown.

(** [state.plans.find(p => p.id === currentPlanId)]. *)
Definition findPlan (planId : option string) (ps : list Plan) : option Plan :=
  match planId with
  | Some i => find (fun p => String.eqb (id p) i) ps
  | None => None
  end.

(** The plans once the handler has written to the plan that [find] gave it:
    the first plan of that [id] is now [plan']. *)
Fixpoint writePlan (i : string) (plan' : Plan) (ps : list Plan) : list Plan :=
  match ps with
  | [] => []
  | p :: ps' =>
      if String.eqb (id p) i then plan' :: ps'
      else p :: writePlan i plan' ps'
  end.

(** A handler that changes the current plan by [f] and then saves. *)
Definition onCurrentPlan (f : Plan -> Plan) (app : App) : outcome :=
  match currentPlanId app, findPlan (currentPlanId app) (plans (state app)) with
  | Some i, Some plan =>
      let st := state app in
      Completed (saveState
        (mkApp
           (mkState (tosAgreed st) (writePlan i (f plan) (plans st))
              (totalSavings st) (stateTotalSpent st) (lastLoginDate st)
              (stateHistory st))
           (currentPlanId app) (storage app)))
  | _, _ => Thrown
  end.

(** What the [onchange] handler of [toggle-estimate] does to the plan;
    [checked] is [e.target.checked]. *)
Definition toggleEstimatePlan (now : Z) (checked : bool) (plan : Plan) : Plan :=
  let plan := setEstimateMode checked plan in
  let plan :=
    if estimateMode plan then setManualSavingsMode false plan else plan in
  refreshPlanTarget now plan.

(** What the [onchange] handler of [toggle-manual] does to the plan. *)
Definition toggleManualPlan (now : Z) (checked : bool) (plan : Plan) : Plan :=
  let plan := setManualSavingsMode checked plan in
  let plan :=
    if manualSavingsMode plan then setEstimateMode false plan
    else setEstimateMode true plan in
  refreshPlanTarget now plan.

Definition toggleEstimate (now : Z) (checked : bool) (app : App) : outcome :=
  onCurrentPlan (toggleEstimatePlan now checked) app.

Definition toggleManual (now : Z) (checked : bool) (app : App) : outcome :=
  onCurrentPlan (toggleManualPlan now checked) app.

(** The value of a text input: empty, or a text with what [parseFloat] makes
    of it ([None] is [NaN]). *)
Inductive InputValue : Type :=
| Blank
| Entered (parsed : option Q).

(** [parseFloat(v) || 0]. *)
Definition parseFloatOrZero (v : InputValue) : Q :=
  match v with
  | Entered (Some q) => q
  | _ => 0%Q
  end.

(** What the [onclick] handler of [start-day-btn] does to the plan, once the
    allowance input is known not to be empty. *)
Definition startDayPlan (now : Z) (allowanceInput manualInput : InputValue)
    (plan : Plan) : Plan :=
  let allowance := parseFloatOrZero allowanceInput in
  let target :=
    if manualSavingsMode plan then Some (parseFloatOrZero manualInput)
    else if estimateMode plan
         then calculateRequiredDaily now plan (Some allowance)
         else Some 0%Q in
  mkPlan (id plan) (name plan) (startDate plan) (endDate plan)
    (useEndDate plan) (goal plan) (exclusions plan) (products plan)
    (totalSaved plan) (totalSpent plan) (penaltyDebt plan)
    (estimateMode plan) (manualSavingsMode plan) (penaltyMode plan)
    true (Some allowance) (Some 0%Q) target (history plan).

(** The [onclick] handler of [start-day-btn]. *)
Definition startDay (now : Z) (allowanceInput manualInput : InputValue)
    (app : App) : outcome :=
  match allowanceInput with
  | Blank => Alerted "Please enter today's allowance"
  | Entered _ =>
      onCurrentPlan (startDayPlan now allowanceInput manualInput) app
  end.

(** ** Vocabulary of the statements *)

(** [a] starts no later than [b]. *)
Definition startLe (a b : Range) : Prop :=
  str_leb (start a) (start b) = true.

(** [a] is over before [b] starts: the two ranges share no day and do not
    touch. *)
Definition endsBefore (a b : Range) : Prop :=
  str_ltb (end_ a) (start b) = true.

(** Both at once, the relation between an earlier and a later range of a
    merged list. *)
Definition before (a b : Range) : Prop := startLe a b /\ endsBefore a b.

(** The days from [s] to [e], both included, in order; none when [e < s]. *)
Definition spec_daysBetween (s e : Z) : list Z :=
  map (fun i => s + Z.of_nat i) (seq 0 (Z.to_nat (e - s + 1))).

(** A weekday, Monday to Friday. *)
Definition spec_isWeekday (d : Z) : bool :=
  (1 <=? getDay d) && (getDay d <=? 5).

(** A day that qualifies: a weekday that lies in none of the ranges, as they
    were given. *)
Definition spec_qualifies (exclusions : list Range) (d : Z) : bool :=
  spec_isWeekday d && negb (isDateInExclusions d exclusions).

(** The last [n] entries of a list, in their order. *)
Definition lastn {A : Type} (n : nat) (l : list A) : list A :=
  skipn (List.length l - n) l.

(** Rollovers one after the other, on the days [days]. *)
Fixpoint rollovers (days : list Z) (st : State) : State :=
  match days with
  | [] => st
  | d :: ds => rollovers ds (rollover d st)
  end.

(** Each of these rollovers sees a date other than the one stored. *)
Fixpoint effective (days : list Z) (st : State) : Prop :=
  match days with
  | [] => True
  | d :: ds =>
      differs (lastLoginDate st) (getTodayStr d) = true /\
      effective ds (rollover d st)
  end.

(** The entries that these rollovers write to the document's history, one
    each: the date stored before the rollover and the total after it. *)
Fixpoint docEntries (days : list Z) (st : State) : list Snapshot :=
  match days with
  | [] => []
  | d :: ds =>
      mkSnapshot (strOr (lastLoginDate st) (getTodayStr d))
        (totalSavings (rollover d st))
      :: docEntries ds (rollover d st)
  end.

(** One day of use: the day is started with an allowance of 100 and the
    application is opened again on the next day. *)
Definition dayThenRollover (app : App) (day : Z) : App :=
  match startDay day (Entered (Some 100%Q)) Blank app with
  | Completed app' => checkDailyReset (day + 1) app'
  | _ => app
  end.

(** The 40 days from 2024-01-01 on. *)
Definition fortyDays : list Z := map (fun i => 19723 + Z.of_nat i) (seq 0 40).

(** ** Plans and documents of the examples *)

(** A plan with a fixed end date, Friday 2024-01-12, 100 short of its goal. *)
Definition planNearGoal : Plan :=
  mkPlan "1704067200000" "Laptop" "2024-01-01" (Some "2024-01-12"%string)
    (Some true) (Some 10000%Q) None [] (Some 9900%Q) (Some 0%Q) (Some 0%Q)
    true false true false None None None (Some []).

(** A plan without end date, in manual mode, its day started with an
    allowance of 100 and a manual target of 200. *)
Definition planManualIndefinite : Plan :=
  mkPlan "1704067200001" "Rainy day" "2024-01-01" None (Some false)
    (Some 0%Q) None [] (Some 0%Q) (Some 0%Q) (Some 0%Q)
    false true true true (Some 100%Q) (Some 0%Q) (Some 200%Q) (Some []).

(** A plan whose day is excluded on Wednesday 2024-01-03. *)
Definition planOnHoliday : Plan :=
  mkPlan "1704067200002" "Trip" "2024-01-01" (Some "2024-01-12"%string)
    (Some true) (Some 1000%Q)
    (Some [mkRange "2024-01-03" "2024-01-03"]) []
    (Some 200%Q) (Some 0%Q) (Some 0%Q)
    false true true false None None (Some 40%Q) (Some []).

(** A plan whose day is open: allowance 100, 30 spent, target 80, penalty
    mode on, estimate mode on; 200 saved and a debt of 5 so far. *)
Definition planOpenDay : Plan :=
  mkPlan "1704067200003" "Bike" "2024-01-01" (Some "2024-03-29"%string)
    (Some true) (Some 5000%Q) None [] (Some 200%Q) (Some 40%Q) (Some 5%Q)
    true false true true (Some 100%Q) (Some 30%Q) (Some 80%Q) (Some []).

(** The application with that plan open on 2024-01-01, nothing saved yet in
    this session. *)
Definition appOpenDay : App :=
  mkApp
    (mkState true [planOpenDay] 200%Q 0%Q (Some "2024-01-01"%string)
       [mkSnapshot "2023-12-29" 200%Q])
    (Some "1704067200003"%string) None.

(** The application on 2024-01-01 with one plan, as [save-new-plan] makes
    it, and empty histories. *)
Definition appFresh : App :=
  mkApp
    (mkState true
       [mkPlan "1704067200004" "Phone" "2024-01-01" (Some "2024-03-29"%string)
          (Some true) (Some 5000%Q) None [] (Some 0%Q) (Some 0%Q) (Some 0%Q)
          true false true false None None None (Some [])]
       0%Q 0%Q (Some "2024-01-01"%string) [])
    (Some "1704067200004"%string) None.

(** ** Numbers in double precision *)

(** A decimal literal on [float] is the double nearest to it, as in the
    script. *)
Set Warnings "-inexact-float".

(** The double of a positive integer; exact up to 2^53. *)
Fixpoint mantissa (p : positive) : float :=
  match p with
  | xH => 1
  | xO p' => 2 * mantissa p'
  | xI p' => 2 * mantissa p' + 1
  end.

(** [x * 2^e], by doubling or halving [x]. *)
Definition scale2 (x : float) (e : Z) : float :=
  match e with
  | Z0 => x
  | Zpos p => Pos.iter (fun y => y * 2)%float x p
  | Zneg p => Pos.iter (fun y => y * 0.5)%float x p
  end.

(** The integer nearest to [a / d]; of two that are equally near, the even
    one. *)
Definition roundHalfEven (a d : Z) : Z :=
  let q := a / d in
  match 2 * (a mod d) ?= d with
  | Lt => q
  | Gt => q + 1
  | Eq => if Z.even q then q else q + 1
  end.

(** The double nearest to [n / d]: the quotient is scaled by the power of
    two [2^-e] that brings it between 2^52 and 2^53 (no further down than
    the exponent of the subnormal doubles), rounded to an integer, and
    scaled back. *)
Definition nearest (n d : positive) : float :=
  let scaled (e : Z) : Z * Z :=
    if e <? 0 then (Zpos n * 2 ^ (- e), Zpos d)
    else (Zpos n, Zpos d * 2 ^ e) in
  let e0 := Z.log2 (Zpos n) - Z.log2 (Zpos d) - 53 in
  let e1 :=
    if fst (scaled e0) <? snd (scaled e0) * 2 ^ 53 then e0 else e0 + 1 in
  let e := Z.max e1 (-1074) in
  match roundHalfEven (fst (scaled e)) (snd (scaled e)) with
  | Zpos m => scale2 (mantissa m) e
  | _ => 0%float
  end.

(** The double that the script holds for a number: [parseFloat] of a decimal
    text gives the double nearest to the decimal, and a number that a double
    holds exactly is its own double. *)
Definition double (q : Q) : float :=
  match Qnum q with
  | Z0 => 0%float
  | Zpos n => nearest n (Qden q)
  | Zneg n => (- nearest n (Qden q))%float
  end.

(** A count as a number. *)
Definition ofInt (z : Z) : float := double (inject_Z z).

(** A field or an argument in arithmetic: [undefined] gives [NaN]. *)
Definition number (x : option Q) : float :=
  match x with Some q => double q | None => nan end.

(** [Math.max(x, y)]: [NaN] when one of the two is, and [+0] above [-0]. *)
Definition Math_max (x y : float) : float :=
  if is_nan x || is_nan y then nan
  else if (x <? y)%float then y
  else if (y <? x)%float then x
  else if get_sign x then y else x.

(** [Math.min(x, y)]: [NaN] when one of the two is, and [-0] below [+0]. *)
Definition Math_min (x y : float) : float :=
  if is_nan x || is_nan y then nan
  else if (x <? y)%float then x
  else if (y <? x)%float then y
  else if get_sign x then x else y.

(** [calculateRequiredDaily(plan, allowance)] on doubles.  The branches are
    those of [calculateRequiredDaily]; the result is [NaN] where the
    script's value is [undefined] or [NaN]. *)
Definition calculateRequiredDaily64 (now : Z) (plan : Plan)
    (allowance : option Q) : float :=
  let today := getManilaDate now in
  if isDateInExclusions today (orEmpty (exclusions plan)) then 0%float
  else
    match useEndDate plan with
    | Some false =>
        if negb (manualSavingsMode plan)
        then (number allowance * 0.5)%float
        else double (orZero (dailySavingsGoal plan))
    | _ =>
        if falsy (goal plan) then 0%float
        else
          let end' := newDate (endDate plan) in
          if dateGt (Midnight today) end' then 0%float
          else
            let daysLeft :=
              countCalculationDays (ArgDate (Midnight today)) (ArgDate end')
                (orEmpty (exclusions plan)) in
            if daysLeft <=? 0 then number allowance
            else
              let currentSavings := double (orZero (totalSaved plan)) in
              let remainingNeeded :=
                (number (goal plan) - currentSavings)%float in
              let target :=
                Math_max 0 (remainingNeeded / ofInt daysLeft) in
              let target :=
                if usesEndDate plan && negb (manualSavingsMode plan)
                   && (80 <=? number allowance)%float && (target <? 50)%float
                then (target + number allowance * 0.20)%float
                else target in
              Math_min (number allowance) target
    end.

(** A plan that ends on Monday 2024-01-01, with a goal of 50.3 and 0.3
    saved: on doubles exactly 50 are missing. *)
Definition planFiftyShort : Plan :=
  mkPlan "1704067200006" "Shoes" "2023-12-01" (Some "2024-01-01"%string)
    (Some true) (Some 50.3%Q) None [] (Some 0.3%Q) (Some 0%Q) (Some 0%Q)
    true false true false None None None (Some []).
(** ** The projected end date *)

(** What [calculateProjectedEndDate] returns: [null], the text "Goal Met!",
    or a date. *)
Inductive Projection : Type :=
| NoProjection
| GoalMet
| ProjectedDate (dStr : string).

(** [Math.ceil(x)].  A double from 2^52 on is an integer.  Below,
    [|x| + 2^52 - 2^52] is the integer nearest to [|x|]; the ceiling of a
    positive [x] is that integer or the next one, and the ceiling of a
    negative [x] is minus the floor of [|x|]. *)
Definition Math_ceil (x : float) : float :=
  if is_nan x then nan
  else if (4503599627370496 <=? abs x)%float then x
  else
    let t := (abs x + 4503599627370496 - 4503599627370496)%float in
    if (0 <? x)%float then
      if (t <? x)%float then (t + 1)%float else t
    else if (x <? 0)%float then
      (- (if (abs x <? t)%float then t - 1 else t))%float
    else x.

(** The [while (workingDaysFound < daysNeeded && safety < 10000)] loop of
    [calculateProjectedEndDate]; it returns the day [cur] it stops at.
    [daysNeeded] is the double that [Math.ceil] gave. *)
Fixpoint projectionLoop (fuel : nat) (mergedEx : list Range)
    (daysNeeded : float) (cur workingDaysFound safety : Z) : Z :=
  match fuel with
  | O => cur
  | S fuel' =>
      if (ofInt workingDaysFound <? daysNeeded)%float && (safety <? 10000)
      then
        let safety := safety + 1 in
        let dayNum := getDay cur in
        let isWeekend := (dayNum =? 0) || (dayNum =? 6) in
        let dStr := toLocaleDateString cur in
        let isExcluded := existsb (inRange dStr) mergedEx in
        let workingDaysFound :=
          if negb isWeekend && negb isExcluded
          then workingDaysFound + 1 else workingDaysFound in
        let cur :=
          if (ofInt workingDaysFound <? daysNeeded)%float
          then cur + 1 else cur in
        projectionLoop fuel' mergedEx daysNeeded cur workingDaysFound safety
      else cur
  end.

(** [calculateProjectedEndDate(plan)].  What is missing and the number of
    days are computed on doubles.  The safety counter lets the loop turn
    10000 times at most; the fuel is one more than that. *)
Definition calculateProjectedEndDate (now : Z) (plan : Plan) : Projection :=
  if falsy (goal plan) || falsy (dailySavingsGoal plan)
     || Qle_bool (orZero (dailySavingsGoal plan)) 0
  then NoProjection
  else
    let remainingNeeded :=
      (number (goal plan) - double (orZero (totalSaved plan)))%float in
    if (remainingNeeded <=? 0)%float then GoalMet
    else
      let daysNeeded :=
        Math_ceil (remainingNeeded / number (dailySavingsGoal plan)) in
      let cur := getManilaDate now + 1 in
      let mergedEx := mergeExclusions (Some (orEmpty (exclusions plan))) in
      ProjectedDate
        (toLocaleDateString
           (projectionLoop (Z.to_nat 10001) mergedEx daysNeeded cur 0 0)).

(** ** The other handlers *)

(** The plan that [save-new-plan] builds; [idStr] is [Date.now().toString()],
    [endValue] the end date when the plan uses one, [null] otherwise. *)
Definition newPlan (idStr name_ start_ : string) (useEnd : bool)
    (endValue : option string) (goalInput : InputValue) : Plan :=
  mkPlan idStr name_ start_ endValue (Some useEnd)
    (Some (parseFloatOrZero goalInput)) None []
    (Some 0%Q) (Some 0%Q) (Some 0%Q) true false true false
    None None None (Some []).

(** The [onclick] handler of [save-new-plan]; [end'] is the value of the end
    date input, which is read only when [useEnd] is checked. *)
Definition saveNewPlan (idStr name_ start_ : string) (useEnd : bool)
    (end' : string) (goalInput : InputValue) (app : App) : outcome :=
  let endValue := if useEnd then Some end' else None in
  if String.eqb name_ "" || String.eqb start_ ""
     || (useEnd && String.eqb end' "")
  then Alerted "Name and required Dates are missing"
  else
    let st := state app in
    Completed (saveState
      (mkApp
         (mkState (tosAgreed st)
            (plans st
             ++ [newPlan idStr name_ start_ useEnd endValue goalInput])
            (totalSavings st) (stateTotalSpent st) (lastLoginDate st)
            (stateHistory st))
         (currentPlanId app) (storage app))).

(** [p.id !== currentPlanId]. *)
Definition otherThan (planId : option string) (p : Plan) : bool :=
  match planId with
  | Some i => negb (String.eqb (id p) i)
  | None => true
  end.

(** The [onclick] handler of [confirm-ok] that [delete-plan-btn] installs:
    the plans of the current id are filtered out, the document is saved, and
    [showScreen('home-screen')] runs [checkDailyReset]. *)
Definition deletePlan (now : Z) (app : App) : App :=
  let st := state app in
  checkDailyReset now
    (saveState
       (mkApp
          (mkState (tosAgreed st)
             (filter (otherThan (currentPlanId app)) (plans st))
             (totalSavings st) (stateTotalSpent st) (lastLoginDate st)
             (stateHistory st))
          (currentPlanId app) (storage app))).

Definition setDailySpent (v : option Q) (p : Plan) : Plan :=
  mkPlan (id p) (name p) (startDate p) (endDate p) (useEndDate p) (goal p)
    (exclusions p) (products p) (totalSaved p) (totalSpent p) (penaltyDebt p)
    (estimateMode p) (manualSavingsMode p) (penaltyMode p) (dayActive p)
    (dailyAllowance p) v (dailySavingsGoal p) (history p).

Definition setProducts (v : list Product) (p : Plan) : Plan :=
  mkPlan (id p) (name p) (startDate p) (endDate p) (useEndDate p) (goal p)
    (exclusions p) v (totalSaved p) (totalSpent p) (penaltyDebt p)
    (estimateMode p) (manualSavingsMode p) (penaltyMode p) (dayActive p)
    (dailyAllowance p) (dailySpent p) (dailySavingsGoal p) (history p).

(** [cost > remaining], with [remaining = plan.dailyAllowance -
    plan.dailySpent]: the difference and the comparison are those of the
    doubles; the test fails when one of the two fields is not a number. *)
Definition exceedsRemaining (cost : Q) (plan : Plan) : bool :=
  (number (dailyAllowance plan) - number (dailySpent plan)
   <? double cost)%float.

(** [plan.dailySpent += cost]. *)
Definition spend (cost : Q) (plan : Plan) : Plan :=
  setDailySpent (option_map (fun s => (s + cost)%Q) (dailySpent plan)) plan.

(** The purchase that [buy-other-btn] and [buyProduct] share, once the cost
    is known: [confirmed] is the answer to the [confirm] dialog, which is
    asked only when the cost exceeds what remains.  A handler that returns
    early leaves the application as it is. *)
Definition purchase (cost : Q) (confirmed : bool) (app : App) : outcome :=
  match findPlan (currentPlanId app) (plans (state app)) with
  | Some plan =>
      if exceedsRemaining cost plan && negb confirmed then Completed app
      else onCurrentPlan (spend cost) app
  | None => Thrown
  end.

(** The [onclick] handler of [buy-other-btn]. *)
Definition buyOther (costInput : InputValue) (confirmed : bool) (app : App)
    : outcome :=
  let cost := parseFloatOrZero costInput in
  if Qle_bool cost 0 then Completed app
  else purchase cost confirmed app.

(** [window.buyProduct(idx)]: a product that is not there makes the handler
    throw. *)
Definition buyProduct (idx : nat) (confirmed : bool) (app : App) : outcome :=
  match findPlan (currentPlanId app) (plans (state app)) with
  | Some plan =>
      match nth_error (products plan) idx with
      | Some prod => purchase (price prod) confirmed app
      | None => Thrown
      end
  | None => Thrown
  end.

(** [products.splice(idx, 1)]. *)
Definition spliceOne {A : Type} (idx : nat) (l : list A) : list A :=
  firstn idx l ++ skipn (S idx) l.

(** The [onclick] handler of [save-prod-btn]; the price input is [Blank] or
    a text that does not parse when [isNaN(price)]. *)
Definition saveProduct (name_ : string) (priceInput : InputValue) (app : App)
    : outcome :=
  match priceInput with
  | Entered (Some p) =>
      if String.eqb name_ "" then Completed app
      else onCurrentPlan
             (fun plan =>
                setProducts (products plan ++ [mkProduct name_ p]) plan) app
  | _ => Completed app
  end.

(** [window.deleteProduct(idx)]. *)
Definition deleteProduct (idx : nat) (app : App) : outcome :=
  onCurrentPlan (fun plan => setProducts (spliceOne idx (products plan)) plan)
    app.

(** ** The records that [mergeExclusions] writes to *)

(** [mergeExclusions] sorts a copy of the array it is given, but the copy
    holds the same records, and [current.end = next.end] writes into one of
    them.  Here the array given is the store of these records and a
    reference to a record is its index in that array. *)
Definition deref (store : list Range) (r : nat) : Range :=
  nth r store (mkRange "" "").

(** [current.end = e], on the record of reference [r]. *)
Fixpoint writeEnd (r : nat) (e : string) (store : list Range) {struct store}
    : list Range :=
  match store, r with
  | [], _ => []
  | x :: store', O => mkRange (start x) e :: store'
  | x :: store', S r' => x :: writeEnd r' e store'
  end.

(** The stable sort of the references by the [start] of their records. *)
Fixpoint insertRef (store : list Range) (x : nat) (l : list nat) : list nat :=
  match l with
  | [] => [x]
  | y :: l' =>
      match localeCompare (start (deref store x)) (start (deref store y)) with
      | Gt => y :: insertRef store x l'
      | _ => x :: y :: l'
      end
  end.

Fixpoint sortRefs (store : list Range) (refs : list nat) : list nat :=
  match refs with
  | [] => []
  | x :: refs' => insertRef store x (sortRefs store refs')
  end.

(** The [for] loop of [mergeExclusions] on references: it returns the store
    as the writes leave it and the references pushed to [merged]. *)
Fixpoint mergeLoopRefs (store : list Range) (merged : list nat)
    (current : nat) (rest : list nat) : list Range * list nat :=
  match rest with
  | [] => (store, merged ++ [current])
  | next :: rest' =>
      if str_leb (start (deref store next)) (end_ (deref store current)) then
        if str_ltb (end_ (deref store current)) (end_ (deref store next)) then
          mergeLoopRefs
            (writeEnd current (end_ (deref store next)) store)
            merged current rest'
        else mergeLoopRefs store merged current rest'
      else mergeLoopRefs store (merged ++ [current]) next rest'
  end.

(** [mergeExclusions(exclusions)] with its writes: the array given as the
    call leaves it, and the array returned. *)
Definition mergeExclusionsInPlace (exclusions : list Range)
    : list Range * list Range :=
  match sortRefs exclusions (seq 0 (List.length exclusions)) with
  | [] => (exclusions, [])
  | current :: rest =>
      let '(store, merged) := mergeLoopRefs exclusions [] current rest in
      (store, map (deref store) merged)
  end.

(** ** The exclusions of a plan *)

Definition setExclusions (v : option (list Range)) (p : Plan) : Plan :=
  mkPlan (id p) (name p) (startDate p) (endDate p) (useEndDate p) (goal p)
    v (products p) (totalSaved p) (totalSpent p) (penaltyDebt p)
    (estimateMode p) (manualSavingsMode p) (penaltyMode p) (dayActive p)
    (dailyAllowance p) (dailySpent p) (dailySavingsGoal p) (history p).

(** [calculateRequiredDaily(plan, _)] gets as far as its call of
    [countCalculationDays], which merges [plan.exclusions]. *)
Definition countsDays (now : Z) (plan : Plan) : bool :=
  negb (isDateInExclusions (getManilaDate now) (orEmpty (exclusions plan)))
  && usesEndDate plan
  && negb (falsy (goal plan))
  && negb (dateGt (Midnight (getManilaDate now)) (newDate (endDate plan))).

(** [refreshPlanTarget(plan)] with what it does to the records of
    [plan.exclusions]: when the target is computed and the days are counted,
    the array of the plan is the array given to [mergeExclusions]. *)
Definition refreshPlanTargetInPlace (now : Z) (plan : Plan) : Plan :=
  let plan' := refreshPlanTarget now plan in
  if dayActive plan && negb (manualSavingsMode plan) && countsDays now plan
  then
    setExclusions
      (option_map (fun l => fst (mergeExclusionsInPlace l)) (exclusions plan))
      plan'
  else plan'.

(** What [renderExclusions()] does to the plan: an array that is there and
    not empty is replaced by its merged form. *)
Definition renderExclusionsPlan (plan : Plan) : Plan :=
  match exclusions plan with
  | None | Some [] => plan
  | Some l => setExclusions (Some (snd (mergeExclusionsInPlace l))) plan
  end.

(** A handler that changes the current plan by [f], saves, and then changes
    it by [g] without saving. *)
Definition onCurrentPlanThen (f g : Plan -> Plan) (app : App) : outcome :=
  match currentPlanId app, findPlan (currentPlanId app) (plans (state app)) with
  | Some i, Some plan =>
      let st := state app in
      let saved :=
        mkState (tosAgreed st) (writePlan i (f plan) (plans st))
          (totalSavings st) (stateTotalSpent st) (lastLoginDate st)
          (stateHistory st) in
      Completed
        (mkApp
           (mkState (tosAgreed st) (writePlan i (g (f plan)) (plans st))
              (totalSavings st) (stateTotalSpent st) (lastLoginDate st)
              (stateHistory st))
           (currentPlanId app) (Some saved))
  | _, _ => Thrown
  end.

(** What [save-excl-btn] does to the plan before it saves. *)
Definition addExclusionPlan (now : Z) (start_ end' : string) (plan : Plan)
    : Plan :=
  refreshPlanTargetInPlace now
    (setExclusions
       (Some (orEmpty (exclusions plan) ++ [mkRange start_ end'])) plan).

(** The [onclick] handler of [save-excl-btn]: the range is pushed, the target
    refreshed and the document saved; [renderExclusions] then merges the
    array of the plan. *)
Definition saveExclusion (now : Z) (start_ end' : string) (app : App)
    : outcome :=
  if String.eqb start_ "" || String.eqb end' ""
  then Alerted "Select both dates"
  else onCurrentPlanThen (addExclusionPlan now start_ end')
         renderExclusionsPlan app.

(** [window.deleteExclusion(idx)]; a plan without an array of exclusions
    makes it throw. *)
Definition deleteExclusion (now : Z) (idx : nat) (app : App) : outcome :=
  match findPlan (currentPlanId app) (plans (state app)) with
  | Some plan =>
      match exclusions plan with
      | Some l =>
          onCurrentPlanThen
            (fun plan =>
               refreshPlanTargetInPlace now
                 (setExclusions (Some (spliceOne idx l)) plan))
            renderExclusionsPlan app
      | None => Thrown
      end
  | None => Thrown
  end.

Definition setUseEndDate (v : option bool) (p : Plan) : Plan :=
  mkPlan (id p) (name p) (startDate p) (endDate p) v (goal p)
    (exclusions p) (products p) (totalSaved p) (totalSpent p) (penaltyDebt p)
    (estimateMode p) (manualSavingsMode p) (penaltyMode p) (dayActive p)
    (dailyAllowance p) (dailySpent p) (dailySavingsGoal p) (history p).

(** What the [onchange] handler of [toggle-use-end-date] does to the plan:
    the end date itself is left as it is. *)
Definition toggleUseEndDatePlan (now : Z) (checked : bool) (plan : Plan)
    : Plan :=
  refreshPlanTargetInPlace now (setUseEndDate (Some checked) plan).

(** What the [onclick] handler of [update-plan-btn] does to the plan; the
    inputs are taken as they are, an empty end date too. *)
Definition updatePlanPlan (now : Z) (name_ start_ : string) (useEnd : bool)
    (end' : string) (goalInput : InputValue) (plan : Plan) : Plan :=
  refreshPlanTargetInPlace now
    (mkPlan (id plan) name_ start_ (if useEnd then Some end' else None)
       (Some useEnd) (Some (parseFloatOrZero goalInput))
       (exclusions plan) (products plan) (totalSaved plan) (totalSpent plan)
       (penaltyDebt plan) (estimateMode plan) (manualSavingsMode plan)
       (penaltyMode plan) (dayActive plan) (dailyAllowance plan)
       (dailySpent plan) (dailySavingsGoal plan) (history plan)).

(** ** A first start *)

Definition weekdayName (dayNum : Z) : string :=
  match dayNum with
  | 0 => "Sun" | 1 => "Mon" | 2 => "Tue" | 3 => "Wed"
  | 4 => "Thu" | 5 => "Fri" | _ => "Sat"
  end.

Definition monthName (m : Z) : string :=
  match m with
  | 1 => "Jan" | 2 => "Feb" | 3 => "Mar" | 4 => "Apr" | 5 => "May"
  | 6 => "Jun" | 7 => "Jul" | 8 => "Aug" | 9 => "Sep" | 10 => "Oct"
  | 11 => "Nov" | _ => "Dec"
  end.

(** [date.toDateString()], as in "Mon Jan 01 2024". *)
Definition toDateString (d : Z) : string :=
  let '(y, m, dd) := civil_from_days d in
  (weekdayName (getDay d) ++ " " ++ monthName m ++ " " ++ pad2 dd ++ " "
   ++ pad4 y)%string.

(** The document that [Store.load] returns when nothing is stored, after the
    script has filled in [history]; [hostDay] is the civil day of the host's
    clock. *)
Definition defaultState (hostDay : Z) : State :=
  mkState false [] 0%Q 0%Q (Some (toDateString hostDay)) [].

(** ** The older variant of the engine *)

(** The [while] loop of the older [countCalculationDays], which knows no
    exclusions and tells the weekend by the short name of the day in Manila;
    the host's clock is taken to be that of Manila, as for [newDate]. *)
Fixpoint countLoopV1 (fuel : nat) (cur last count : Z) : Z :=
  match fuel with
  | O => count
  | S fuel' =>
      if cur <=? last then
        let dayName := weekdayName (getDay cur) in
        countLoopV1 fuel' (cur + 1) last
          (if negb (String.eqb dayName "Sat" || String.eqb dayName "Sun")
           then count + 1 else count)
      else count
  end.

(** The older [countCalculationDays(start, end)], on two [Date] objects. *)
Definition countCalculationDaysV1 (start_ end' : JsDate) : Z :=
  match start_, end' with
  | Midnight cur, Midnight last =>
      countLoopV1 (S (Z.to_nat (last - cur + 1))) cur last 0
  | _, _ => 0
  end.

(** The older [calculateRequiredDaily(plan, allowance)]. *)
Definition calculateRequiredDailyV1 (now : Z) (plan : Plan)
    (allowance : option Q) : option Q :=
  if falsy (goal plan) then Some 0%Q
  else
    let today := getManilaDate now in
    let end' := newDate (endDate plan) in
    if dateGt (Midnight today) end' then Some 0%Q
    else
      let daysLeft := countCalculationDaysV1 (Midnight today) end' in
      if daysLeft <=? 0 then allowance
      else
        let currentSavings := orZero (totalSaved plan) in
        let remainingNeeded := (orZero (goal plan) - currentSavings)%Q in
        let target := Qmax 0 (remainingNeeded / inject_Z daysLeft) in
        option_map (fun a => Qmin a target) allowance.

(** An application with the plan of the holiday example, on its excluded
    day. *)
Definition appOnHoliday : App :=
  mkApp
    (mkState true [planOnHoliday] 200%Q 0%Q (Some "2024-01-03"%string) [])
    (Some "1704067200002"%string) None.

(** ** Plans of the further examples *)

(** A plan made without end date, its day open with an allowance of 100. *)
Definition planOpenEnded : Plan :=
  mkPlan "1704067200005" "Camera" "2024-01-01" None (Some false)
    (Some 3000%Q) None [] (Some 100%Q) (Some 0%Q) (Some 0%Q)
    true false true true (Some 100%Q) (Some 20%Q) (Some 50%Q) (Some []).

(** That plan with a goal of 50.7, 0.7 saved and a target of 1 a day. *)
Definition planFiftyDays : Plan :=
  mkPlan "1704067200007" "Lens" "2024-01-01" None (Some false)
    (Some 50.7%Q) None [] (Some 0.7%Q) (Some 0%Q) (Some 0%Q)
    true false true true (Some 100%Q) (Some 20%Q) (Some 1%Q) (Some []).

(** A plan whose day is open with an allowance of 10, of which 0.1 is
    spent, and the application with that plan open. *)
Definition planTightDay : Plan :=
  mkPlan "1704067200008" "Lunch" "2024-01-01" (Some "2024-03-29"%string)
    (Some true) (Some 500%Q) None [] (Some 0%Q) (Some 0%Q) (Some 0%Q)
    true false true true (Some 10%Q) (Some 0.1%Q) (Some 5%Q) (Some []).

Definition appTightDay : App :=
  mkApp
    (mkState true [planTightDay] 0%Q 0%Q (Some "2024-01-01"%string) [])
    (Some "1704067200008"%string) None.

(** ** Vocabulary of the further statements *)

(** The loop of [calculateProjectedEndDate] compares [daysNeeded] with its
    count of days, which goes up from 0 by one, and leaves at the first
    count that is not under it.  [firstNotUnder fuel d k] is that count,
    from [k] on and within [fuel] steps. *)
Fixpoint firstNotUnder (fuel : nat) (d : float) (k : Z) : Z :=
  match fuel with
  | O => k
  | S fuel' =>
      if (ofInt k <? d)%float then firstNotUnder fuel' d (k + 1) else k
  end.

(** The number of days that the loop takes the double [d] for: [d] itself
    when it is an integer from 0 to 10000, 10001 when no count to 10000
    reaches it, 0 when it is negative or [NaN]. *)
Definition asDays (d : float) : Z := firstNotUnder (Z.to_nat 10001) d 0.


(** A range whose start is not after its end. *)
Definition wellFormed (r : Range) : Prop :=
  str_leb (start r) (end_ r) = true.

(** The number of days from [s] to [e] that qualify. *)
Definition spec_qualifyingDays (exclusions : list Range) (s e : Z) : Z :=
  Z.of_nat (List.length
    (filter (spec_qualifies exclusions) (spec_daysBetween s e))).

(** The sum of [totalSaved] over the plans. *)
Definition sumTotalSaved (ps : list Plan) : Q :=
  fold_right (fun p acc => (orZero (totalSaved p) + acc)%Q) 0%Q ps.

(** * Properties *)

(** The text of a date is computed on closed days only. *)
Arguments toLocaleDateString : simpl never.
Arguments getTodayStr : simpl never.
Arguments countCalculationDays : simpl never.

(** ** The model on the examples of the specification *)

Example mergeExclusions_example :
  mergeExclusions
    (Some [mkRange "2024-01-01" "2024-01-05";
           mkRange "2024-01-04" "2024-01-10";
           mkRange "2024-02-01" "2024-02-02"])
  = [mkRange "2024-01-01" "2024-01-10"; mkRange "2024-02-01" "2024-02-02"].
Proof. reflexivity. Qed.

Example mergeExclusions_unsorted_example :
  mergeExclusions
    (Some [mkRange "2024-02-01" "2024-02-02";
           mkRange "2024-01-04" "2024-01-10";
           mkRange "2024-01-01" "2024-01-05"])
  = [mkRange "2024-01-01" "2024-01-10"; mkRange "2024-02-01" "2024-02-02"].
Proof. reflexivity. Qed.

Example toLocaleDateString_example :
  toLocaleDateString 19723 = "2024-01-01"%string /\ getDay 19723 = 1.
Proof. split; reflexivity. Qed.

Example parseISODate_example :
  parseISODate "2024-01-01" = Midnight 19723 /\
  parseISODate "2024-02-29" = Midnight 19782 /\
  parseISODate "2023-02-29" = InvalidDate /\
  parseISODate "" = InvalidDate.
Proof. repeat split. Qed.

(** A goal of 1000 with 200 saved and 8 days left: 100 a day, the whole of
    an allowance of 100, and no surcharge. *)
Example calculateRequiredDaily_formula_example :
  exists r,
    calculateRequiredDaily 19723
      (mkPlan "1" "Desk" "2024-01-01" (Some "2024-01-10"%string) (Some true)
         (Some 1000%Q) None [] (Some 200%Q) (Some 0%Q) (Some 0%Q)
         true false true false None None None (Some []))
      (Some 100%Q) = Some r /\
    (r == 100)%Q.
Proof. eexists. split; vm_compute; reflexivity. Qed.

(** On the last day, a Friday, nothing is left to count after today but
    today itself; on the Saturday that ends a plan no day is left and the
    target is the whole allowance. *)
Example calculateRequiredDaily_last_day_example :
  calculateRequiredDaily 19728
    (mkPlan "1" "Desk" "2024-01-01" (Some "2024-01-06"%string) (Some true)
       (Some 1000%Q) None [] (Some 200%Q) (Some 0%Q) (Some 0%Q)
       true false true false None None None (Some []))
    (Some 60%Q) = Some 60%Q.
Proof. vm_compute. reflexivity. Qed.

(** The rollover of 2024-01-02 on the open day of 2024-01-01. *)
Example checkDailyReset_example :
  let app' := checkDailyReset 19724 appOpenDay in
  map snapDate (stateHistory (state app'))
  = ["2023-12-29"; "2024-01-01"]%string /\
  lastLoginDate (state app') = Some "2024-01-02"%string /\
  (totalSavings (state app') == 270)%Q /\
  map dayActive (plans (state app')) = [false] /\
  map (fun p => Qeq_bool (orZero (penaltyDebt p)) 15) (plans (state app'))
  = [true] /\
  storage app' = Some (state app').
Proof. vm_compute. repeat split. Qed.

(** ** The order on strings *)

Lemma str_ltb_lt a b : str_ltb a b = true <-> String_as_OT.lt a b.
Proof.
  unfold str_ltb, String_as_OT.lt.
  destruct (String_as_OT.compare a b); split; congruence.
Qed.

Lemma str_ltb_nlt a b : str_ltb a b = false <-> ~ String_as_OT.lt a b.
Proof.
  rewrite <- str_ltb_lt. destruct (str_ltb a b); split; congruence.
Qed.

Lemma str_leb_le a b : str_leb a b = true <-> ~ String_as_OT.lt b a.
Proof.
  unfold str_leb. rewrite negb_true_iff. apply str_ltb_nlt.
Qed.

Lemma str_leb_gt a b : str_leb a b = false <-> String_as_OT.lt b a.
Proof.
  unfold str_leb. rewrite negb_false_iff. apply str_ltb_lt.
Qed.

Lemma localeCompare_Gt a b : localeCompare a b = Gt <-> String_as_OT.lt b a.
Proof. apply StrFacts.compare_gt_iff. Qed.

Lemma localeCompare_Lt a b : localeCompare a b = Lt <-> String_as_OT.lt a b.
Proof. apply StrFacts.compare_lt_iff. Qed.

Lemma localeCompare_Eq a b : localeCompare a b = Eq <-> a = b.
Proof. apply StrFacts.compare_eq_iff. Qed.

Lemma str_lt_trans a b c :
  String_as_OT.lt a b -> String_as_OT.lt b c -> String_as_OT.lt a c.
Proof. apply (StrictOrder_Transitive (R := String_as_OT.lt)). Qed.

Lemma str_lt_irrefl a : ~ String_as_OT.lt a a.
Proof. apply (StrictOrder_Irreflexive (R := String_as_OT.lt)). Qed.

Lemma str_lt_asym a b : String_as_OT.lt a b -> ~ String_as_OT.lt b a.
Proof. intros H H'. apply (str_lt_irrefl a). eapply str_lt_trans; eassumption. Qed.

Lemma str_le_lt_trans a b c :
  ~ String_as_OT.lt b a -> String_as_OT.lt b c -> String_as_OT.lt a c.
Proof.
  intros Hab Hbc.
  destruct (String_as_OT.compare_spec a c) as [E | L | L].
  - change (a = c) in E. subst. contradiction.
  - exact L.
  - exfalso. apply Hab. eapply str_lt_trans; eassumption.
Qed.

Lemma str_lt_le_trans a b c :
  String_as_OT.lt a b -> ~ String_as_OT.lt c b -> String_as_OT.lt a c.
Proof.
  intros Hab Hbc.
  destruct (String_as_OT.compare_spec a c) as [E | L | L].
  - change (a = c) in E. subst. contradiction.
  - exact L.
  - exfalso. apply Hbc. eapply str_lt_trans; eassumption.
Qed.

Lemma str_le_trans a b c :
  ~ String_as_OT.lt b a -> ~ String_as_OT.lt c b -> ~ String_as_OT.lt c a.
Proof.
  intros Hab Hbc Hca. apply Hab. eapply str_le_lt_trans; eassumption.
Qed.

Lemma str_le_refl a b : a = b -> ~ String_as_OT.lt b a.
Proof. intros ->. apply str_lt_irrefl. Qed.

Lemma str_le_antisym a b :
  ~ String_as_OT.lt b a -> ~ String_as_OT.lt a b -> a = b.
Proof.
  intros Hab Hba.
  destruct (String_as_OT.compare_spec a b) as [E | L | L];
    [exact E | contradiction | contradiction].
Qed.

Create HintDb strord.
#[local] Hint Resolve str_lt_trans str_lt_asym str_le_lt_trans
  str_lt_le_trans str_le_trans str_le_refl : strord.

(** Turns the boolean tests on strings into facts of the order. *)
Ltac str_prep :=
  repeat match goal with
  | H : before _ _ |- _ => destruct H
  | H : startLe _ _ |- _ => unfold startLe in H
  | H : endsBefore _ _ |- _ => unfold endsBefore in H
  | H : str_ltb _ _ = true |- _ => apply str_ltb_lt in H
  | H : str_ltb _ _ = false |- _ => apply str_ltb_nlt in H
  | H : str_leb _ _ = true |- _ => apply str_leb_le in H
  | H : str_leb _ _ = false |- _ => apply str_leb_gt in H
  | H : localeCompare _ _ = Gt |- _ => apply localeCompare_Gt in H
  | H : localeCompare _ _ = Lt |- _ => apply localeCompare_Lt in H
  | H : localeCompare _ _ = Eq |- _ => apply localeCompare_Eq in H
  end;
  repeat match goal with
  | |- before _ _ => split
  | |- startLe _ _ => unfold startLe
  | |- endsBefore _ _ => unfold endsBefore
  | |- _ /\ _ => split
  | |- str_ltb _ _ = true => apply str_ltb_lt
  | |- str_ltb _ _ = false => apply str_ltb_nlt
  | |- str_leb _ _ = true => apply str_leb_le
  | |- str_leb _ _ = false => apply str_leb_gt
  end.

(** Closes a goal that follows from the facts at hand by a few steps of
    transitivity. *)
Ltac str_order :=
  str_prep;
  solve [ eauto 4 with strord
        | exfalso; eauto 4 with strord
        | exfalso;
          match goal with
          | H : ~ String_as_OT.lt _ _ |- _ => apply H; eauto 4 with strord
          end ].

(** ** Merging exclusions *)

Lemma insertByStart_Forall (P : Range -> Prop) x l :
  P x -> Forall P l -> Forall P (insertByStart x l).
Proof.
  intros Hx Hl. induction Hl as [| y l Hy Hl IH]; simpl.
  - constructor; [exact Hx | constructor].
  - destruct (localeCompare (start x) (start y));
      repeat (constructor; try assumption).
Qed.

Lemma insertByStart_sorted x l :
  StronglySorted startLe l -> StronglySorted startLe (insertByStart x l).
Proof.
  induction 1 as [| y l Hs IH Hy]; simpl.
  - repeat constructor.
  - destruct (localeCompare (start x) (start y)) eqn:E.
    + constructor; [constructor; assumption |].
      constructor; [str_order |].
      eapply Forall_impl; [| exact Hy]. intros z Hz. str_order.
    + constructor; [constructor; assumption |].
      constructor; [str_order |].
      eapply Forall_impl; [| exact Hy]. intros z Hz. str_order.
    + constructor; [exact IH |].
      apply insertByStart_Forall; [str_order | exact Hy].
Qed.

Lemma sortByStart_sorted l : StronglySorted startLe (sortByStart l).
Proof.
  induction l as [| x l IH]; simpl.
  - constructor.
  - apply insertByStart_sorted, IH.
Qed.

(** A list already in order is left as it is. *)
Lemma sortByStart_fixed l :
  StronglySorted startLe l -> sortByStart l = l.
Proof.
  induction 1 as [| x l Hs IH Hx]; simpl.
  - reflexivity.
  - rewrite IH. destruct Hx as [| y l' Hy Hl']; simpl.
    + reflexivity.
    + destruct (localeCompare (start x) (start y)) eqn:E;
        try reflexivity.
      exfalso. str_order.
Qed.

(** The array under construction only grows at its back. *)
Lemma mergeLoop_merged rest : forall merged current,
  mergeLoop merged current rest = merged ++ mergeLoop [] current rest.
Proof.
  induction rest as [| next rest IH]; intros merged current; simpl.
  - reflexivity.
  - destruct (str_leb (start next) (end_ current)).
    + destruct (str_ltb (end_ current) (end_ next)); apply IH.
    + rewrite (IH (merged ++ [current])), (IH [current]).
      rewrite <- app_assoc. reflexivity.
Qed.

Lemma before_weaken l :
  StronglySorted before l ->
  StronglySorted startLe l /\ ForallOrdPairs endsBefore l.
Proof.
  induction 1 as [| a l Hs [IH1 IH2] Ha].
  - split; constructor.
  - split; constructor; try assumption.
    + eapply Forall_impl; [| exact Ha]. intros b Hb. apply Hb.
    + eapply Forall_impl; [| exact Ha]. intros b Hb. apply Hb.
Qed.

(** What the scan makes of a sorted array: a list that begins at the start
    of the accumulator, each range over before the later ones start. *)
Lemma mergeLoop_canonical rest : forall current,
  Forall (startLe current) rest ->
  StronglySorted startLe rest ->
  exists e tl,
    mergeLoop [] current rest = mkRange (start current) e :: tl /\
    StronglySorted before (mergeLoop [] current rest).
Proof.
  induction rest as [| next rest IH]; intros current Hc Hs; simpl.
  - exists (end_ current), []. destruct current; simpl.
    split; [reflexivity | repeat constructor].
  - apply Forall_cons_iff in Hc. destruct Hc as [Hn Hc].
    apply StronglySorted_inv in Hs. destruct Hs as [Hs Hr].
    destruct (str_leb (start next) (end_ current)) eqn:Hov.
    + destruct (str_ltb (end_ current) (end_ next)).
      * destruct (IH (mkRange (start current) (end_ next))) as (e & tl & E & S);
          [exact Hc | exact Hs |].
        exists e, tl. split; [exact E | exact S].
      * apply IH; assumption.
    + rewrite mergeLoop_merged.
      destruct (IH next Hr Hs) as (e & tl & E & S).
      exists (end_ current), (mergeLoop [] next rest).
      split; [destruct current; reflexivity |].
      simpl. constructor; [exact S |].
      rewrite E in S |- *. apply StronglySorted_inv in S.
      destruct S as [_ S].
      constructor; [simpl; str_order |].
      eapply Forall_impl; [| exact S]. intros r Hb. simpl in Hb.
      str_order.
Qed.

(** The scan leaves such a list as it is. *)
Lemma mergeLoop_fixed rest : forall merged current,
  StronglySorted before (current :: rest) ->
  mergeLoop merged current rest = merged ++ current :: rest.
Proof.
  induction rest as [| next rest IH]; intros merged current S; simpl.
  - reflexivity.
  - apply StronglySorted_inv in S. destruct S as [S Hc].
    apply Forall_cons_iff in Hc. destruct Hc as [Hn _].
    replace (str_leb (start next) (end_ current)) with false
      by (symmetry; str_order).
    rewrite IH by exact S. rewrite <- app_assoc. reflexivity.
Qed.

Lemma mergeExclusions_canonical exclusions :
  StronglySorted before (mergeExclusions exclusions).
Proof.
  destruct exclusions as [l |]; simpl; [| constructor].
  pose proof (sortByStart_sorted l) as S.
  destruct (sortByStart l) as [| current rest]; [constructor |].
  apply StronglySorted_inv in S. destruct S as [S Hc].
  destruct (mergeLoop_canonical rest current Hc S) as (_ & _ & _ & R).
  exact R.
Qed.

(** C6. For every set of ranges [R], [mergeExclusions] is idempotent,
    [merge (merge R) = merge R], and what it returns is in ascending order of
    [start] with every range over before any later one starts (no two
    overlap or touch). *)
Theorem mergeExclusions_idempotent_sorted_disjoint :
  forall R : option (list Range),
    mergeExclusions (Some (mergeExclusions R)) = mergeExclusions R /\
    StronglySorted startLe (mergeExclusions R) /\
    ForallOrdPairs endsBefore (mergeExclusions R).
Proof.
  intros R. pose proof (mergeExclusions_canonical R) as C.
  split; [| apply before_weaken, C].
  unfold mergeExclusions at 1.
  rewrite sortByStart_fixed by apply before_weaken, C.
  destruct (mergeExclusions R) as [| current rest]; [reflexivity |].
  apply (mergeLoop_fixed rest [] current C).
Qed.

(** ** Counting the days that qualify *)

Lemma insertByStart_existsb (P : Range -> bool) x l :
  existsb P (insertByStart x l) = P x || existsb P l.
Proof.
  induction l as [| y l IH]; simpl.
  - reflexivity.
  - destruct (localeCompare (start x) (start y)); simpl; try reflexivity.
    rewrite IH. destruct (P x), (P y); reflexivity.
Qed.

Lemma sortByStart_existsb (P : Range -> bool) l :
  existsb P (sortByStart l) = existsb P l.
Proof.
  induction l as [| x l IH]; simpl.
  - reflexivity.
  - rewrite insertByStart_existsb, IH. reflexivity.
Qed.

(** Two ranges that the scan merges cover, together, what the merged range
    covers. *)
Lemma inRange_merge s current next :
  startLe current next ->
  str_leb (start next) (end_ current) = true ->
  inRange s (if str_ltb (end_ current) (end_ next)
             then mkRange (start current) (end_ next) else current)
  = inRange s current || inRange s next.
Proof.
  intros Hs Hov. apply eq_iff_eq_true.
  rewrite orb_true_iff. unfold inRange.
  destruct (str_ltb (end_ current) (end_ next)) eqn:He; simpl;
    rewrite !andb_true_iff; split.
  - intros [H1 H2].
    destruct (str_leb s (end_ current)) eqn:Hc; [left; auto |].
    right. split; [str_order | exact H2].
  - intros [[H1 H2] | [H1 H2]]; split; str_order.
  - intros H. left. exact H.
  - intros [H | [H1 H2]]; [exact H |]. split; str_order.
Qed.

(** The scan keeps the set of days covered. *)
Lemma mergeLoop_existsb s rest : forall current,
  Forall (startLe current) rest ->
  StronglySorted startLe rest ->
  existsb (inRange s) (mergeLoop [] current rest)
  = inRange s current || existsb (inRange s) rest.
Proof.
  induction rest as [| next rest IH]; intros current Hc Hs; simpl.
  - reflexivity.
  - apply Forall_cons_iff in Hc. destruct Hc as [Hn Hc].
    apply StronglySorted_inv in Hs. destruct Hs as [Hs Hr].
    destruct (str_leb (start next) (end_ current)) eqn:Hov.
    + rewrite orb_assoc, <- (inRange_merge s current next Hn Hov).
      destruct (str_ltb (end_ current) (end_ next)).
      * apply (IH (mkRange (start current) (end_ next))); assumption.
      * apply IH; assumption.
    + rewrite mergeLoop_merged. simpl. rewrite IH by assumption.
      reflexivity.
Qed.

(** Merging keeps the set of days covered. *)
Lemma mergeExclusions_existsb s l :
  existsb (inRange s) (mergeExclusions (Some l)) = existsb (inRange s) l.
Proof.
  rewrite <- (sortByStart_existsb (inRange s) l). simpl.
  pose proof (sortByStart_sorted l) as S.
  destruct (sortByStart l) as [| current rest]; [reflexivity |].
  apply StronglySorted_inv in S. destruct S as [S Hc].
  apply mergeLoop_existsb; assumption.
Qed.

Lemma spec_daysBetween_nil s e : e < s -> spec_daysBetween s e = [].
Proof.
  intros H. unfold spec_daysBetween.
  replace (Z.to_nat (e - s + 1)) with O by lia. reflexivity.
Qed.

Lemma spec_daysBetween_cons s e :
  s <= e -> spec_daysBetween s e = s :: spec_daysBetween (s + 1) e.
Proof.
  intros H. unfold spec_daysBetween.
  replace (Z.to_nat (e - s + 1)) with (S (Z.to_nat (e - (s + 1) + 1)))
    by lia.
  simpl. f_equal; [lia |].
  rewrite <- seq_shift, map_map. apply map_ext. intros i. lia.
Qed.

Lemma getDay_range d : 0 <= getDay d <= 6.
Proof. unfold getDay. pose proof (Z.mod_pos_bound (d + 4) 7). lia. Qed.

Lemma weekend_weekday d :
  negb ((getDay d =? 0) || (getDay d =? 6)) = spec_isWeekday d.
Proof.
  unfold spec_isWeekday. pose proof (getDay_range d).
  destruct (getDay d =? 0) eqn:E0, (getDay d =? 6) eqn:E6,
    (1 <=? getDay d) eqn:E1, (getDay d <=? 5) eqn:E5;
    try reflexivity; lia.
Qed.

(** The loop counts the days that qualify, one turn per day, and leaves by
    its test before the fuel is used up. *)
Lemma countLoop_spec exclusions fuel : forall cur last count,
  (Z.to_nat (last - cur + 1) < fuel)%nat ->
  countLoop fuel (mergeExclusions (Some exclusions)) cur last count
  = count + Z.of_nat (List.length
      (filter (spec_qualifies exclusions) (spec_daysBetween cur last))).
Proof.
  induction fuel as [| fuel IH]; intros cur last count Hf; [lia |].
  cbn [countLoop]. destruct (cur <=? last) eqn:Hle.
  - apply Z.leb_le in Hle.
    assert (Hq : negb ((getDay cur =? 0) || (getDay cur =? 6))
                 && negb (existsb (inRange (toLocaleDateString cur))
                            (mergeExclusions (Some exclusions)))
                 = spec_qualifies exclusions cur).
    { rewrite weekend_weekday, mergeExclusions_existsb. reflexivity. }
    rewrite Hq, IH by lia. rewrite (spec_daysBetween_cons cur last Hle).
    cbn [filter]. destruct (spec_qualifies exclusions cur);
      cbn [List.length]; lia.
  - apply Z.leb_gt in Hle. rewrite spec_daysBetween_nil by lia.
    simpl. lia.
Qed.

Lemma countCalculationDays_spec a b exclusions s e :
  midnightOf a = Midnight s -> midnightOf b = Midnight e ->
  countCalculationDays a b exclusions
  = Z.of_nat (List.length
      (filter (spec_qualifies exclusions) (spec_daysBetween s e))).
Proof.
  intros Ha Hb. unfold countCalculationDays. rewrite Ha, Hb.
  rewrite countLoop_spec by lia. reflexivity.
Qed.

(** C9. [countCalculationDays] returns the number of days from [start] to
    [end], both included, that are Monday to Friday and lie in none of the
    exclusion ranges; it returns 0 when [start] is after [end].  From
    2024-01-01 to 2024-01-05 it counts 5 days, and 4 once 2024-01-03 is
    excluded. *)
Theorem countCalculationDays_counts_qualifying_days :
  (forall a b exclusions s e,
     midnightOf a = Midnight s -> midnightOf b = Midnight e ->
     countCalculationDays a b exclusions
     = Z.of_nat (List.length
         (filter (spec_qualifies exclusions) (spec_daysBetween s e)))
     /\ (e < s -> countCalculationDays a b exclusions = 0)) /\
  countCalculationDays (ArgString "2024-01-01") (ArgString "2024-01-05") []
  = 5 /\
  countCalculationDays (ArgString "2024-01-01") (ArgString "2024-01-05")
    [mkRange "2024-01-03" "2024-01-03"] = 4.
Proof.
  split; [| split; reflexivity].
  intros a b exclusions s e Ha Hb.
  rewrite (countCalculationDays_spec a b exclusions s e Ha Hb).
  split; [reflexivity |].
  intros H. rewrite spec_daysBetween_nil by exact H. reflexivity.
Qed.

Lemma countCalculationDays_counts_witness :
  countCalculationDays (ArgString "2024-01-01") (ArgString "2024-01-07")
    [mkRange "2024-01-02" "2024-01-03"]
  = Z.of_nat (List.length
      (filter (spec_qualifies [mkRange "2024-01-02" "2024-01-03"])
         (spec_daysBetween 19723 19729))).
Proof.
  apply (proj1 countCalculationDays_counts_qualifying_days
           (ArgString "2024-01-01") (ArgString "2024-01-07")
           [mkRange "2024-01-02" "2024-01-03"] 19723 19729);
    reflexivity.
Defined.

(** ** The daily target *)

Lemma Qltb_lt x y : Qltb x y = true <-> (x < y)%Q.
Proof.
  unfold Qltb. rewrite negb_true_iff, <- not_true_iff_false, Qle_bool_iff.
  split; [apply Qnot_le_lt | apply Qlt_not_le].
Qed.

Lemma isDateInExclusions_In d exclusions :
  isDateInExclusions d exclusions = true <->
  exists ex, In ex exclusions /\ inRange (toLocaleDateString d) ex = true.
Proof. unfold isDateInExclusions. apply existsb_exists. Qed.

(** C7. Whatever the plan (its mode flags, its end-date setting, its goal)
    and whatever the allowance, when today lies inside one of the plan's
    exclusion ranges [calculateRequiredDaily] returns 0. *)
Theorem calculateRequiredDaily_excluded_day_is_zero :
  forall (now : Z) (plan : Plan) (allowance : option Q) (ex : Range),
    In ex (orEmpty (exclusions plan)) ->
    inRange (getTodayStr now) ex = true ->
    calculateRequiredDaily now plan allowance = Some 0%Q.
Proof.
  intros now plan allowance ex Hin Hr. unfold calculateRequiredDaily.
  replace (isDateInExclusions (getManilaDate now) (orEmpty (exclusions plan)))
    with true; [reflexivity |].
  symmetry. apply isDateInExclusions_In. exists ex. split; assumption.
Qed.

Lemma calculateRequiredDaily_excluded_witness :
  calculateRequiredDaily 19725 planOnHoliday (Some 100%Q) = Some 0%Q.
Proof.
  apply (calculateRequiredDaily_excluded_day_is_zero 19725 planOnHoliday _
           (mkRange "2024-01-03" "2024-01-03")).
  - simpl. left. reflexivity.
  - reflexivity.
Defined.

(** The bounds of the result outside the indefinite manual mode. *)
Lemma half_bounds (a : Q) : (0 <= a -> 0 <= a * 0.5 <= a)%Q.
Proof. intros H. split; lra. Qed.

Lemma capped_bounds (a t : Q) : (0 <= a -> 0 <= t -> 0 <= Qmin a t <= a)%Q.
Proof.
  intros Ha Ht. split; [apply Q.min_glb; assumption | apply Q.le_min_l].
Qed.

Lemma raw_target_nonneg (x : Q) : (0 <= Qmax 0 x)%Q.
Proof. apply Q.le_max_l. Qed.

Lemma surcharge_nonneg (t a : Q) : (0 <= t -> 0 <= a -> 0 <= t + a * 0.20)%Q.
Proof. intros Ht Ha. lra. Qed.

(** The branch of a fixed end date, whichever way its tests turn. *)
Ltac fixed_end_date Ha :=
  destruct (falsy _);
    [ exists 0%Q; split; [reflexivity |]; split; [discriminate |];
      intros _; split; [apply Qle_refl | exact Ha] |];
  destruct (dateGt _ _);
    [ exists 0%Q; split; [reflexivity |]; split; [discriminate |];
      intros _; split; [apply Qle_refl | exact Ha] |];
  destruct (_ <=? 0);
    [ eexists; split; [reflexivity |]; split; [discriminate |];
      intros _; split; [exact Ha | apply Qle_refl] |];
  eexists; split; [reflexivity |]; split; [discriminate |];
  intros _; apply capped_bounds; [exact Ha |];
  destruct (_ && _);
    [ apply surcharge_nonneg; [apply raw_target_nonneg | exact Ha]
    | apply raw_target_nonneg ].

(** C1, as the code has it. For every plan and every allowance that is not
    negative, [calculateRequiredDaily] returns a number; it lies between 0
    and the allowance, except in the indefinite manual mode on a day that is
    not excluded, where it is the target stored for the day (0 when none is
    stored), whatever the allowance. *)
Theorem calculateRequiredDaily_bounds :
  forall (now : Z) (plan : Plan) (a : Q),
    (0 <= a)%Q ->
    exists r : Q,
      calculateRequiredDaily now plan (Some a) = Some r /\
      (useEndDate plan = Some false ->
       manualSavingsMode plan = true ->
       isDateInExclusions now (orEmpty (exclusions plan)) = false ->
       r = orZero (dailySavingsGoal plan)) /\
      ((useEndDate plan = Some false -> manualSavingsMode plan = false) ->
       (0 <= r <= a)%Q).
Proof.
  intros now plan a Ha. unfold calculateRequiredDaily, getManilaDate.
  destruct (isDateInExclusions now (orEmpty (exclusions plan))) eqn:Hex.
  { exists 0%Q. split; [reflexivity |]. split; [discriminate |].
    intros _. split; [apply Qle_refl | exact Ha]. }
  destruct (useEndDate plan) as [[|] |] eqn:Hu.
  - fixed_end_date Ha.
  - destruct (manualSavingsMode plan) eqn:Hm; simpl.
    + exists (orZero (dailySavingsGoal plan)).
      split; [reflexivity |]. split; [reflexivity |].
      intros H. specialize (H eq_refl). discriminate.
    + exists (a * 0.5)%Q. split; [reflexivity |]. split; [discriminate |].
      intros _. apply half_bounds, Ha.
  - fixed_end_date Ha.
Qed.

Lemma calculateRequiredDaily_bounds_witness :
  exists r : Q,
    calculateRequiredDaily 19723 planNearGoal (Some 90%Q) = Some r /\
    (useEndDate planNearGoal = Some false ->
     manualSavingsMode planNearGoal = true ->
     isDateInExclusions 19723 (orEmpty (exclusions planNearGoal)) = false ->
     r = orZero (dailySavingsGoal planNearGoal)) /\
    ((useEndDate planNearGoal = Some false ->
      manualSavingsMode planNearGoal = false) ->
     (0 <= r <= 90)%Q).
Proof.
  apply (calculateRequiredDaily_bounds 19723 planNearGoal 90%Q).
  unfold Qle. simpl. lia.
Defined.

(** C1 fails as stated: in the indefinite manual mode the result is the
    stored manual target, here 200 against an allowance of 100. *)
Lemma calculateRequiredDaily_manual_exceeds_allowance :
  (0 <= 100)%Q /\
  calculateRequiredDaily 19723 planManualIndefinite (Some 100%Q)
  = Some 200%Q /\
  ~ (0 <= 200 <= 100)%Q.
Proof.
  split; [unfold Qle; simpl; lia |]. split; [reflexivity |].
  intros [_ H]. revert H. unfold Qle. simpl. lia.
Qed.

(** The doubles of some numbers: a decimal gives the nearest double, a sum
    of doubles is rounded again, and an integer above 2^53 goes to the
    nearest even neighbour. *)
Example double_examples :
  double 0.5 = 0.5%float /\
  double 0.1 = 0.1%float /\
  double 0.1 = 0x1.999999999999ap-4%float /\
  (double 0.1 + double 0.2)%float = 0.30000000000000004%float /\
  double 0.3 = 0x1.3333333333333p-2%float /\
  double (1 # 3) = 0x1.5555555555555p-2%float /\
  double (-2.5) = (-2.5)%float /\
  double 9007199254740993 = 9007199254740992%float /\
  double 9007199254740995 = 9007199254740996%float /\
  ofInt 10000 = 10000%float.
Proof. repeat split; vm_compute; reflexivity. Qed.

(** C8. With a fixed end date, manual mode off, a goal, today not excluded
    and not after the end date, and days left to count: when the allowance
    is at least 80 and the raw target [max(0, (goal - totalSaved) /
    daysLeft)], as the script computes it on doubles, is under 50,
    [calculateRequiredDaily] adds 20% of the allowance to the raw target and
    then caps the sum at the allowance.  With a goal of 10000, 9900 saved,
    10 days left and an allowance of 90 the raw target is 10, the surcharge
    18 and the result 28. *)
Theorem calculateRequiredDaily64_surcharge :
  (forall (now : Z) (plan : Plan) (a : Q),
     usesEndDate plan = true ->
     manualSavingsMode plan = false ->
     isDateInExclusions now (orEmpty (exclusions plan)) = false ->
     falsy (goal plan) = false ->
     dateGt (Midnight now) (newDate (endDate plan)) = false ->
     let daysLeft :=
       countCalculationDays (ArgDate (Midnight now))
         (ArgDate (newDate (endDate plan))) (orEmpty (exclusions plan)) in
     let raw :=
       Math_max 0
         ((number (goal plan) - double (orZero (totalSaved plan)))
          / ofInt daysLeft) in
     0 < daysLeft ->
     (80 <=? double a)%float = true ->
     (raw <? 50)%float = true ->
     calculateRequiredDaily64 now plan (Some a)
     = Math_min (double a) (raw + double a * 0.20)) /\
  (countCalculationDays (ArgDate (Midnight 19723))
     (ArgDate (newDate (endDate planNearGoal)))
     (orEmpty (exclusions planNearGoal)) = 10 /\
   Math_max 0 ((double 10000 - double 9900) / ofInt 10) = 10%float /\
   (double 90 * 0.20)%float = 18%float /\
   calculateRequiredDaily64 19723 planNearGoal (Some 90%Q) = 28%float).
Proof.
  split.
  - intros now plan a Hu Hm Hex Hg Hend daysLeft raw Hd Ha Hraw.
    unfold calculateRequiredDaily64, getManilaDate.
    rewrite Hex, Hg, Hend. fold daysLeft.
    replace (daysLeft <=? 0) with false by (symmetry; apply Z.leb_gt; lia).
    fold raw. rewrite Hu, Hm. cbn [number negb andb].
    rewrite Ha, Hraw.
    unfold usesEndDate in Hu.
    destruct (useEndDate plan) as [[|] |]; [reflexivity | discriminate |
      reflexivity].
  - split; [vm_compute; reflexivity |].
    split; [vm_compute; reflexivity |].
    split; vm_compute; reflexivity.
Qed.

Lemma calculateRequiredDaily64_surcharge_witness :
  calculateRequiredDaily64 19723 planNearGoal (Some 90%Q)
  = Math_min (double 90)
      (Math_max 0
         ((number (goal planNearGoal)
           - double (orZero (totalSaved planNearGoal)))
          / ofInt
              (countCalculationDays (ArgDate (Midnight 19723))
                 (ArgDate (newDate (endDate planNearGoal)))
                 (orEmpty (exclusions planNearGoal))))
       + double 90 * 0.20).
Proof.
  apply (proj1 calculateRequiredDaily64_surcharge 19723 planNearGoal 90%Q);
    vm_compute; reflexivity.
Defined.

(** The rule follows the doubles: with a goal of 50.3, 0.3 saved and one day
    left, the doubles of the two numbers differ by a little less than 50,
    and the script's difference is the nearest double, 50, which is not
    under 50: an allowance of 90 gets no surcharge and the target is 50. *)
Example calculateRequiredDaily64_at_fifty :
  countCalculationDays (ArgDate (Midnight 19723))
    (ArgDate (newDate (endDate planFiftyShort)))
    (orEmpty (exclusions planFiftyShort)) = 1 /\
  (number (goal planFiftyShort)
   - double (orZero (totalSaved planFiftyShort)))%float = 50%float /\
  calculateRequiredDaily64 19723 planFiftyShort (Some 90%Q) = 50%float.
Proof. repeat split; vm_compute; reflexivity. Qed.

(** Where the script does no arithmetic, the embedding on doubles returns
    the double of what the exact embedding returns. *)
Lemma calculateRequiredDaily64_exact_branches now plan allowance :
  isDateInExclusions now (orEmpty (exclusions plan)) = true \/
  (useEndDate plan = Some false /\ manualSavingsMode plan = true) \/
  (usesEndDate plan = true /\
   (falsy (goal plan) = true \/
    dateGt (Midnight now) (newDate (endDate plan)) = true \/
    countCalculationDays (ArgDate (Midnight now))
      (ArgDate (newDate (endDate plan))) (orEmpty (exclusions plan)) <= 0)) ->
  calculateRequiredDaily64 now plan allowance
  = number (calculateRequiredDaily now plan allowance).
Proof.
  unfold calculateRequiredDaily64, calculateRequiredDaily, getManilaDate,
    usesEndDate.
  intros [H | [[H1 H2] | [Hu H]]].
  - rewrite H. reflexivity.
  - destruct (isDateInExclusions now (orEmpty (exclusions plan)));
      [reflexivity |].
    rewrite H1, H2. reflexivity.
  - destruct (isDateInExclusions now (orEmpty (exclusions plan)));
      [reflexivity |].
    destruct (useEndDate plan) as [[|] |]; try discriminate;
      (destruct (falsy (goal plan)); [reflexivity |];
       destruct (dateGt (Midnight now) (newDate (endDate plan)));
         [reflexivity |];
       destruct H as [H | [H | H]]; try discriminate;
       apply Z.leb_le in H; rewrite H; reflexivity).
Qed.

(** ** The daily rollover *)

(** The condition under which closing a day adds to the debt. *)
Lemma penalty_test plan (actual target : Q) :
  penaltyMode plan && (estimateMode plan || manualSavingsMode plan)
    && Qltb actual target = true <->
  penaltyMode plan = true /\
  (estimateMode plan = true \/ manualSavingsMode plan = true) /\
  (actual < target)%Q.
Proof.
  rewrite !andb_true_iff, orb_true_iff, Qltb_lt. tauto.
Qed.

(** What closing does to a plan does not depend on the running total. *)
Lemma closeDay_plan lastLogin todayStr ts ts' plan :
  snd (closeDay lastLogin todayStr ts plan)
  = snd (closeDay lastLogin todayStr ts' plan).
Proof. unfold closeDay. destruct (dayActive plan); reflexivity. Qed.

(** The [forEach] closes each plan in turn and passes the total along. *)
Lemma closeDays_forEach lastLogin todayStr ps : forall ts,
  closeDays lastLogin todayStr ts ps
  = (fold_left (fun t p => fst (closeDay lastLogin todayStr t p)) ps ts,
     map (fun p => snd (closeDay lastLogin todayStr 0 p)) ps).
Proof.
  induction ps as [| plan ps IH]; intros ts; simpl.
  - reflexivity.
  - destruct (closeDay lastLogin todayStr ts plan) as [ts' plan'] eqn:E.
    rewrite IH. simpl.
    rewrite (closeDay_plan lastLogin todayStr 0 ts plan), E. reflexivity.
Qed.

Lemma rollover_changes now st :
  differs (lastLoginDate st) (getTodayStr now) = true ->
  rollover now st
  = mkState (tosAgreed st)
      (map (fun p => snd (closeDay (lastLoginDate st) (getTodayStr now) 0 p))
         (plans st))
      (fold_left
         (fun t p => fst (closeDay (lastLoginDate st) (getTodayStr now) t p))
         (plans st) (totalSavings st))
      (stateTotalSpent st) (Some (getTodayStr now))
      (pushCapped (stateHistory st)
         (mkSnapshot (strOr (lastLoginDate st) (getTodayStr now))
            (fold_left
               (fun t p =>
                  fst (closeDay (lastLoginDate st) (getTodayStr now) t p))
               (plans st) (totalSavings st)))).
Proof.
  intros H. unfold rollover. rewrite H, closeDays_forEach. reflexivity.
Qed.

(** C3. The rollover closes every plan in turn.  When it closes the day of
    an open plan, with
    [actualSavings = dailyAllowance - dailySpent] (which may be negative):
    [penaltyDebt] grows by [dailySavingsGoal - actualSavings] exactly when
    penalty mode is on, estimate or manual mode is on, and [actualSavings]
    is under [dailySavingsGoal]; the document's [totalSavings] and the plan's
    [totalSaved] grow by [actualSavings], [totalSpent] by [dailySpent];
    [dayActive] becomes false and the three daily fields 0.  A plan closing
    with allowance 100, 30 spent, a target of 80 and penalty mode on (in
    estimate or manual mode) has saved 70: its debt grows by 10 and its
    [totalSaved] by 70. *)
Theorem closeDay_accounts :
  (forall (now : Z) (st : State),
     differs (lastLoginDate st) (getTodayStr now) = true ->
     plans (rollover now st)
     = map (fun p => snd (closeDay (lastLoginDate st) (getTodayStr now) 0 p))
         (plans st) /\
     totalSavings (rollover now st)
     = fold_left
         (fun t p => fst (closeDay (lastLoginDate st) (getTodayStr now) t p))
         (plans st) (totalSavings st)) /\
  (forall (lastLogin : option string) (todayStr : string) (ts : Q)
          (plan : Plan),
     dayActive plan = true ->
     let actualSavings :=
       (orZero (dailyAllowance plan) - orZero (dailySpent plan))%Q in
     let target := orZero (dailySavingsGoal plan) in
     let plan' := snd (closeDay lastLogin todayStr ts plan) in
     (penaltyMode plan = true /\
      (estimateMode plan = true \/ manualSavingsMode plan = true) /\
      (actualSavings < target)%Q ->
      penaltyDebt plan'
      = Some (orZero (penaltyDebt plan) + (target - actualSavings))%Q) /\
     (~ (penaltyMode plan = true /\
         (estimateMode plan = true \/ manualSavingsMode plan = true) /\
         (actualSavings < target)%Q) ->
      penaltyDebt plan' = penaltyDebt plan) /\
     fst (closeDay lastLogin todayStr ts plan) = (ts + actualSavings)%Q /\
     totalSaved plan' = Some (orZero (totalSaved plan) + actualSavings)%Q /\
     totalSpent plan'
     = Some (orZero (totalSpent plan) + orZero (dailySpent plan))%Q /\
     dayActive plan' = false /\
     dailyAllowance plan' = Some 0%Q /\
     dailySpent plan' = Some 0%Q /\
     dailySavingsGoal plan' = Some 0%Q) /\
  (forall (lastLogin : option string) (todayStr : string) (ts : Q)
          (plan : Plan),
     dayActive plan = true ->
     dailyAllowance plan = Some 100%Q ->
     dailySpent plan = Some 30%Q ->
     dailySavingsGoal plan = Some 80%Q ->
     penaltyMode plan = true ->
     estimateMode plan || manualSavingsMode plan = true ->
     let plan' := snd (closeDay lastLogin todayStr ts plan) in
     (100 - 30 == 70)%Q /\
     (exists debt, penaltyDebt plan' = Some debt /\
                   (debt == orZero (penaltyDebt plan) + 10)%Q) /\
     (exists saved, totalSaved plan' = Some saved /\
                    (saved == orZero (totalSaved plan) + 70)%Q) /\
     (fst (closeDay lastLogin todayStr ts plan) == ts + 70)%Q /\
     dayActive plan' = false /\
     dailyAllowance plan' = Some 0%Q /\
     dailySpent plan' = Some 0%Q /\
     dailySavingsGoal plan' = Some 0%Q).
Proof.
  split; [| split].
  - intros now st H. rewrite (rollover_changes now st H). split; reflexivity.
  - intros lastLogin todayStr ts plan Hopen actualSavings target plan'.
    subst plan'. unfold closeDay. rewrite Hopen. cbn [fst snd penaltyDebt
      totalSaved totalSpent dayActive dailyAllowance dailySpent
      dailySavingsGoal].
    fold actualSavings. fold target.
    repeat split.
    + intros H. apply penalty_test in H.
      apply andb_true_iff in H. destruct H as [H1 H2].
      rewrite H1, H2. reflexivity.
    + intros H. rewrite <- penalty_test in H.
      apply not_true_is_false in H.
      destruct (penaltyMode plan && (estimateMode plan
                                     || manualSavingsMode plan)); [| reflexivity].
      simpl in H. rewrite H. reflexivity.
  - intros lastLogin todayStr ts plan Hopen Ha Hs Hg Hp Hm plan'.
    subst plan'. unfold closeDay. rewrite Hopen, Ha, Hs, Hg, Hp, Hm.
    cbn [fst snd penaltyDebt totalSaved totalSpent dayActive dailyAllowance
      dailySpent dailySavingsGoal orZero andb].
    replace (Qltb (100 - 30) 80) with true by reflexivity.
    split; [reflexivity |].
    split; [eexists; split; [reflexivity | lra] |].
    split; [eexists; split; [reflexivity | lra] |].
    split; [lra |]. repeat split.
Qed.

Lemma closeDay_accounts_witness :
  let plan' := snd (closeDay (Some "2024-01-01"%string) "2024-01-02" 200
                      planOpenDay) in
  (100 - 30 == 70)%Q /\
  (exists debt, penaltyDebt plan' = Some debt /\
                (debt == orZero (penaltyDebt planOpenDay) + 10)%Q) /\
  (exists saved, totalSaved plan' = Some saved /\
                 (saved == orZero (totalSaved planOpenDay) + 70)%Q) /\
  (fst (closeDay (Some "2024-01-01"%string) "2024-01-02" 200 planOpenDay)
   == 200 + 70)%Q /\
  dayActive plan' = false /\
  dailyAllowance plan' = Some 0%Q /\
  dailySpent plan' = Some 0%Q /\
  dailySavingsGoal plan' = Some 0%Q.
Proof.
  apply (proj2 (proj2 closeDay_accounts) (Some "2024-01-01"%string)
           "2024-01-02"%string 200%Q planOpenDay); reflexivity.
Defined.

Lemma differs_same s : differs (Some s) s = false.
Proof. unfold differs. rewrite String.eqb_refl. reflexivity. Qed.

Lemma rollover_lastLoginDate now st :
  differs (lastLoginDate (rollover now st)) (getTodayStr now) = false.
Proof.
  unfold rollover.
  destruct (differs (lastLoginDate st) (getTodayStr now)) eqn:E.
  - destruct (closeDays _ _ _ _). cbn [lastLoginDate].
    apply differs_same.
  - exact E.
Qed.

(** C4. [checkDailyReset] is idempotent within a calendar day: when
    [lastLoginDate] already is today it changes nothing, no field of the
    document, no field of a plan, and nothing that is saved; so a second
    call on the day of a first one leaves everything as the first one left
    it. *)
Theorem checkDailyReset_idempotent_per_day :
  (forall (now : Z) (app : App),
     lastLoginDate (state app) = Some (getTodayStr now) ->
     checkDailyReset now app = app /\
     rollover now (state app) = state app) /\
  (forall (now : Z) (app : App),
     checkDailyReset now (checkDailyReset now app) = checkDailyReset now app).
Proof.
  split.
  - intros now app H. unfold checkDailyReset, rollover.
    rewrite H, differs_same. split; reflexivity.
  - intros now app. unfold checkDailyReset at 1.
    replace (differs (lastLoginDate (state (checkDailyReset now app)))
               (getTodayStr now)) with false; [reflexivity |].
    symmetry. unfold checkDailyReset.
    destruct (differs (lastLoginDate (state app)) (getTodayStr now)) eqn:E.
    + cbn [state saveState]. apply rollover_lastLoginDate.
    + exact E.
Qed.

Lemma checkDailyReset_idempotent_witness :
  checkDailyReset 19723 appOpenDay = appOpenDay /\
  rollover 19723 (state appOpenDay) = state appOpenDay.
Proof.
  apply (proj1 checkDailyReset_idempotent_per_day 19723 appOpenDay).
  reflexivity.
Defined.

(** ** The histories *)

Lemma pushCapped_back {A : Type} (h : list A) (e : A) :
  pushCapped h e = (if (List.length h <? 30)%nat then h else tl h) ++ [e].
Proof.
  unfold pushCapped. rewrite length_app. simpl.
  destruct (List.length h <? 30)%nat eqn:E.
  - apply Nat.ltb_lt in E.
    replace (30 <? List.length h + 1)%nat with false
      by (symmetry; apply Nat.ltb_ge; lia).
    reflexivity.
  - apply Nat.ltb_ge in E.
    replace (30 <? List.length h + 1)%nat with true
      by (symmetry; apply Nat.ltb_lt; lia).
    destruct h as [| x t]; [simpl in E; lia | reflexivity].
Qed.

Lemma pushCapped_length {A : Type} (h : list A) (e : A) :
  (List.length h <= 30)%nat ->
  (List.length (pushCapped h e) <= 30)%nat /\
  List.length (pushCapped h e) = Nat.min 30 (S (List.length h)).
Proof.
  intros H. rewrite pushCapped_back, length_app. cbn [List.length].
  destruct (List.length h <? 30)%nat eqn:E.
  - apply Nat.ltb_lt in E. lia.
  - apply Nat.ltb_ge in E.
    destruct h as [| x t]; cbn [List.length tl] in *; lia.
Qed.

(** Entries pushed one after the other leave the last 30 of all. *)
Lemma fold_pushCapped {A : Type} (es : list A) : forall h : list A,
  (List.length h <= 30)%nat ->
  fold_left pushCapped es h = lastn 30 (h ++ es).
Proof.
  induction es as [| e es IH]; intros h H.
  - simpl. rewrite app_nil_r. unfold lastn.
    replace (List.length h - 30)%nat with O by lia. reflexivity.
  - cbn [fold_left]. rewrite IH by apply pushCapped_length, H.
    rewrite pushCapped_back.
    destruct (List.length h <? 30)%nat eqn:E.
    + rewrite <- app_assoc. reflexivity.
    + apply Nat.ltb_ge in E. destruct h as [| x t]; [simpl in E; lia |].
      simpl in H, E. cbn [tl]. rewrite <- app_assoc. cbn [app].
      unfold lastn. rewrite !length_app. cbn [List.length].
      rewrite length_app. cbn [List.length].
      replace (List.length t + S (List.length es) - 30)%nat
        with (List.length es) by lia.
      replace (S (List.length t + S (List.length es)) - 30)%nat
        with (S (List.length es)) by lia.
      reflexivity.
Qed.

Lemma rollovers_history days : forall st,
  effective days st ->
  stateHistory (rollovers days st)
  = fold_left pushCapped (docEntries days st) (stateHistory st).
Proof.
  induction days as [| d ds IH]; intros st H.
  - reflexivity.
  - destruct H as [Hd Hds]. cbn [rollovers docEntries fold_left].
    rewrite (IH _ Hds). f_equal.
    rewrite (rollover_changes d st Hd). reflexivity.
Qed.

Lemma docEntries_length days : forall st,
  List.length (docEntries days st) = List.length days.
Proof.
  induction days as [| d ds IH]; intros st; simpl; [| rewrite IH];
    reflexivity.
Qed.

Lemma closeDay_history lastLogin todayStr ts plan :
  dayActive plan = true ->
  history (snd (closeDay lastLogin todayStr ts plan))
  = Some (pushCapped (orEmpty (history plan))
            (mkPlanSnapshot (strOr lastLogin todayStr)
               (orZero (totalSaved plan)
                + (orZero (dailyAllowance plan)
                   - orZero (dailySpent plan)))%Q)).
Proof. intros H. unfold closeDay. rewrite H. reflexivity. Qed.

Lemma closeDay_closed lastLogin todayStr ts plan :
  dayActive plan = false ->
  closeDay lastLogin todayStr ts plan = (ts, plan).
Proof. intros H. unfold closeDay. rewrite H. reflexivity. Qed.

Lemma closeDay_history_bound lastLogin todayStr ts plan :
  (List.length (orEmpty (history plan)) <= 30)%nat ->
  (List.length (orEmpty (history (snd (closeDay lastLogin todayStr ts plan))))
   <= 30)%nat.
Proof.
  intros H. destruct (dayActive plan) eqn:E.
  - rewrite closeDay_history by exact E. apply pushCapped_length, H.
  - rewrite closeDay_closed by exact E. exact H.
Qed.

Lemma rollover_history_bound now st :
  (List.length (stateHistory st) <= 30)%nat ->
  Forall (fun p => (List.length (orEmpty (history p)) <= 30)%nat) (plans st) ->
  (List.length (stateHistory (rollover now st)) <= 30)%nat /\
  Forall (fun p => (List.length (orEmpty (history p)) <= 30)%nat)
    (plans (rollover now st)).
Proof.
  intros Hd Hp.
  destruct (differs (lastLoginDate st) (getTodayStr now)) eqn:E.
  - rewrite (rollover_changes now st E). cbn [stateHistory plans].
    split; [apply pushCapped_length, Hd |].
    apply Forall_map. eapply Forall_impl; [| exact Hp].
    intros p. apply closeDay_history_bound.
  - unfold rollover. rewrite E. split; assumption.
Qed.

(** C5. The histories stay within 30 entries.  A push puts exactly one
    entry at the back and, when that would make 31, drops exactly the entry
    at the front.  A rollover that sees a new date pushes one entry to the
    document's history and one to the history of each plan whose day it
    closes; histories of at most 30 entries stay so.  After 40 rollovers in a
    row a history that began empty has exactly 30 entries, the last 30 of the
    40 pushed, in their order; so it is on a run of 40 days of use, for the
    document and for the plan. *)
Theorem histories_capped_at_30 :
  (forall (A : Type) (h : list A) (e : A),
     pushCapped h e = (if (List.length h <? 30)%nat then h else tl h) ++ [e]) /\
  (forall (now : Z) (st : State),
     differs (lastLoginDate st) (getTodayStr now) = true ->
     stateHistory (rollover now st)
     = pushCapped (stateHistory st)
         (mkSnapshot (strOr (lastLoginDate st) (getTodayStr now))
            (totalSavings (rollover now st)))) /\
  (forall (lastLogin : option string) (todayStr : string) (ts : Q)
          (plan : Plan),
     dayActive plan = true ->
     history (snd (closeDay lastLogin todayStr ts plan))
     = Some (pushCapped (orEmpty (history plan))
               (mkPlanSnapshot (strOr lastLogin todayStr)
                  (orZero (totalSaved plan)
                   + (orZero (dailyAllowance plan)
                      - orZero (dailySpent plan)))%Q))) /\
  (forall (now : Z) (st : State),
     (List.length (stateHistory st) <= 30)%nat ->
     Forall (fun p => (List.length (orEmpty (history p)) <= 30)%nat)
       (plans st) ->
     (List.length (stateHistory (rollover now st)) <= 30)%nat /\
     Forall (fun p => (List.length (orEmpty (history p)) <= 30)%nat)
       (plans (rollover now st))) /\
  (forall (days : list Z) (st : State),
     effective days st ->
     List.length days = 40%nat ->
     stateHistory st = [] ->
     List.length (stateHistory (rollovers days st)) = 30%nat /\
     stateHistory (rollovers days st) = skipn 10 (docEntries days st)) /\
  (let app := fold_left dayThenRollover fortyDays appFresh in
   List.length (stateHistory (state app)) = 30%nat /\
   map snapDate (stateHistory (state app))
   = map toLocaleDateString (skipn 10 fortyDays) /\
   exists plan,
     findPlan (currentPlanId app) (plans (state app)) = Some plan /\
     List.length (orEmpty (history plan)) = 30%nat /\
     map date (orEmpty (history plan))
     = map toLocaleDateString (skipn 10 fortyDays)).
Proof.
  split; [intros A h e; apply pushCapped_back |].
  split.
  { intros now st H. rewrite (rollover_changes now st H). reflexivity. }
  split; [intros; apply closeDay_history; assumption |].
  split; [apply rollover_history_bound |].
  split.
  - intros days st He Hl H0.
    rewrite (rollovers_history days st He), H0.
    rewrite fold_pushCapped by (simpl; lia).
    cbn [app]. unfold lastn. rewrite docEntries_length, Hl.
    split; [| reflexivity].
    rewrite length_skipn, docEntries_length, Hl. reflexivity.
  - vm_compute. split; [reflexivity |]. split; [reflexivity |].
    eexists. split; [reflexivity |]. split; reflexivity.
Qed.

Lemma histories_capped_witness :
  List.length
    (stateHistory
       (rollovers (map (fun d => d + 1) fortyDays) (state appFresh)))
  = 30%nat /\
  stateHistory (rollovers (map (fun d => d + 1) fortyDays) (state appFresh))
  = skipn 10 (docEntries (map (fun d => d + 1) fortyDays) (state appFresh)).
Proof.
  apply (proj1 (proj2 (proj2 (proj2 (proj2 histories_capped_at_30))))
           (map (fun d => d + 1) fortyDays) (state appFresh)).
  - vm_compute. repeat split.
  - reflexivity.
  - reflexivity.
Defined.

(** ** The handlers of the plan screen *)

Lemma refreshPlanTarget_keeps now plan :
  let plan' := refreshPlanTarget now plan in
  id plan' = id plan /\
  estimateMode plan' = estimateMode plan /\
  manualSavingsMode plan' = manualSavingsMode plan /\
  dayActive plan' = dayActive plan /\
  totalSaved plan' = totalSaved plan /\
  totalSpent plan' = totalSpent plan /\
  penaltyDebt plan' = penaltyDebt plan /\
  history plan' = history plan.
Proof.
  unfold refreshPlanTarget.
  destruct (negb (dayActive plan)); [repeat split |].
  destruct (negb (manualSavingsMode plan)); repeat split.
Qed.

Lemma toggleEstimatePlan_id now checked plan :
  id (toggleEstimatePlan now checked plan) = id plan.
Proof.
  unfold toggleEstimatePlan.
  destruct (refreshPlanTarget_keeps now
    (if estimateMode (setEstimateMode checked plan)
     then setManualSavingsMode false (setEstimateMode checked plan)
     else setEstimateMode checked plan)) as [H _].
  rewrite H. destruct checked; reflexivity.
Qed.

Lemma toggleManualPlan_id now checked plan :
  id (toggleManualPlan now checked plan) = id plan.
Proof.
  unfold toggleManualPlan.
  destruct (refreshPlanTarget_keeps now
    (if manualSavingsMode (setManualSavingsMode checked plan)
     then setEstimateMode false (setManualSavingsMode checked plan)
     else setEstimateMode true (setManualSavingsMode checked plan)))
    as [H _].
  rewrite H. destruct checked; reflexivity.
Qed.

Lemma find_writePlan i plan plan' ps :
  find (fun p => String.eqb (id p) i) ps = Some plan ->
  id plan' = i ->
  find (fun p => String.eqb (id p) i) (writePlan i plan' ps) = Some plan'.
Proof.
  intros Hf Hi. induction ps as [| p ps IH]; simpl in *; [discriminate |].
  destruct (String.eqb (id p) i) eqn:E; simpl.
  - rewrite Hi, String.eqb_refl. reflexivity.
  - rewrite E. apply IH, Hf.
Qed.

(** A handler on the current plan, when the plan is there: it runs to its
    end, the plan is now what the handler made of it, the document is saved,
    and the document's own fields are as they were. *)
Lemma onCurrentPlan_completed (f : Plan -> Plan) app plan :
  findPlan (currentPlanId app) (plans (state app)) = Some plan ->
  id (f plan) = id plan ->
  exists app',
    onCurrentPlan f app = Completed app' /\
    findPlan (currentPlanId app') (plans (state app')) = Some (f plan) /\
    storage app' = Some (state app') /\
    totalSavings (state app') = totalSavings (state app) /\
    stateHistory (state app') = stateHistory (state app) /\
    lastLoginDate (state app') = lastLoginDate (state app).
Proof.
  intros Hf Hid. unfold onCurrentPlan. rewrite Hf.
  unfold findPlan in Hf.
  destruct (currentPlanId app) as [i |] eqn:Hc; [| discriminate].
  eexists. split; [reflexivity |]. cbn [saveState state currentPlanId plans
    storage totalSavings stateHistory lastLoginDate findPlan].
  repeat split.
  apply find_writePlan with (plan := plan); [exact Hf |].
  rewrite Hid. apply find_some in Hf. destruct Hf as [_ Hf].
  apply String.eqb_eq, Hf.
Qed.

(** C2, as the code has it. The two mode flags are never both true after a
    toggle.  Checking either toggle, and unchecking the manual one, leaves
    exactly one of them true; unchecking the estimate toggle turns estimate
    mode off and leaves manual mode as it was, so both are false when manual
    mode was off. *)
Theorem mode_toggles_keep_flags_exclusive :
  (forall (now : Z) (checked : bool) (plan : Plan),
     let viaEstimate := toggleEstimatePlan now checked plan in
     let viaManual := toggleManualPlan now checked plan in
     estimateMode viaEstimate && manualSavingsMode viaEstimate = false /\
     estimateMode viaManual && manualSavingsMode viaManual = false /\
     xorb (estimateMode viaManual) (manualSavingsMode viaManual) = true /\
     (checked = true ->
      xorb (estimateMode viaEstimate) (manualSavingsMode viaEstimate)
      = true) /\
     (checked = false ->
      estimateMode viaEstimate = false /\
      manualSavingsMode viaEstimate = manualSavingsMode plan)) /\
  (forall (now : Z) (checked : bool) (app : App) (plan : Plan),
     findPlan (currentPlanId app) (plans (state app)) = Some plan ->
     (exists app',
        toggleEstimate now checked app = Completed app' /\
        findPlan (currentPlanId app') (plans (state app'))
        = Some (toggleEstimatePlan now checked plan)) /\
     (exists app',
        toggleManual now checked app = Completed app' /\
        findPlan (currentPlanId app') (plans (state app'))
        = Some (toggleManualPlan now checked plan))).
Proof.
  split.
  - intros now checked plan viaEstimate viaManual.
    subst viaEstimate viaManual. unfold toggleEstimatePlan, toggleManualPlan.
    destruct (refreshPlanTarget_keeps now
      (if estimateMode (setEstimateMode checked plan)
       then setManualSavingsMode false (setEstimateMode checked plan)
       else setEstimateMode checked plan)) as (_ & He1 & Hm1 & _).
    destruct (refreshPlanTarget_keeps now
      (if manualSavingsMode (setManualSavingsMode checked plan)
       then setEstimateMode false (setManualSavingsMode checked plan)
       else setEstimateMode true (setManualSavingsMode checked plan)))
      as (_ & He2 & Hm2 & _).
    cbv zeta in He1, Hm1, He2, Hm2. rewrite He1, Hm1, He2, Hm2.
    destruct checked; simpl; repeat split; try reflexivity;
      try discriminate.
  - intros now checked app plan Hf. split.
    + destruct (onCurrentPlan_completed (toggleEstimatePlan now checked)
                  app plan Hf (toggleEstimatePlan_id now checked plan))
        as (app' & H1 & H2 & _).
      exists app'. split; assumption.
    + destruct (onCurrentPlan_completed (toggleManualPlan now checked)
                  app plan Hf (toggleManualPlan_id now checked plan))
        as (app' & H1 & H2 & _).
      exists app'. split; assumption.
Qed.

Lemma mode_toggles_witness :
  xorb (estimateMode (toggleEstimatePlan 19723 true planManualIndefinite))
    (manualSavingsMode (toggleEstimatePlan 19723 true planManualIndefinite))
  = true.
Proof.
  apply (proj1 mode_toggles_keep_flags_exclusive 19723 true
           planManualIndefinite).
  reflexivity.
Defined.

(** C2 fails as stated: a new plan has exactly one flag set, estimate mode;
    unchecking the estimate toggle leaves it with neither. *)
Lemma toggleEstimate_unchecked_clears_both :
  exists plan app' plan',
    findPlan (currentPlanId appFresh) (plans (state appFresh)) = Some plan /\
    xorb (estimateMode plan) (manualSavingsMode plan) = true /\
    toggleEstimate 19723 false appFresh = Completed app' /\
    findPlan (currentPlanId app') (plans (state app')) = Some plan' /\
    estimateMode plan' = false /\
    manualSavingsMode plan' = false /\
    xorb (estimateMode plan') (manualSavingsMode plan') = false.
Proof.
  do 3 eexists. vm_compute. repeat split.
Qed.

(** C10. Starting a day on a plan whose day is already open overwrites the
    open day: [dailySpent] is 0 again, [dailyAllowance] and
    [dailySavingsGoal] are those of the new start, while [totalSaved],
    [totalSpent], [penaltyDebt] and both histories (and the document's
    [totalSavings]) are as they were; what was spent and saved in the day
    so far is dropped, nothing of it is accrued. *)
Theorem startDay_overwrites_open_day :
  forall (now : Z) (parsed : option Q) (manualInput : InputValue) (app : App)
         (plan : Plan),
    findPlan (currentPlanId app) (plans (state app)) = Some plan ->
    dayActive plan = true ->
    exists app' plan',
      startDay now (Entered parsed) manualInput app = Completed app' /\
      findPlan (currentPlanId app') (plans (state app')) = Some plan' /\
      dayActive plan' = true /\
      dailySpent plan' = Some 0%Q /\
      dailyAllowance plan' = Some (parseFloatOrZero (Entered parsed)) /\
      dailySavingsGoal plan'
      = (if manualSavingsMode plan then Some (parseFloatOrZero manualInput)
         else if estimateMode plan
              then calculateRequiredDaily now plan
                     (Some (parseFloatOrZero (Entered parsed)))
              else Some 0%Q) /\
      totalSaved plan' = totalSaved plan /\
      totalSpent plan' = totalSpent plan /\
      penaltyDebt plan' = penaltyDebt plan /\
      history plan' = history plan /\
      stateHistory (state app') = stateHistory (state app) /\
      totalSavings (state app') = totalSavings (state app).
Proof.
  intros now parsed manualInput app plan Hf Hopen.
  destruct (onCurrentPlan_completed
              (startDayPlan now (Entered parsed) manualInput) app plan Hf
              eq_refl) as (app' & H1 & H2 & _ & Ht & Hh & _).
  exists app', (startDayPlan now (Entered parsed) manualInput plan).
  split; [exact H1 |]. split; [exact H2 |].
  unfold startDayPlan.
  cbn [dayActive dailySpent dailyAllowance dailySavingsGoal totalSaved
       totalSpent penaltyDebt history].
  repeat split; assumption.
Qed.

Lemma startDay_overwrites_witness :
  exists app' plan',
    startDay 19723 (Entered (Some 60%Q)) Blank appOpenDay = Completed app' /\
    findPlan (currentPlanId app') (plans (state app')) = Some plan' /\
    dayActive plan' = true /\
    dailySpent plan' = Some 0%Q /\
    dailyAllowance plan' = Some (parseFloatOrZero (Entered (Some 60%Q))) /\
    dailySavingsGoal plan'
    = (if manualSavingsMode planOpenDay
       then Some (parseFloatOrZero Blank)
       else if estimateMode planOpenDay
            then calculateRequiredDaily 19723 planOpenDay
                   (Some (parseFloatOrZero (Entered (Some 60%Q))))
            else Some 0%Q) /\
    totalSaved plan' = totalSaved planOpenDay /\
    totalSpent plan' = totalSpent planOpenDay /\
    penaltyDebt plan' = penaltyDebt planOpenDay /\
    history plan' = history planOpenDay /\
    stateHistory (state app') = stateHistory (state appOpenDay) /\
    totalSavings (state app') = totalSavings (state appOpenDay).
Proof.
  apply (startDay_overwrites_open_day 19723 (Some 60%Q) Blank appOpenDay
           planOpenDay); reflexivity.
Defined.

(** * Further properties *)

(** ** Merging exclusions, continued *)

(** X1. Merging never changes which days are excluded: a date string lies in
    a range of the merged list exactly when it lies in a range of the list
    given, and so [isDateInExclusions] gives the same answer on both. *)
Theorem mergeExclusions_keeps_coverage :
  forall (l : list Range),
    (forall s : string,
       existsb (inRange s) (mergeExclusions (Some l))
       = existsb (inRange s) l) /\
    (forall d : Z,
       isDateInExclusions d (mergeExclusions (Some l))
       = isDateInExclusions d l).
Proof.
  intros l. split.
  - intros s. apply mergeExclusions_existsb.
  - intros d. unfold isDateInExclusions. apply mergeExclusions_existsb.
Qed.

Lemma insertByStart_length x l :
  List.length (insertByStart x l) = S (List.length l).
Proof.
  induction l as [| y l IH]; simpl; [reflexivity |].
  destruct (localeCompare (start x) (start y)); simpl;
    [reflexivity | reflexivity | rewrite IH; reflexivity].
Qed.

Lemma sortByStart_length l : List.length (sortByStart l) = List.length l.
Proof.
  induction l as [| x l IH]; simpl; [reflexivity |].
  rewrite insertByStart_length, IH. reflexivity.
Qed.

Lemma mergeLoop_length rest : forall merged current,
  (List.length merged + 1 <= List.length (mergeLoop merged current rest)
   <= List.length merged + 1 + List.length rest)%nat.
Proof.
  induction rest as [| next rest IH]; intros merged current; simpl.
  - rewrite length_app. simpl. lia.
  - destruct (str_leb (start next) (end_ current)).
    + destruct (str_ltb (end_ current) (end_ next));
        match goal with |- context [mergeLoop ?m ?c rest] =>
          specialize (IH m c) end; lia.
    + specialize (IH (merged ++ [current]) next).
      rewrite length_app in IH. simpl in IH. lia.
Qed.

(** X2. Merging never makes more ranges than it was given, and it returns
    the empty list only for the empty list. *)
Theorem mergeExclusions_length :
  forall (l : list Range),
    (List.length (mergeExclusions (Some l)) <= List.length l)%nat /\
    (mergeExclusions (Some l) = [] <-> l = []).
Proof.
  intros l. unfold mergeExclusions.
  pose proof (sortByStart_length l) as Hl.
  destruct (sortByStart l) as [| current rest] eqn:E.
  - destruct l; [| discriminate]. split; [simpl; lia | tauto].
  - pose proof (mergeLoop_length rest [] current) as H.
    simpl in Hl, H. split; [lia |].
    split.
    + intros H0. rewrite H0 in H. simpl in H. lia.
    + intros ->. discriminate.
Qed.

Lemma mergeLoop_Forall (P : Range -> Prop) rest : forall merged current,
  (forall a b, P a -> P b -> str_ltb (end_ a) (end_ b) = true ->
               P (mkRange (start a) (end_ b))) ->
  Forall P merged -> P current -> Forall P rest ->
  Forall P (mergeLoop merged current rest).
Proof.
  induction rest as [| next rest IH]; intros merged current Hext Hm Hc Hr;
    simpl.
  - apply Forall_app. split; [exact Hm | constructor; [exact Hc | constructor]].
  - apply Forall_cons_iff in Hr. destruct Hr as [Hn Hr].
    destruct (str_leb (start next) (end_ current)).
    + destruct (str_ltb (end_ current) (end_ next)) eqn:E.
      * apply IH; try assumption. apply Hext; assumption.
      * apply IH; assumption.
    + apply IH; try assumption.
      apply Forall_app. split; [exact Hm | constructor; [exact Hc | constructor]].
Qed.

Lemma sortByStart_Forall (P : Range -> Prop) l :
  Forall P l -> Forall P (sortByStart l).
Proof.
  induction 1 as [| x l Hx Hl IH]; simpl; [constructor |].
  apply insertByStart_Forall; assumption.
Qed.

Lemma mergeExclusions_Forall (P : Range -> Prop) l :
  (forall a b, P a -> P b -> str_ltb (end_ a) (end_ b) = true ->
               P (mkRange (start a) (end_ b))) ->
  Forall P l -> Forall P (mergeExclusions (Some l)).
Proof.
  intros Hext Hl. unfold mergeExclusions.
  pose proof (sortByStart_Forall P l Hl) as Hs.
  destruct (sortByStart l) as [| current rest]; [constructor |].
  apply Forall_cons_iff in Hs. destruct Hs as [Hc Hr].
  apply mergeLoop_Forall; try assumption. constructor.
Qed.

(** X3. Merging invents no date and keeps ranges well formed: every range
    of the result starts where a range given starts and ends where a range
    given ends, and when every range given has its start no later than its
    end, so has every range of the result. *)
Theorem mergeExclusions_endpoints :
  forall (l : list Range),
    Forall (fun r => In (start r) (map start l) /\ In (end_ r) (map end_ l))
      (mergeExclusions (Some l)) /\
    (Forall wellFormed l -> Forall wellFormed (mergeExclusions (Some l))).
Proof.
  intros l. split.
  - apply mergeExclusions_Forall.
    + intros a b [Ha _] [_ Hb] _. split; assumption.
    + apply Forall_forall. intros r Hr. split; apply in_map; exact Hr.
  - apply mergeExclusions_Forall.
    intros a b Ha Hb Hlt. unfold wellFormed in *. simpl. str_order.
Qed.

Lemma mergeExclusions_endpoints_witness :
  Forall wellFormed
    (mergeExclusions
       (Some [mkRange "2024-01-04" "2024-01-10";
              mkRange "2024-01-01" "2024-01-05"])).
Proof.
  apply (proj2 (mergeExclusions_endpoints
                  [mkRange "2024-01-04" "2024-01-10";
                   mkRange "2024-01-01" "2024-01-05"])).
  repeat constructor.
Defined.

(** ** Counting the days that qualify, continued *)

Lemma countCalculationDays_qualifyingDays a b exclusions s e :
  midnightOf a = Midnight s -> midnightOf b = Midnight e ->
  countCalculationDays a b exclusions = spec_qualifyingDays exclusions s e.
Proof. apply countCalculationDays_spec. Qed.

Lemma countCalculationDays_midnights s e exclusions :
  countCalculationDays (ArgDate (Midnight s)) (ArgDate (Midnight e))
    exclusions
  = spec_qualifyingDays exclusions s e.
Proof. apply countCalculationDays_spec; reflexivity. Qed.

Lemma countCalculationDays_invalid a b exclusions :
  midnightOf a = InvalidDate \/ midnightOf b = InvalidDate ->
  countCalculationDays a b exclusions = 0.
Proof.
  intros H. unfold countCalculationDays.
  destruct (midnightOf a), (midnightOf b); try reflexivity.
  destruct H; discriminate.
Qed.

Lemma spec_daysBetween_length s e :
  Z.of_nat (List.length (spec_daysBetween s e)) = Z.max 0 (e - s + 1).
Proof.
  unfold spec_daysBetween. rewrite length_map, length_seq. lia.
Qed.

Lemma filter_length_le {A : Type} (f : A -> bool) (l : list A) :
  (List.length (filter f l) <= List.length l)%nat.
Proof.
  induction l as [| x l IH]; simpl; [lia |].
  destruct (f x); simpl; lia.
Qed.

(** X4. The count is never negative and never more than the number of days
    from [start] to [end]; it is 0 when one of the two is not a date. *)
Theorem countCalculationDays_bounds :
  forall (a b : DateArg) (exclusions : list Range),
    0 <= countCalculationDays a b exclusions /\
    (forall s e, midnightOf a = Midnight s -> midnightOf b = Midnight e ->
       countCalculationDays a b exclusions <= Z.max 0 (e - s + 1)) /\
    (midnightOf a = InvalidDate \/ midnightOf b = InvalidDate ->
     countCalculationDays a b exclusions = 0).
Proof.
  intros a b exclusions.
  split; [| split; [| apply countCalculationDays_invalid]].
  - destruct (midnightOf a) as [| s] eqn:Ha.
    { rewrite countCalculationDays_invalid by (left; exact Ha). lia. }
    destruct (midnightOf b) as [| e] eqn:Hb.
    { rewrite countCalculationDays_invalid by (right; exact Hb). lia. }
    rewrite (countCalculationDays_spec a b exclusions s e Ha Hb). lia.
  - intros s e Ha Hb.
    rewrite (countCalculationDays_spec a b exclusions s e Ha Hb).
    rewrite <- spec_daysBetween_length.
    pose proof (filter_length_le (spec_qualifies exclusions)
                  (spec_daysBetween s e)).
    lia.
Qed.

Lemma countCalculationDays_bounds_witness :
  countCalculationDays (ArgString "2024-01-01") (ArgString "2024-01-31")
    [mkRange "2024-01-08" "2024-01-12"]
  <= Z.max 0 (19753 - 19723 + 1).
Proof.
  apply (proj1 (proj2 (countCalculationDays_bounds
                         (ArgString "2024-01-01") (ArgString "2024-01-31")
                         [mkRange "2024-01-08" "2024-01-12"])));
    reflexivity.
Defined.

Lemma spec_daysBetween_app s m e :
  s - 1 <= m <= e ->
  spec_daysBetween s e = spec_daysBetween s m ++ spec_daysBetween (m + 1) e.
Proof.
  intros H. remember (Z.to_nat (m - s + 1)) as n eqn:Hn.
  revert s H Hn. induction n as [| n IH]; intros s H Hn.
  - rewrite (spec_daysBetween_nil s m) by lia.
    replace (m + 1) with s by lia. reflexivity.
  - rewrite (spec_daysBetween_cons s e) by lia.
    rewrite (spec_daysBetween_cons s m) by lia.
    rewrite (IH (s + 1)) by lia. reflexivity.
Qed.

Lemma spec_qualifyingDays_split exclusions s m e :
  s - 1 <= m <= e ->
  spec_qualifyingDays exclusions s e
  = spec_qualifyingDays exclusions s m
    + spec_qualifyingDays exclusions (m + 1) e.
Proof.
  intros H. unfold spec_qualifyingDays.
  rewrite (spec_daysBetween_app s m e H), filter_app, length_app. lia.
Qed.

(** X5. Counts add up: the count from [s] to [e] is the count from [s] to
    [m] plus the count from the day after [m] to [e], for every [m] from
    the day before [s] to [e]. *)
Theorem countCalculationDays_additive :
  forall (s m e : Z) (exclusions : list Range),
    s - 1 <= m <= e ->
    countCalculationDays (ArgDate (Midnight s)) (ArgDate (Midnight e))
      exclusions
    = countCalculationDays (ArgDate (Midnight s)) (ArgDate (Midnight m))
        exclusions
      + countCalculationDays (ArgDate (Midnight (m + 1)))
          (ArgDate (Midnight e)) exclusions.
Proof.
  intros s m e exclusions H.
  rewrite !countCalculationDays_midnights.
  apply spec_qualifyingDays_split, H.
Qed.

Lemma countCalculationDays_additive_witness :
  countCalculationDays (ArgDate (Midnight 19723)) (ArgDate (Midnight 19753))
    [mkRange "2024-01-08" "2024-01-12"]
  = countCalculationDays (ArgDate (Midnight 19723))
      (ArgDate (Midnight 19733)) [mkRange "2024-01-08" "2024-01-12"]
    + countCalculationDays (ArgDate (Midnight (19733 + 1)))
        (ArgDate (Midnight 19753)) [mkRange "2024-01-08" "2024-01-12"].
Proof.
  apply (countCalculationDays_additive 19723 19733 19753). lia.
Defined.

Lemma getDay_add d i : getDay (d + i) = (getDay d + i) mod 7.
Proof.
  unfold getDay. replace (d + i + 4) with ((d + 4) + i) by lia.
  rewrite Z.add_mod_idemp_l by lia. reflexivity.
Qed.

(** Seven days in a row hold five weekdays, whichever day they begin. *)
Lemma spec_qualifyingDays_week s : spec_qualifyingDays [] s (s + 6) = 5.
Proof.
  unfold spec_qualifyingDays, spec_daysBetween.
  replace (s + 6 - s + 1) with 7 by lia.
  change (Z.to_nat 7) with 7%nat. cbn [seq map Z.of_nat Pos.of_succ_nat
    Pos.succ].
  unfold spec_qualifies, isDateInExclusions, spec_isWeekday.
  cbn [existsb negb filter]. rewrite !getDay_add.
  pose proof (getDay_range s) as Hr.
  assert (Hc : getDay s = 0 \/ getDay s = 1 \/ getDay s = 2 \/ getDay s = 3
               \/ getDay s = 4 \/ getDay s = 5 \/ getDay s = 6) by lia.
  destruct Hc as [H | [H | [H | [H | [H | [H | H]]]]]]; rewrite H;
    reflexivity.
Qed.

Lemma spec_qualifyingDays_weeks (k : nat) : forall s,
  spec_qualifyingDays [] s (s + 7 * Z.of_nat k - 1) = 5 * Z.of_nat k.
Proof.
  induction k as [| k IH]; intros s.
  - unfold spec_qualifyingDays. rewrite spec_daysBetween_nil by lia.
    reflexivity.
  - rewrite (spec_qualifyingDays_split [] s (s + 6)) by lia.
    rewrite spec_qualifyingDays_week.
    replace (s + 7 * Z.of_nat (S k) - 1)
      with ((s + 6 + 1) + 7 * Z.of_nat k - 1) by lia.
    rewrite IH. lia.
Qed.

(** X6. Without exclusions every run of whole weeks counts five days a
    week, whichever day of the week it begins: from [s] on, [7 k] days hold
    [5 k] days that qualify. *)
Theorem countCalculationDays_whole_weeks :
  forall (s : Z) (k : nat),
    countCalculationDays (ArgDate (Midnight s))
      (ArgDate (Midnight (s + 7 * Z.of_nat k - 1))) []
    = 5 * Z.of_nat k.
Proof.
  intros s k.
  rewrite countCalculationDays_midnights.
  apply spec_qualifyingDays_weeks.
Qed.

Lemma filter_length_mono {A : Type} (f g : A -> bool) (l : list A) :
  (forall x, f x = true -> g x = true) ->
  (List.length (filter f l) <= List.length (filter g l))%nat.
Proof.
  intros H. induction l as [| x l IH]; simpl; [lia |].
  destruct (f x) eqn:Ef.
  - rewrite (H x Ef). simpl. lia.
  - destruct (g x); simpl; lia.
Qed.

(** X7. More exclusions never count more days: when every range of
    [exclusions] is among [more], the count under [more] is at most the
    count under [exclusions]. *)
Theorem countCalculationDays_antitone :
  forall (a b : DateArg) (exclusions more : list Range),
    incl exclusions more ->
    countCalculationDays a b more <= countCalculationDays a b exclusions.
Proof.
  intros a b exclusions more Hincl.
  destruct (midnightOf a) as [| s] eqn:Ha.
  { rewrite !countCalculationDays_invalid by (left; exact Ha). lia. }
  destruct (midnightOf b) as [| e] eqn:Hb.
  { rewrite !countCalculationDays_invalid by (right; exact Hb). lia. }
  rewrite !(countCalculationDays_spec a b _ s e Ha Hb).
  apply inj_le, filter_length_mono.
  intros d. unfold spec_qualifies. rewrite !andb_true_iff, !negb_true_iff.
  intros [Hw Hn]. split; [exact Hw |].
  apply not_true_is_false. intros Hex.
  apply isDateInExclusions_In in Hex. destruct Hex as (ex & Hin & Hr).
  assert (Hm : isDateInExclusions d more = true).
  { apply isDateInExclusions_In. exists ex. split; [apply Hincl, Hin | exact Hr]. }
  congruence.
Qed.

Lemma countCalculationDays_antitone_witness :
  countCalculationDays (ArgString "2024-01-01") (ArgString "2024-01-31")
    [mkRange "2024-01-08" "2024-01-12"; mkRange "2024-01-22" "2024-01-23"]
  <= countCalculationDays (ArgString "2024-01-01") (ArgString "2024-01-31")
       [mkRange "2024-01-08" "2024-01-12"].
Proof.
  apply countCalculationDays_antitone.
  intros r [<- | []]. left. reflexivity.
Defined.

(** ** The daily target, continued *)

Lemma Qmax_zero_nonpos (x : Q) : (x <= 0 -> Qmax 0 x == 0)%Q.
Proof. intros H. apply Q.max_l, H. Qed.

Lemma Qdiv_nonpos (x : Q) (d : Z) : (x <= 0)%Q -> 0 < d ->
  (x / inject_Z d <= 0)%Q.
Proof.
  intros Hx Hd. unfold Qdiv.
  assert (Hi : (0 < / inject_Z d)%Q).
  { apply Qinv_lt_0_compat. change 0%Q with (inject_Z 0).
    rewrite <- Zlt_Qlt. exact Hd. }
  rewrite <- (Qmult_0_l (/ inject_Z d)).
  apply Qmult_le_compat_r; [exact Hx | apply Qlt_le_weak, Hi].
Qed.

(** X8. A goal already reached.  With a fixed end date, a goal, today not
    excluded and not after the end date, and days left to count: once
    [totalSaved] has reached the goal the target is 0 in manual mode and for
    an allowance under 80, and 20% of the allowance for an allowance of 80
    or more with manual mode off. *)
Theorem calculateRequiredDaily_goal_reached :
  forall (now : Z) (plan : Plan) (a : Q),
    usesEndDate plan = true ->
    isDateInExclusions now (orEmpty (exclusions plan)) = false ->
    falsy (goal plan) = false ->
    dateGt (Midnight now) (newDate (endDate plan)) = false ->
    0 < countCalculationDays (ArgDate (Midnight now))
          (ArgDate (newDate (endDate plan))) (orEmpty (exclusions plan)) ->
    (orZero (goal plan) <= orZero (totalSaved plan))%Q ->
    (0 <= a)%Q ->
    exists r : Q,
      calculateRequiredDaily now plan (Some a) = Some r /\
      (manualSavingsMode plan = true \/ (a < 80)%Q -> (r == 0)%Q) /\
      (manualSavingsMode plan = false -> (80 <= a)%Q -> (r == a * 0.20)%Q).
Proof.
  intros now plan a Hu Hex Hg Hend Hd Hsaved Ha.
  unfold calculateRequiredDaily, getManilaDate.
  rewrite Hex, Hg, Hend.
  set (daysLeft := countCalculationDays _ _ _) in *.
  replace (daysLeft <=? 0) with false by (symmetry; apply Z.leb_gt; lia).
  set (raw := Qmax 0 ((orZero (goal plan) - orZero (totalSaved plan))
                      / inject_Z daysLeft)).
  assert (Hraw : (raw == 0)%Q).
  { apply Qmax_zero_nonpos, Qdiv_nonpos; [lra | exact Hd]. }
  assert (Hlt : Qltb raw 50 = true) by (apply Qltb_lt; lra).
  rewrite Hu, Hlt.
  assert (Hshape :
    exists r, Some (Qmin a (if true && negb (manualSavingsMode plan)
                               && Qle_bool 80 a && true
                            then (raw + a * 0.20)%Q else raw)) = Some r /\
      (manualSavingsMode plan = true \/ (a < 80)%Q -> (r == 0)%Q) /\
      (manualSavingsMode plan = false -> (80 <= a)%Q -> (r == a * 0.20)%Q)).
  { destruct (manualSavingsMode plan) eqn:Hm; cbn [negb andb].
    - exists (Qmin a raw). split; [reflexivity |]. split.
      + intros _. rewrite Q.min_r by lra. exact Hraw.
      + discriminate.
    - destruct (Qle_bool 80 a) eqn:H80; cbn [andb].
      + apply Qle_bool_iff in H80.
        exists (Qmin a (raw + a * 0.20)). split; [reflexivity |]. split.
        * intros [H | H]; [discriminate | lra].
        * intros _ _. rewrite Q.min_r by lra. lra.
      + assert (a < 80)%Q.
        { apply Qnot_le_lt. intros H. apply Qle_bool_iff in H. congruence. }
        exists (Qmin a raw). split; [reflexivity |]. split.
        * intros _. rewrite Q.min_r by lra. exact Hraw.
        * intros _ H'. lra. }
  unfold usesEndDate in Hu.
  destruct (useEndDate plan) as [[|] |]; try exact Hshape.
  discriminate Hu.
Qed.

Lemma calculateRequiredDaily_goal_reached_witness :
  exists r : Q,
    calculateRequiredDaily 19723
      (mkPlan "1" "Desk" "2024-01-01" (Some "2024-01-10"%string) (Some true)
         (Some 1000%Q) None [] (Some 1200%Q) (Some 0%Q) (Some 0%Q)
         true false true false None None None (Some []))
      (Some 100%Q) = Some r /\
    (false = true \/ (100 < 80)%Q -> (r == 0)%Q) /\
    (false = false -> (80 <= 100)%Q -> (r == 100 * 0.20)%Q).
Proof.
  apply (calculateRequiredDaily_goal_reached 19723
           (mkPlan "1" "Desk" "2024-01-01" (Some "2024-01-10"%string)
              (Some true) (Some 1000%Q) None [] (Some 1200%Q) (Some 0%Q)
              (Some 0%Q) true false true false None None None (Some []))
           100%Q); try reflexivity; unfold Qle; simpl; lia.
Defined.

Lemma refreshPlanTargetInPlace_keeps now plan :
  id (refreshPlanTargetInPlace now plan) = id plan /\
  dailySavingsGoal (refreshPlanTargetInPlace now plan)
  = dailySavingsGoal (refreshPlanTarget now plan).
Proof.
  unfold refreshPlanTargetInPlace.
  destruct (dayActive plan && negb (manualSavingsMode plan)
            && countsDays now plan);
    cbn [setExclusions id dailySavingsGoal];
    (split; [apply (refreshPlanTarget_keeps now plan) | reflexivity]).
Qed.

(** X9. An end date that was never given.  A plan that uses an end date
    but holds none ([null]) counts as ended at the epoch: on every day after
    1970-01-01 its target is 0, whatever the allowance.  This is the plan
    that [toggle-use-end-date] leaves when it is checked on a plan made
    without end date; on its open day, manual mode off, the target becomes
    0. *)
Theorem calculateRequiredDaily_missing_end_date :
  forall (now : Z) (plan : Plan),
    endDate plan = None ->
    0 < now ->
    (usesEndDate plan = true ->
     forall allowance : option Q,
       calculateRequiredDaily now plan allowance = Some 0%Q) /\
    (dayActive plan = true -> manualSavingsMode plan = false ->
     dailySavingsGoal (toggleUseEndDatePlan now true plan) = Some 0%Q).
Proof.
  intros now plan Hend Hnow.
  assert (H : forall p, endDate p = None -> usesEndDate p = true ->
            forall allowance, calculateRequiredDaily now p allowance
                              = Some 0%Q).
  { intros p He Hu allowance.
    unfold calculateRequiredDaily, getManilaDate. rewrite He.
    destruct (isDateInExclusions now (orEmpty (exclusions p)));
      [reflexivity |].
    unfold usesEndDate in Hu.
    destruct (useEndDate p) as [[|] |]; try discriminate Hu;
      (destruct (falsy (goal p)); [reflexivity |]);
      cbn [newDate dateGt];
      (replace (0 <? now) with true by (symmetry; apply Z.ltb_lt; exact Hnow));
      reflexivity. }
  split; [apply H; exact Hend |].
  intros Hopen Hm. unfold toggleUseEndDatePlan.
  rewrite (proj2 (refreshPlanTargetInPlace_keeps now _)).
  unfold refreshPlanTarget.
  cbn [setUseEndDate dayActive manualSavingsMode dailyAllowance].
  rewrite Hopen, Hm. cbn [negb setDailySavingsGoal dailySavingsGoal].
  apply H; [exact Hend | reflexivity].
Qed.

Lemma calculateRequiredDaily_missing_end_date_witness :
  dailySavingsGoal (toggleUseEndDatePlan 19723 true planOpenEnded)
  = Some 0%Q.
Proof.
  apply (calculateRequiredDaily_missing_end_date 19723 planOpenEnded);
    reflexivity.
Defined.

(** X10. An end date that cannot be read.  When the end date of a plan with
    a goal is not a date (the empty text that [update-plan-btn] stores for
    an empty input, for one), no day is left to count and the target is the
    whole allowance, on every day that is not excluded. *)
Theorem calculateRequiredDaily_unreadable_end_date :
  forall (now : Z) (plan : Plan) (allowance : option Q),
    usesEndDate plan = true ->
    newDate (endDate plan) = InvalidDate ->
    falsy (goal plan) = false ->
    isDateInExclusions now (orEmpty (exclusions plan)) = false ->
    calculateRequiredDaily now plan allowance = allowance.
Proof.
  intros now plan allowance Hu Hinv Hg Hex.
  unfold calculateRequiredDaily, getManilaDate.
  rewrite Hex, Hg, Hinv. cbn [dateGt].
  rewrite (countCalculationDays_invalid (ArgDate (Midnight now))
             (ArgDate InvalidDate)) by (right; reflexivity).
  cbn [Z.leb Z.compare]. unfold usesEndDate in Hu.
  destruct (useEndDate plan) as [[|] |]; try discriminate Hu; reflexivity.
Qed.

Lemma calculateRequiredDaily_unreadable_end_date_witness :
  calculateRequiredDaily 19723
    (updatePlanPlan 19723 "Bike" "2024-01-01" true "" (Entered (Some 5000%Q))
       planOpenDay)
    (Some 100%Q)
  = Some 100%Q.
Proof.
  apply (calculateRequiredDaily_unreadable_end_date 19723
           (updatePlanPlan 19723 "Bike" "2024-01-01" true ""
              (Entered (Some 5000%Q)) planOpenDay) (Some 100%Q));
    reflexivity.
Defined.

(** The target does not read the target stored, outside manual mode. *)
Lemma calculateRequiredDaily_ignores_stored now plan g allowance :
  manualSavingsMode plan = false ->
  calculateRequiredDaily now (setDailySavingsGoal g plan) allowance
  = calculateRequiredDaily now plan allowance.
Proof.
  intros Hm. unfold calculateRequiredDaily, usesEndDate, setDailySavingsGoal.
  cbn [exclusions useEndDate manualSavingsMode dailySavingsGoal goal endDate
       totalSaved].
  rewrite Hm. reflexivity.
Qed.

(** X11. [refreshPlanTarget] is idempotent: a second refresh on the same
    day changes nothing more. *)
Theorem refreshPlanTarget_idempotent :
  forall (now : Z) (plan : Plan),
    refreshPlanTarget now (refreshPlanTarget now plan)
    = refreshPlanTarget now plan.
Proof.
  intros now plan. unfold refreshPlanTarget at 2.
  destruct (negb (dayActive plan)) eqn:Ha.
  { unfold refreshPlanTarget. rewrite Ha. reflexivity. }
  destruct (negb (manualSavingsMode plan)) eqn:Hm.
  - unfold refreshPlanTarget.
    cbn [setDailySavingsGoal dayActive manualSavingsMode dailyAllowance].
    rewrite Ha, Hm.
    apply negb_true_iff in Hm.
    rewrite (calculateRequiredDaily_ignores_stored now plan _ _ Hm).
    reflexivity.
  - unfold refreshPlanTarget. rewrite Ha, Hm. reflexivity.
Qed.

(** The bounds of the target outside manual mode. *)
Lemma calculateRequiredDaily_auto_bounds now plan (a : Q) :
  manualSavingsMode plan = false ->
  (0 <= a)%Q ->
  exists r : Q,
    calculateRequiredDaily now plan (Some a) = Some r /\ (0 <= r <= a)%Q.
Proof.
  intros Hm Ha. unfold calculateRequiredDaily, getManilaDate. rewrite Hm.
  destruct (isDateInExclusions now (orEmpty (exclusions plan))).
  { exists 0%Q. split; [reflexivity |]. split; [apply Qle_refl | exact Ha]. }
  assert (Hfixed : exists r : Q,
    (if falsy (goal plan) then Some 0%Q
     else if dateGt (Midnight now) (newDate (endDate plan)) then Some 0%Q
     else if countCalculationDays (ArgDate (Midnight now))
               (ArgDate (newDate (endDate plan)))
               (orEmpty (exclusions plan)) <=? 0
          then Some a
          else Some (Qmin a
                 (if usesEndDate plan && negb false && Qle_bool 80 a
                     && Qltb (Qmax 0 ((orZero (goal plan)
                                       - orZero (totalSaved plan))
                                      / inject_Z
                                          (countCalculationDays
                                             (ArgDate (Midnight now))
                                             (ArgDate (newDate (endDate plan)))
                                             (orEmpty (exclusions plan))))) 50
                  then (Qmax 0 ((orZero (goal plan) - orZero (totalSaved plan))
                                / inject_Z
                                    (countCalculationDays
                                       (ArgDate (Midnight now))
                                       (ArgDate (newDate (endDate plan)))
                                       (orEmpty (exclusions plan))))
                        + a * 0.20)%Q
                  else Qmax 0 ((orZero (goal plan) - orZero (totalSaved plan))
                               / inject_Z
                                   (countCalculationDays
                                      (ArgDate (Midnight now))
                                      (ArgDate (newDate (endDate plan)))
                                      (orEmpty (exclusions plan)))))))
    = Some r /\ (0 <= r <= a)%Q).
  { destruct (falsy (goal plan)).
    { exists 0%Q. split; [reflexivity |]. split; [apply Qle_refl | exact Ha]. }
    destruct (dateGt _ _).
    { exists 0%Q. split; [reflexivity |]. split; [apply Qle_refl | exact Ha]. }
    destruct (_ <=? 0).
    { exists a. split; [reflexivity |]. split; [exact Ha | apply Qle_refl]. }
    eexists. split; [reflexivity |].
    apply capped_bounds; [exact Ha |].
    destruct (_ && _);
      [apply surcharge_nonneg; [apply raw_target_nonneg | exact Ha]
      | apply raw_target_nonneg]. }
  destruct (useEndDate plan) as [[|] |]; try exact Hfixed.
  exists (a * 0.5)%Q. split; [reflexivity |]. apply half_bounds, Ha.
Qed.

(** X12. Whenever the script itself sets the target, it lies between 0 and
    the allowance.  A day started with an allowance that is not negative,
    manual mode off, stores such a target; and so does a refresh of an open
    day, manual mode off, whose allowance is not negative. *)
Theorem computed_target_within_allowance :
  (forall (now : Z) (parsed : option Q) (manualInput : InputValue)
          (plan : Plan),
     manualSavingsMode plan = false ->
     (0 <= parseFloatOrZero (Entered parsed))%Q ->
     let plan' := startDayPlan now (Entered parsed) manualInput plan in
     exists r : Q,
       dailySavingsGoal plan' = Some r /\
       dailyAllowance plan' = Some (parseFloatOrZero (Entered parsed)) /\
       (0 <= r <= parseFloatOrZero (Entered parsed))%Q) /\
  (forall (now : Z) (plan : Plan) (a : Q),
     dayActive plan = true ->
     manualSavingsMode plan = false ->
     dailyAllowance plan = Some a ->
     (0 <= a)%Q ->
     exists r : Q,
       dailySavingsGoal (refreshPlanTarget now plan) = Some r /\
       dailyAllowance (refreshPlanTarget now plan) = Some a /\
       (0 <= r <= a)%Q).
Proof.
  split.
  - intros now parsed manualInput plan Hm Ha plan'. subst plan'.
    unfold startDayPlan. rewrite Hm.
    cbn [dailySavingsGoal dailyAllowance].
    destruct (estimateMode plan).
    + destruct (calculateRequiredDaily_auto_bounds now plan _ Hm Ha)
        as (r & Hr & Hb).
      exists r. rewrite Hr. repeat split; apply Hb.
    + exists 0%Q. repeat split; [apply Qle_refl | exact Ha].
  - intros now plan a Hopen Hm Hal Ha.
    unfold refreshPlanTarget. rewrite Hopen, Hm, Hal.
    cbn [negb setDailySavingsGoal dailySavingsGoal dailyAllowance].
    destruct (calculateRequiredDaily_auto_bounds now plan a Hm Ha)
      as (r & Hr & Hb).
    exists r. rewrite Hr. repeat split; try apply Hb. exact Hal.
Qed.

Lemma computed_target_within_allowance_witness :
  exists r : Q,
    dailySavingsGoal (refreshPlanTarget 19723 planOpenDay) = Some r /\
    dailyAllowance (refreshPlanTarget 19723 planOpenDay) = Some 100%Q /\
    (0 <= r <= 100)%Q.
Proof.
  apply (proj2 computed_target_within_allowance 19723 planOpenDay 100%Q);
    try reflexivity.
  unfold Qle. simpl. lia.
Defined.

(** ** The projected end date *)

Lemma spec_qualifyingDays_nil exclusions s e :
  e < s -> spec_qualifyingDays exclusions s e = 0.
Proof.
  intros H. unfold spec_qualifyingDays.
  rewrite spec_daysBetween_nil by exact H. reflexivity.
Qed.

Lemma spec_qualifyingDays_cons exclusions s e :
  s <= e ->
  spec_qualifyingDays exclusions s e
  = (if spec_qualifies exclusions s then 1 else 0)
    + spec_qualifyingDays exclusions (s + 1) e.
Proof.
  intros H. unfold spec_qualifyingDays.
  rewrite (spec_daysBetween_cons s e H). cbn [filter].
  destruct (spec_qualifies exclusions s); cbn [List.length]; lia.
Qed.

Lemma spec_qualifyingDays_nonneg exclusions s e :
  0 <= spec_qualifyingDays exclusions s e.
Proof. unfold spec_qualifyingDays. lia. Qed.

(** [firstNotUnder] gives the first count that is not under [d]. *)
Lemma firstNotUnder_spec (d : float) (fuel : nat) :
  forall k,
    let n := firstNotUnder fuel d k in
    k <= n <= k + Z.of_nat fuel /\
    (forall j, k <= j < n -> (ofInt j <? d)%float = true) /\
    (n < k + Z.of_nat fuel -> (ofInt n <? d)%float = false).
Proof.
  induction fuel as [| fuel IH]; intros k; cbv zeta.
  - cbn [firstNotUnder]. split; [lia |]. split; intros; lia.
  - cbn [firstNotUnder]. destruct (ofInt k <? d)%float eqn:E.
    + destruct (IH (k + 1)) as (Hb & Hlt & Hge).
      split; [lia |]. split.
      * intros j Hj. destruct (Z.eq_dec j k) as [-> | Hne];
          [exact E | apply Hlt; lia].
      * intros H. apply Hge. lia.
    + split; [lia |]. split; [intros; lia | intros _; exact E].
Qed.

Lemma asDays_spec (d : float) :
  0 <= asDays d <= 10001 /\
  (forall j, 0 <= j < asDays d -> (ofInt j <? d)%float = true) /\
  (asDays d <= 10000 -> (ofInt (asDays d) <? d)%float = false).
Proof.
  destruct (firstNotUnder_spec d (Z.to_nat 10001) 0) as (Hb & Hlt & Hge).
  fold (asDays d) in Hb, Hlt, Hge.
  split; [lia |]. split; [exact Hlt |].
  intros H. apply Hge. lia.
Qed.

(** Once enough days are found the loop returns where it stands. *)
Lemma projectionLoop_done fuel mergedEx d cur found safety :
  (ofInt found <? d)%float = false ->
  projectionLoop fuel mergedEx d cur found safety = cur.
Proof.
  intros H. destruct fuel as [| fuel]; [reflexivity |].
  cbn [projectionLoop]. rewrite H. reflexivity.
Qed.

(** The walk of [calculateProjectedEndDate], from a turn of the loop on:
    [turns] turns are left before the safety counter stops it, and [needed]
    is the first count that is not under the double [d]. *)
Lemma projectionLoop_spec exclusions (d : float) needed fuel :
  (forall k, 0 <= k < needed -> (ofInt k <? d)%float = true) ->
  (needed <= 10000 -> (ofInt needed <? d)%float = false) ->
  forall cur found safety,
    found < needed ->
    0 <= found <= safety ->
    safety <= 10000 ->
    (Z.to_nat (10000 - safety) < fuel)%nat ->
    let turns := 10000 - safety in
    let f := projectionLoop fuel (mergeExclusions (Some exclusions)) d
               cur found safety in
    cur <= f <= cur + turns /\
    (needed <= found + spec_qualifyingDays exclusions cur (cur + turns - 1) ->
     spec_qualifies exclusions f = true /\
     found + spec_qualifyingDays exclusions cur f = needed) /\
    (found + spec_qualifyingDays exclusions cur (cur + turns - 1) < needed ->
     f = cur + turns).
Proof.
  intros Hlt Hge.
  induction fuel as [| fuel IH]; intros cur found safety Hf Hfs Hs Hfuel;
    [lia |].
  cbv zeta. cbn [projectionLoop].
  rewrite (Hlt found) by lia.
  cbn [andb]. destruct (safety <? 10000) eqn:Hsafe.
  - apply Z.ltb_lt in Hsafe.
    assert (Hq : negb ((getDay cur =? 0) || (getDay cur =? 6))
                 && negb (existsb (inRange (toLocaleDateString cur))
                            (mergeExclusions (Some exclusions)))
                 = spec_qualifies exclusions cur).
    { rewrite weekend_weekday, mergeExclusions_existsb. reflexivity. }
    rewrite Hq.
    pose proof (spec_qualifyingDays_cons exclusions cur
                  (cur + (10000 - safety) - 1)) as Hcons.
    destruct (spec_qualifies exclusions cur) eqn:Eq.
    + destruct (Z_lt_dec (found + 1) needed) as [Hmore | Hmore].
      * rewrite (Hlt (found + 1)) by lia.
        destruct (IH (cur + 1) (found + 1) (safety + 1))
          as (Hb & Hyes & Hno); [lia | lia | lia | lia |].
        replace (cur + 1 + (10000 - (safety + 1)) - 1)
          with (cur + (10000 - safety) - 1) in Hyes, Hno by lia.
        split; [lia |]. split.
        -- intros H. destruct Hyes as [Hy1 Hy2]; [lia |].
           split; [exact Hy1 |].
           rewrite (spec_qualifyingDays_cons exclusions cur) by lia.
           rewrite Eq. lia.
        -- intros H. rewrite Hno by lia. lia.
      * assert (Hn : found + 1 = needed) by lia.
        assert (Hstop : (ofInt (found + 1) <? d)%float = false).
        { rewrite Hn. apply Hge. lia. }
        rewrite Hstop.
        rewrite projectionLoop_done by exact Hstop.
        split; [lia |]. split.
        -- intros _. split; [exact Eq |].
           rewrite (spec_qualifyingDays_cons exclusions cur cur) by lia.
           rewrite Eq, spec_qualifyingDays_nil by lia. lia.
        -- intros H.
           pose proof (spec_qualifyingDays_nonneg exclusions (cur + 1)
                         (cur + (10000 - safety) - 1)).
           lia.
    + rewrite (Hlt found) by lia.
      destruct (IH (cur + 1) found (safety + 1))
        as (Hb & Hyes & Hno); [lia | lia | lia | lia |].
      replace (cur + 1 + (10000 - (safety + 1)) - 1)
        with (cur + (10000 - safety) - 1) in Hyes, Hno by lia.
      split; [lia |]. split.
      * intros H. destruct Hyes as [Hy1 Hy2]; [lia |].
        split; [exact Hy1 |].
        rewrite (spec_qualifyingDays_cons exclusions cur) by lia.
        rewrite Eq. lia.
      * intros H. rewrite Hno by lia. lia.
  - apply Z.ltb_ge in Hsafe. assert (safety = 10000) by lia. subst safety.
    split; [lia |]. split.
    + intros H. rewrite spec_qualifyingDays_nil in H by lia. lia.
    + intros _. lia.
Qed.

Lemma falsy_positive (x : option Q) : (0 < orZero x)%Q -> falsy x = false.
Proof.
  destruct x as [q |]; simpl; intros H.
  - apply not_true_is_false. intros E. apply Qeq_bool_iff in E. lra.
  - lra.
Qed.

(** X13. [calculateProjectedEndDate].  Without a goal or without a positive
    target for the day there is no projection; when what is missing, the
    script's difference of goal and savings, is not above 0 the answer is
    "Goal Met!".  Otherwise the answer is a date, from tomorrow to 10001
    days ahead.  [daysNeeded] is the quotient of what is missing by the
    day's target, computed on doubles and rounded up by [Math.ceil], and
    [n] the number of days that the loop takes it for.  If [n] is 0 the
    date is tomorrow.  When the 10000 days from tomorrow hold [n] days that
    qualify, the date is a day that qualifies (Monday to Friday, not
    excluded) and [countCalculationDays] counts exactly [n] days from
    tomorrow to it; when they do not, the date is 10001 days ahead. *)
Theorem calculateProjectedEndDate_spec :
  forall (now : Z) (plan : Plan),
    (falsy (goal plan) = true \/ (orZero (dailySavingsGoal plan) <= 0)%Q ->
     calculateProjectedEndDate now plan = NoProjection) /\
    (falsy (goal plan) = false ->
     (0 < orZero (dailySavingsGoal plan))%Q ->
     let remainingNeeded :=
       (number (goal plan) - double (orZero (totalSaved plan)))%float in
     ((remainingNeeded <=? 0)%float = true ->
      calculateProjectedEndDate now plan = GoalMet) /\
     ((remainingNeeded <=? 0)%float = false ->
      let daysNeeded :=
        Math_ceil (remainingNeeded / number (dailySavingsGoal plan)) in
      let n := asDays daysNeeded in
      let ex := orEmpty (exclusions plan) in
      let within :=
        countCalculationDays (ArgDate (Midnight (now + 1)))
          (ArgDate (Midnight (now + 10000))) ex in
      exists f : Z,
        calculateProjectedEndDate now plan
        = ProjectedDate (toLocaleDateString f) /\
        0 <= n <= 10001 /\
        now + 1 <= f <= now + 10001 /\
        (n = 0 -> f = now + 1) /\
        (1 <= n <= within ->
         spec_qualifies ex f = true /\
         countCalculationDays (ArgDate (Midnight (now + 1)))
           (ArgDate (Midnight f)) ex = n) /\
        (within < n -> f = now + 10001))).
Proof.
  intros now plan.
  split.
  - unfold calculateProjectedEndDate. intros [H | H].
    + rewrite H. reflexivity.
    + apply Qle_bool_iff in H. rewrite H, orb_true_r. reflexivity.
  - intros Hg Hd remainingNeeded.
    assert (Hfront :
      falsy (goal plan) || falsy (dailySavingsGoal plan)
      || Qle_bool (orZero (dailySavingsGoal plan)) 0 = false).
    { rewrite Hg, (falsy_positive _ Hd). cbn [orb].
      apply not_true_is_false. intros E. apply Qle_bool_iff in E. lra. }
    split.
    + intros Hrem. unfold calculateProjectedEndDate.
      rewrite Hfront. fold remainingNeeded. rewrite Hrem. reflexivity.
    + intros Hrem daysNeeded n ex within.
      destruct (asDays_spec daysNeeded) as (Hn & Hlt & Hge).
      fold n in Hn, Hlt, Hge.
      unfold calculateProjectedEndDate, getManilaDate.
      rewrite Hfront. fold remainingNeeded. rewrite Hrem.
      fold daysNeeded. fold ex.
      subst within. rewrite countCalculationDays_midnights.
      pose proof (spec_qualifyingDays_nonneg ex (now + 1) (now + 10000))
        as Hnonneg.
      fold (spec_qualifyingDays ex (now + 1) (now + 10000)).
      destruct (Z.eq_dec n 0) as [Hz | Hnz].
      * exists (now + 1).
        rewrite projectionLoop_done.
        2:{ rewrite <- Hz. apply Hge. lia. }
        split; [reflexivity |]. split; [exact Hn |]. split; [lia |].
        split; [reflexivity |]. split; intros H; lia.
      * destruct (projectionLoop_spec ex daysNeeded n (Z.to_nat 10001)
                    Hlt Hge (now + 1) 0 0) as (Hb & Hyes & Hno);
          [lia | lia | lia | lia |].
        replace (now + 1 + (10000 - 0) - 1) with (now + 10000) in Hyes, Hno
          by lia.
        exists (projectionLoop (Z.to_nat 10001) (mergeExclusions (Some ex))
                  daysNeeded (now + 1) 0 0).
        split; [reflexivity |]. split; [exact Hn |]. split; [lia |].
        split; [lia |].
        rewrite !countCalculationDays_midnights.
        fold (spec_qualifyingDays ex (now + 1)
                (projectionLoop (Z.to_nat 10001)
                   (mergeExclusions (Some ex)) daysNeeded (now + 1) 0 0)).
        split.
        -- intros H. destruct Hyes as [H1 H2]; [lia |].
           split; [exact H1 | lia].
        -- intros H. rewrite Hno by lia. lia.
Qed.

Lemma calculateProjectedEndDate_witness :
  exists f : Z,
    calculateProjectedEndDate 19723 planOpenEnded
    = ProjectedDate (toLocaleDateString f) /\
    19723 + 1 <= f <= 19723 + 10001 /\
    spec_qualifies (orEmpty (exclusions planOpenEnded)) f = true /\
    countCalculationDays (ArgDate (Midnight (19723 + 1)))
      (ArgDate (Midnight f)) (orEmpty (exclusions planOpenEnded)) = 58.
Proof.
  destruct (calculateProjectedEndDate_spec 19723 planOpenEnded) as [_ H].
  destruct (H eq_refl eq_refl) as [_ H2].
  destruct (H2 eq_refl) as (f & E & _ & Hb & _ & Hy & _).
  exists f. split; [exact E |]. split; [exact Hb |].
  apply Hy. vm_compute. split; discriminate.
Defined.

(** The projection of the example: 2900 are missing at 50 a day, 58 days
    that qualify from 2024-01-02 on, the last of them 2024-03-21. *)
Example calculateProjectedEndDate_example :
  Math_ceil
    ((number (goal planOpenEnded)
      - double (orZero (totalSaved planOpenEnded)))
     / number (dailySavingsGoal planOpenEnded)) = 58%float /\
  asDays 58 = 58 /\
  calculateProjectedEndDate 19723 planOpenEnded = ProjectedDate "2024-03-21".
Proof. repeat split; vm_compute; reflexivity. Qed.

(** The number of days follows the doubles: with a goal of 50.7, 0.7 saved
    and a target of 1 a day, the script's difference is 50 and 50 days are
    needed, the last of them 2024-03-11. *)
Example calculateProjectedEndDate_fifty_days :
  (number (goal planFiftyDays)
   - double (orZero (totalSaved planFiftyDays)))%float = 50%float /\
  asDays
    (Math_ceil
       ((number (goal planFiftyDays)
         - double (orZero (totalSaved planFiftyDays)))
        / number (dailySavingsGoal planFiftyDays))) = 50 /\
  calculateProjectedEndDate 19723 planFiftyDays = ProjectedDate "2024-03-11".
Proof. repeat split; vm_compute; reflexivity. Qed.

(** What the loop takes a double for. *)
Example asDays_examples :
  asDays 0 = 0 /\ asDays (-3) = 0 /\ asDays nan = 0 /\ asDays 1 = 1 /\
  asDays 10000 = 10000 /\ asDays 10001 = 10001 /\ asDays infinity = 10001 /\
  Math_ceil 49.5 = 50%float /\ Math_ceil 50 = 50%float /\
  Math_ceil (-0.5) = (-0)%float /\ Math_ceil 0.25 = 1%float.
Proof. repeat split; vm_compute; reflexivity. Qed.

(** ** The daily rollover, continued *)

Lemma closeDay_id lastLogin todayStr ts plan :
  id (snd (closeDay lastLogin todayStr ts plan)) = id plan.
Proof. unfold closeDay. destruct (dayActive plan); reflexivity. Qed.

Lemma closeDay_closes lastLogin todayStr ts plan :
  dayActive (snd (closeDay lastLogin todayStr ts plan)) = false.
Proof.
  unfold closeDay. destruct (dayActive plan) eqn:E; [reflexivity | exact E].
Qed.

Lemma rollover_ids now st :
  map id (plans (rollover now st)) = map id (plans st).
Proof.
  destruct (differs (lastLoginDate st) (getTodayStr now)) eqn:E.
  - rewrite (rollover_changes now st E). cbn [plans].
    rewrite map_map. apply map_ext. intros p. apply closeDay_id.
  - unfold rollover. rewrite E. reflexivity.
Qed.

(** X14. A rollover that sees a new date leaves no day open: every plan is
    closed after it, the plans are the same ones in the same order (their
    ids are kept), a plan that was closed already is exactly as it was, and
    the stored date is today's. *)
Theorem rollover_closes_every_plan :
  forall (now : Z) (st : State),
    differs (lastLoginDate st) (getTodayStr now) = true ->
    Forall (fun p => dayActive p = false) (plans (rollover now st)) /\
    map id (plans (rollover now st)) = map id (plans st) /\
    (forall (n : nat) (p : Plan),
       nth_error (plans st) n = Some p -> dayActive p = false ->
       nth_error (plans (rollover now st)) n = Some p) /\
    lastLoginDate (rollover now st) = Some (getTodayStr now).
Proof.
  intros now st H. split; [| split; [apply rollover_ids | split]].
  - rewrite (rollover_changes now st H). cbn [plans].
    apply Forall_map, Forall_forall. intros p _. apply closeDay_closes.
  - intros n p Hn Hp. rewrite (rollover_changes now st H). cbn [plans].
    rewrite nth_error_map, Hn. cbn [option_map].
    rewrite closeDay_closed by exact Hp. reflexivity.
  - rewrite (rollover_changes now st H). reflexivity.
Qed.

Lemma rollover_closes_every_plan_witness :
  Forall (fun p => dayActive p = false)
    (plans (rollover 19724 (state appOpenDay))) /\
  map id (plans (rollover 19724 (state appOpenDay)))
  = map id (plans (state appOpenDay)) /\
  (forall (n : nat) (p : Plan),
     nth_error (plans (state appOpenDay)) n = Some p ->
     dayActive p = false ->
     nth_error (plans (rollover 19724 (state appOpenDay))) n = Some p) /\
  lastLoginDate (rollover 19724 (state appOpenDay))
  = Some (getTodayStr 19724).
Proof.
  apply (rollover_closes_every_plan 19724 (state appOpenDay)). reflexivity.
Defined.

(** What closing one plan adds to the total is what it adds to the plan's
    [totalSaved]. *)
Lemma closeDay_conserves lastLogin todayStr ts plan :
  (fst (closeDay lastLogin todayStr ts plan)
   == ts + (orZero (totalSaved (snd (closeDay lastLogin todayStr ts plan)))
            - orZero (totalSaved plan)))%Q.
Proof.
  unfold closeDay. destruct (dayActive plan); cbn [fst snd totalSaved orZero].
  - ring.
  - ring.
Qed.

Lemma closeDays_conserves lastLogin todayStr ps : forall ts,
  (fold_left (fun t p => fst (closeDay lastLogin todayStr t p)) ps ts
   == ts + (sumTotalSaved
              (map (fun p => snd (closeDay lastLogin todayStr 0 p)) ps)
            - sumTotalSaved ps))%Q.
Proof.
  induction ps as [| p ps IH]; intros ts; cbn [fold_left map sumTotalSaved
    fold_right].
  - ring.
  - rewrite IH, closeDay_conserves.
    rewrite (closeDay_plan lastLogin todayStr ts 0 p).
    fold (sumTotalSaved ps).
    fold (sumTotalSaved
            (map (fun p => snd (closeDay lastLogin todayStr 0 p)) ps)).
    ring.
Qed.

(** X15. The rollover keeps the books: what it adds to the document's
    [totalSavings] is what it adds, in all, to the [totalSaved] of the
    plans. *)
Theorem rollover_conserves_savings :
  forall (now : Z) (st : State),
    (totalSavings (rollover now st) - totalSavings st
     == sumTotalSaved (plans (rollover now st)) - sumTotalSaved (plans st))%Q.
Proof.
  intros now st.
  destruct (differs (lastLoginDate st) (getTodayStr now)) eqn:E.
  - rewrite (rollover_changes now st E). cbn [totalSavings plans].
    rewrite closeDays_conserves. ring.
  - unfold rollover. rewrite E. ring.
Qed.

(** X16. Closing a day never lowers the debt, and never lowers
    [totalSpent] when what was spent in the day is not negative; a debt and
    a [totalSpent] that are not negative stay so. *)
Theorem closeDay_debt_and_spent_grow :
  forall (lastLogin : option string) (todayStr : string) (ts : Q)
         (plan : Plan),
    let plan' := snd (closeDay lastLogin todayStr ts plan) in
    (orZero (penaltyDebt plan) <= orZero (penaltyDebt plan'))%Q /\
    ((0 <= orZero (dailySpent plan))%Q ->
     (orZero (totalSpent plan) <= orZero (totalSpent plan'))%Q).
Proof.
  intros lastLogin todayStr ts plan plan'. subst plan'. unfold closeDay.
  destruct (dayActive plan); cbn [snd penaltyDebt totalSpent].
  - split.
    + destruct (penaltyMode plan && (estimateMode plan
                                     || manualSavingsMode plan));
        [| apply Qle_refl].
      destruct (Qltb _ _) eqn:E; [| apply Qle_refl].
      apply Qltb_lt in E. cbn [orZero]. lra.
    + intros H. cbn [orZero]. lra.
  - split; [apply Qle_refl | intros _; apply Qle_refl].
Qed.

Lemma closeDay_debt_and_spent_witness :
  (orZero (totalSpent planOpenDay)
   <= orZero (totalSpent
                (snd (closeDay (Some "2024-01-01"%string) "2024-01-02" 200
                        planOpenDay))))%Q.
Proof.
  apply (proj2 (closeDay_debt_and_spent_grow (Some "2024-01-01"%string)
                  "2024-01-02"%string 200%Q planOpenDay)).
  unfold Qle. simpl. lia.
Defined.

(** ** A first start *)

Lemma weekdayName_shape d :
  exists a b c, weekdayName d = String a (String b (String c EmptyString)).
Proof.
  unfold weekdayName.
  destruct d as [| p | p]; [do 3 eexists; reflexivity | |
    do 3 eexists; reflexivity].
  do 3 (destruct p as [p | p |]; try (do 3 eexists; reflexivity)).
Qed.

Lemma digit_not_space n : digit n <> " "%char.
Proof.
  unfold digit. intros H. apply (f_equal nat_of_ascii) in H.
  assert (Hb : 0 <= n mod 10 < 10) by (apply Z.mod_pos_bound; lia).
  rewrite nat_ascii_embedding in H by lia.
  change (nat_of_ascii " ") with 32%nat in H. lia.
Qed.

(** The text of [toDateString] is never the text of a day in the form
    YYYY-MM-DD: its fourth character is a space. *)
Lemma toDateString_differs hostDay now :
  differs (Some (toDateString hostDay)) (getTodayStr now) = true.
Proof.
  unfold differs. apply negb_true_iff, String.eqb_neq.
  unfold toDateString, getTodayStr, toLocaleDateString.
  destruct (civil_from_days hostDay) as [[y m] dd].
  destruct (civil_from_days now) as [[y' m'] dd'].
  destruct (weekdayName_shape (getDay hostDay)) as (a & b & c & ->).
  unfold pad4. cbn [String.append]. intros H. injection H as _ _ _ H _.
  apply (digit_not_space y'). symmetry. exact H.
Qed.

(** X17. On a first start, with nothing stored, the first [checkDailyReset]
    always runs the rollover, whatever the day: the date that [Store.load]
    puts in [lastLoginDate] is a [toDateString] text, which is never the
    text of today.  The document's history gets one entry, of that date and
    of savings 0, the stored date becomes today's, and the document is
    saved. *)
Theorem first_start_rolls_over :
  forall (hostDay now : Z) (planId : option string),
    checkDailyReset now (mkApp (defaultState hostDay) planId None)
    = mkApp
        (mkState false [] 0%Q 0%Q (Some (getTodayStr now))
           [mkSnapshot (toDateString hostDay) 0%Q])
        planId
        (Some (mkState false [] 0%Q 0%Q (Some (getTodayStr now))
                 [mkSnapshot (toDateString hostDay) 0%Q])).
Proof.
  intros hostDay now planId. unfold checkDailyReset, rollover.
  cbn [state defaultState lastLoginDate].
  rewrite toDateString_differs.
  cbn [plans closeDays totalSavings stateHistory tosAgreed stateTotalSpent
       saveState state currentPlanId pushCapped app List.length Nat.ltb
       Nat.leb].
  destruct (weekdayName_shape (getDay hostDay)) as (a & b & c & E).
  assert (Hs : strOr (Some (toDateString hostDay)) (getTodayStr now)
               = toDateString hostDay).
  { unfold toDateString in *. destruct (civil_from_days hostDay) as [[y m] dd].
    rewrite E. reflexivity. }
  rewrite Hs. reflexivity.
Qed.

(** ** The other handlers *)

Lemma find_app_found {A : Type} (f : A -> bool) (l l' : list A) (x : A) :
  find f l = Some x -> find f (l ++ l') = Some x.
Proof.
  induction l as [| y l IH]; simpl; [discriminate |].
  destruct (f y); [trivial | exact IH].
Qed.

Lemma find_app_missing {A : Type} (f : A -> bool) (l l' : list A) :
  find f l = None -> find f (l ++ l') = find f l'.
Proof.
  induction l as [| y l IH]; simpl; [reflexivity |].
  destruct (f y); [discriminate | exact IH].
Qed.

(** X18. [save-new-plan].  A missing name, a missing start date, or a
    missing end date when one is asked for, stops the handler at an alert.
    Otherwise the new plan goes to the back of the list and the document is
    saved; every plan that could be found by its id before is found as
    before, so a new plan never hides an old one, and the new plan is found
    by its id when that id was free.  The new plan is closed, in estimate
    mode only, and a rollover leaves it as it is. *)
Theorem saveNewPlan_appends :
  forall (idStr name_ start_ : string) (useEnd : bool) (end' : string)
         (goalInput : InputValue) (app : App),
    (name_ = ""%string \/ start_ = ""%string
     \/ (useEnd = true /\ end' = ""%string) ->
     saveNewPlan idStr name_ start_ useEnd end' goalInput app
     = Alerted "Name and required Dates are missing") /\
    (name_ <> ""%string -> start_ <> ""%string ->
     (useEnd = true -> end' <> ""%string) ->
     let np := newPlan idStr name_ start_ useEnd
                 (if useEnd then Some end' else None) goalInput in
     exists app',
       saveNewPlan idStr name_ start_ useEnd end' goalInput app
       = Completed app' /\
       plans (state app') = plans (state app) ++ [np] /\
       storage app' = Some (state app') /\
       (forall i p,
          findPlan (Some i) (plans (state app)) = Some p ->
          findPlan (Some i) (plans (state app')) = Some p) /\
       (findPlan (Some idStr) (plans (state app)) = None ->
        findPlan (Some idStr) (plans (state app')) = Some np) /\
       dayActive np = false /\
       xorb (estimateMode np) (manualSavingsMode np) = true /\
       (forall lastLogin todayStr ts,
          closeDay lastLogin todayStr ts np = (ts, np))).
Proof.
  intros idStr name_ start_ useEnd end' goalInput app. split.
  - intros H. unfold saveNewPlan.
    replace (String.eqb name_ "" || String.eqb start_ ""
             || (useEnd && String.eqb end' "")) with true; [reflexivity |].
    symmetry. rewrite !orb_true_iff, andb_true_iff, !String.eqb_eq. tauto.
  - intros Hn Hs He np. unfold saveNewPlan.
    replace (String.eqb name_ "" || String.eqb start_ ""
             || (useEnd && String.eqb end' "")) with false.
    2:{ symmetry. apply not_true_is_false.
        rewrite !orb_true_iff, andb_true_iff, !String.eqb_eq.
        intros [[H | H] | [H1 H2]]; [auto | auto | apply He; assumption]. }
    eexists. split; [reflexivity |].
    cbn [saveState state plans storage]. fold np.
    split; [reflexivity |]. split; [reflexivity |]. split; [| split].
    + intros i p H. unfold findPlan in *. apply find_app_found, H.
    + intros H. unfold findPlan in *. rewrite (find_app_missing _ _ _ H).
      simpl. rewrite String.eqb_refl. reflexivity.
    + repeat split.
Qed.

Lemma saveNewPlan_appends_witness :
  let np := newPlan "1704153600000" "Tablet" "2024-01-02" true
              (if true then Some "2024-06-28"%string else None)
              (Entered (Some 8000%Q)) in
  exists app',
    saveNewPlan "1704153600000" "Tablet" "2024-01-02" true "2024-06-28"
      (Entered (Some 8000%Q)) appOpenDay = Completed app' /\
    plans (state app') = plans (state appOpenDay) ++ [np] /\
    storage app' = Some (state app') /\
    (forall i p,
       findPlan (Some i) (plans (state appOpenDay)) = Some p ->
       findPlan (Some i) (plans (state app')) = Some p) /\
    (findPlan (Some "1704153600000"%string) (plans (state appOpenDay)) = None ->
     findPlan (Some "1704153600000"%string) (plans (state app')) = Some np) /\
    dayActive np = false /\
    xorb (estimateMode np) (manualSavingsMode np) = true /\
    (forall lastLogin todayStr ts,
       closeDay lastLogin todayStr ts np = (ts, np)).
Proof.
  apply (proj2 (saveNewPlan_appends "1704153600000" "Tablet" "2024-01-02"
                  true "2024-06-28" (Entered (Some 8000%Q)) appOpenDay));
    discriminate.
Defined.

Lemma checkDailyReset_ids now app :
  map id (plans (state (checkDailyReset now app)))
  = map id (plans (state app)).
Proof.
  unfold checkDailyReset.
  destruct (differs (lastLoginDate (state app)) (getTodayStr now));
    [| reflexivity].
  cbn [saveState state]. apply rollover_ids.
Qed.

Lemma filter_otherThan_ids i ps :
  map id (filter (otherThan (Some i)) ps)
  = filter (fun j => negb (String.eqb j i)) (map id ps).
Proof.
  induction ps as [| p ps IH]; simpl; [reflexivity |].
  destruct (negb (String.eqb (id p) i)); simpl; rewrite IH; reflexivity.
Qed.

Lemma find_by_id_none i ps :
  ~ In i (map id ps) -> find (fun p => String.eqb (id p) i) ps = None.
Proof.
  induction ps as [| p ps IH]; simpl; [reflexivity |].
  intros H. destruct (String.eqb (id p) i) eqn:E.
  - apply String.eqb_eq in E. exfalso. apply H. left. exact E.
  - apply IH. intros H'. apply H. right. exact H'.
Qed.

Lemma checkDailyReset_currentPlanId now app :
  currentPlanId (checkDailyReset now app) = currentPlanId app.
Proof.
  unfold checkDailyReset.
  destruct (differs (lastLoginDate (state app)) (getTodayStr now));
    reflexivity.
Qed.

(** X19. Deleting the current plan removes every plan of its id and no
    other: the ids left are the ids of before without it, in their order,
    also after the rollover that the return to the home screen may run.
    The selection is not cleared, so the deleted plan is no longer found and
    a handler on the current plan throws without changing anything. *)
Theorem deletePlan_removes_current :
  forall (now : Z) (app : App) (i : string),
    currentPlanId app = Some i ->
    map id (plans (state (deletePlan now app)))
    = filter (fun j => negb (String.eqb j i)) (map id (plans (state app))) /\
    findPlan (currentPlanId (deletePlan now app))
      (plans (state (deletePlan now app))) = None /\
    (forall f : Plan -> Plan, onCurrentPlan f (deletePlan now app) = Thrown).
Proof.
  intros now app i Hc.
  assert (Hids : map id (plans (state (deletePlan now app)))
                 = filter (fun j => negb (String.eqb j i))
                     (map id (plans (state app)))).
  { unfold deletePlan. rewrite checkDailyReset_ids.
    cbn [saveState state plans]. rewrite Hc. apply filter_otherThan_ids. }
  assert (Hcur : currentPlanId (deletePlan now app) = Some i).
  { unfold deletePlan. rewrite checkDailyReset_currentPlanId. exact Hc. }
  assert (Hnone : findPlan (currentPlanId (deletePlan now app))
                    (plans (state (deletePlan now app))) = None).
  { rewrite Hcur. unfold findPlan. apply find_by_id_none. rewrite Hids.
    intros H. apply filter_In in H. destruct H as [_ H].
    rewrite String.eqb_refl in H. discriminate. }
  split; [exact Hids |]. split; [exact Hnone |].
  intros f. unfold onCurrentPlan. rewrite Hnone, Hcur. reflexivity.
Qed.

Lemma deletePlan_removes_current_witness :
  map id (plans (state (deletePlan 19723 appOpenDay)))
  = filter (fun j => negb (String.eqb j "1704067200003"))
      (map id (plans (state appOpenDay))) /\
  findPlan (currentPlanId (deletePlan 19723 appOpenDay))
    (plans (state (deletePlan 19723 appOpenDay))) = None /\
  (forall f : Plan -> Plan,
     onCurrentPlan f (deletePlan 19723 appOpenDay) = Thrown).
Proof.
  apply (deletePlan_removes_current 19723 appOpenDay "1704067200003").
  reflexivity.
Defined.

Lemma closeDay_totals lastLogin todayStr ts plan :
  dayActive plan = true ->
  totalSaved (snd (closeDay lastLogin todayStr ts plan))
  = Some (orZero (totalSaved plan)
          + (orZero (dailyAllowance plan) - orZero (dailySpent plan)))%Q /\
  totalSpent (snd (closeDay lastLogin todayStr ts plan))
  = Some (orZero (totalSpent plan) + orZero (dailySpent plan))%Q.
Proof. intros H. unfold closeDay. rewrite H. split; reflexivity. Qed.

(** X20. A purchase.  [buy-other-btn] ignores a cost that is not positive,
    and a cost above what remains of the allowance, as the script compares
    the two on doubles, unless it is confirmed: the application then stays
    as it is.  A purchase that goes through adds the cost to [dailySpent]
    and leaves the allowance alone; when the day is closed, the plan's
    [totalSaved] is lower by the cost, and its [totalSpent] higher by the
    cost, than it would have been without the purchase. *)
Theorem buyOther_spends :
  forall (costInput : InputValue) (confirmed : bool) (app : App)
         (plan : Plan),
    findPlan (currentPlanId app) (plans (state app)) = Some plan ->
    let cost := parseFloatOrZero costInput in
    ((cost <= 0)%Q \/ (exceedsRemaining cost plan = true /\ confirmed = false)
     -> buyOther costInput confirmed app = Completed app) /\
    ((0 < cost)%Q ->
     exceedsRemaining cost plan = false \/ confirmed = true ->
     forall s : Q,
       dailySpent plan = Some s ->
       exists app' plan',
         buyOther costInput confirmed app = Completed app' /\
         findPlan (currentPlanId app') (plans (state app')) = Some plan' /\
         dailySpent plan' = Some (s + cost)%Q /\
         dailyAllowance plan' = dailyAllowance plan /\
         (dayActive plan = true ->
          forall lastLogin todayStr ts,
            (orZero (totalSaved (snd (closeDay lastLogin todayStr ts plan')))
             == orZero (totalSaved (snd (closeDay lastLogin todayStr ts plan)))
                - cost)%Q /\
            (orZero (totalSpent (snd (closeDay lastLogin todayStr ts plan')))
             == orZero (totalSpent (snd (closeDay lastLogin todayStr ts plan)))
                + cost)%Q)).
Proof.
  intros costInput confirmed app plan Hf cost. split.
  - intros [H | [H1 H2]]; unfold buyOther; fold cost.
    + apply Qle_bool_iff in H. rewrite H. reflexivity.
    + destruct (Qle_bool cost 0); [reflexivity |].
      unfold purchase. rewrite Hf, H1, H2. reflexivity.
  - intros Hpos Hok s Hs. unfold buyOther. fold cost.
    replace (Qle_bool cost 0) with false.
    2:{ symmetry. apply not_true_is_false. intros E.
        apply Qle_bool_iff in E. lra. }
    unfold purchase. rewrite Hf.
    replace (exceedsRemaining cost plan && negb confirmed) with false.
    2:{ destruct Hok as [-> | ->];
          [reflexivity | rewrite andb_false_r; reflexivity]. }
    destruct (onCurrentPlan_completed (spend cost) app plan Hf eq_refl)
      as (app' & H1 & H2 & _).
    exists app', (spend cost plan).
    split; [exact H1 |]. split; [exact H2 |].
    assert (Hspent : dailySpent (spend cost plan) = Some (s + cost)%Q).
    { unfold spend. cbn [setDailySpent dailySpent]. rewrite Hs. reflexivity. }
    split; [exact Hspent |]. split; [reflexivity |].
    intros Hopen lastLogin todayStr ts.
    destruct (closeDay_totals lastLogin todayStr ts plan Hopen) as [E1 E2].
    destruct (closeDay_totals lastLogin todayStr ts (spend cost plan) Hopen)
      as [E3 E4].
    rewrite E1, E2, E3, E4, Hspent, Hs.
    change (dailyAllowance (spend cost plan)) with (dailyAllowance plan).
    change (totalSaved (spend cost plan)) with (totalSaved plan).
    change (totalSpent (spend cost plan)) with (totalSpent plan).
    cbn [orZero]. split; ring.
Qed.

Lemma buyOther_spends_witness :
  exists app' plan',
    buyOther (Entered (Some 25%Q)) false appOpenDay = Completed app' /\
    findPlan (currentPlanId app') (plans (state app')) = Some plan' /\
    dailySpent plan' = Some (30 + parseFloatOrZero (Entered (Some 25%Q)))%Q /\
    dailyAllowance plan' = dailyAllowance planOpenDay /\
    (dayActive planOpenDay = true ->
     forall lastLogin todayStr ts,
       (orZero (totalSaved (snd (closeDay lastLogin todayStr ts plan')))
        == orZero (totalSaved
                     (snd (closeDay lastLogin todayStr ts planOpenDay)))
           - parseFloatOrZero (Entered (Some 25%Q)))%Q /\
       (orZero (totalSpent (snd (closeDay lastLogin todayStr ts plan')))
        == orZero (totalSpent
                     (snd (closeDay lastLogin todayStr ts planOpenDay)))
           + parseFloatOrZero (Entered (Some 25%Q)))%Q).
Proof.
  apply (proj2 (buyOther_spends (Entered (Some 25%Q)) false appOpenDay
                  planOpenDay eq_refl)).
  - reflexivity.
  - left. vm_compute. reflexivity.
  - reflexivity.
Defined.

(** The dialog follows the doubles.  With an allowance of 10 of which 0.1 is
    spent, the script's difference is the double of 9.9: a cost of 9.9 is
    not above it, no dialog is shown and the purchase goes through
    unconfirmed.  With an allowance of 100 of which 30 are spent, a cost of
    80 is above what remains, and unconfirmed it changes nothing. *)
Example buyOther_dialog_examples :
  (number (dailyAllowance planTightDay) - number (dailySpent planTightDay)
   =? double 9.9)%float = true /\
  exceedsRemaining 9.9 planTightDay = false /\
  (exists app',
     buyOther (Entered (Some 9.9%Q)) false appTightDay = Completed app' /\
     option_map dailySpent
       (findPlan (currentPlanId app') (plans (state app')))
     = Some (Some (0.1 + 9.9)%Q)) /\
  exceedsRemaining 80 planOpenDay = true /\
  buyOther (Entered (Some 80%Q)) false appOpenDay = Completed appOpenDay.
Proof.
  split; [vm_compute; reflexivity |].
  split; [vm_compute; reflexivity |].
  split.
  - eexists. split; vm_compute; reflexivity.
  - split; vm_compute; reflexivity.
Qed.

Lemma spliceOne_last {A : Type} (l : list A) (x : A) :
  spliceOne (List.length l) (l ++ [x]) = l.
Proof.
  unfold spliceOne.
  rewrite firstn_app, firstn_all, Nat.sub_diag. cbn [firstn].
  rewrite skipn_all2 by (rewrite length_app; simpl; lia).
  rewrite !app_nil_r. reflexivity.
Qed.

Lemma setProducts_same plan : setProducts (products plan) plan = plan.
Proof. destruct plan. reflexivity. Qed.

Lemma writePlan_back i plan q ps :
  id q = i ->
  find (fun p => String.eqb (id p) i) ps = Some plan ->
  writePlan i plan (writePlan i q ps) = ps.
Proof.
  intros Hq. induction ps as [| r ps IH]; simpl; [discriminate |].
  destruct (String.eqb (id r) i) eqn:E.
  - intros [= ->]. simpl. rewrite Hq, String.eqb_refl. reflexivity.
  - intros H. simpl. rewrite E, (IH H). reflexivity.
Qed.

(** A handler on the current plan, spelled out. *)
Lemma onCurrentPlan_found (f : Plan -> Plan) app i plan :
  currentPlanId app = Some i ->
  find (fun p => String.eqb (id p) i) (plans (state app)) = Some plan ->
  onCurrentPlan f app
  = Completed
      (mkApp
         (mkState (tosAgreed (state app))
            (writePlan i (f plan) (plans (state app)))
            (totalSavings (state app)) (stateTotalSpent (state app))
            (lastLoginDate (state app)) (stateHistory (state app)))
         (Some i)
         (Some
            (mkState (tosAgreed (state app))
               (writePlan i (f plan) (plans (state app)))
               (totalSavings (state app)) (stateTotalSpent (state app))
               (lastLoginDate (state app)) (stateHistory (state app))))).
Proof.
  intros Hc Hf. unfold onCurrentPlan, findPlan. rewrite Hc, Hf.
  unfold saveState. cbn [state currentPlanId]. reflexivity.
Qed.

Lemma add_then_delete_product plan x :
  setProducts
    (spliceOne (List.length (products plan))
       (products (setProducts (products plan ++ [x]) plan)))
    (setProducts (products plan ++ [x]) plan)
  = plan.
Proof.
  destruct plan. unfold setProducts. cbn -[spliceOne].
  rewrite spliceOne_last. reflexivity.
Qed.

(** X21. Products.  [deleteProduct] at an index past the end removes
    nothing, and within the list it removes exactly one product.  Deleting
    the product that [save-prod-btn] has just added, the last one, puts the
    document back exactly as it was. *)
Theorem products_add_then_delete :
  (forall (A : Type) (idx : nat) (l : list A),
     ((List.length l <= idx)%nat -> spliceOne idx l = l) /\
     ((idx < List.length l)%nat ->
      S (List.length (spliceOne idx l)) = List.length l)) /\
  (forall (name_ : string) (p : Q) (app : App) (plan : Plan),
     findPlan (currentPlanId app) (plans (state app)) = Some plan ->
     name_ <> ""%string ->
     exists app' app'',
       saveProduct name_ (Entered (Some p)) app = Completed app' /\
       findPlan (currentPlanId app') (plans (state app'))
       = Some (setProducts (products plan ++ [mkProduct name_ p]) plan) /\
       deleteProduct (List.length (products plan)) app' = Completed app'' /\
       state app'' = state app /\
       storage app'' = Some (state app)).
Proof.
  split.
  - intros A idx l. unfold spliceOne. split.
    + intros H. rewrite firstn_all2 by exact H.
      rewrite skipn_all2 by lia. apply app_nil_r.
    + intros H. rewrite length_app, length_firstn, length_skipn. lia.
  - intros name_ p app plan Hf Hn.
    unfold findPlan in Hf.
    destruct (currentPlanId app) as [i |] eqn:Hc; [| discriminate].
    assert (Hi : id plan = i).
    { apply find_some in Hf. destruct Hf as [_ Hf].
      apply String.eqb_eq, Hf. }
    unfold saveProduct.
    replace (String.eqb name_ "") with false
      by (symmetry; apply String.eqb_neq; exact Hn).
    rewrite (onCurrentPlan_found _ app i plan Hc Hf).
    eexists. eexists. split; [reflexivity |].
    assert (Hf' : find (fun q => String.eqb (id q) i)
                    (writePlan i
                       (setProducts (products plan ++ [mkProduct name_ p])
                          plan) (plans (state app)))
                  = Some (setProducts (products plan ++ [mkProduct name_ p])
                            plan)).
    { apply find_writePlan with (plan := plan); [exact Hf | exact Hi]. }
    split; [exact Hf' |].
    unfold deleteProduct.
    erewrite onCurrentPlan_found; [| reflexivity | exact Hf'].
    cbn [state plans tosAgreed totalSavings stateTotalSpent lastLoginDate
         stateHistory storage].
    rewrite add_then_delete_product.
    rewrite (writePlan_back i plan
               (setProducts (products plan ++ [mkProduct name_ p]) plan)
               (plans (state app)) Hi Hf).
    split; [reflexivity |].
    destruct app as [st cur sto]. destruct st. cbn. split; reflexivity.
Qed.

Lemma products_add_then_delete_witness :
  exists app' app'',
    saveProduct "Coffee" (Entered (Some 45%Q)) appOpenDay = Completed app' /\
    findPlan (currentPlanId app') (plans (state app'))
    = Some (setProducts (products planOpenDay ++ [mkProduct "Coffee" 45%Q])
              planOpenDay) /\
    deleteProduct (List.length (products planOpenDay)) app'
    = Completed app'' /\
    state app'' = state appOpenDay /\
    storage app'' = Some (state appOpenDay).
Proof.
  apply (proj2 products_add_then_delete "Coffee"%string 45%Q appOpenDay
           planOpenDay eq_refl).
  discriminate.
Defined.

(** ** The records that [mergeExclusions] writes to *)

Lemma insertRef_values store x l :
  map (deref store) (insertRef store x l)
  = insertByStart (deref store x) (map (deref store) l).
Proof.
  induction l as [| y l IH]; simpl; [reflexivity |].
  destruct (localeCompare (start (deref store x)) (start (deref store y)));
    simpl; [reflexivity | reflexivity | rewrite IH; reflexivity].
Qed.

Lemma sortRefs_values store refs :
  map (deref store) (sortRefs store refs)
  = sortByStart (map (deref store) refs).
Proof.
  induction refs as [| x refs IH]; simpl; [reflexivity |].
  rewrite insertRef_values, IH. reflexivity.
Qed.

Lemma deref_all store :
  map (deref store) (seq 0 (List.length store)) = store.
Proof.
  induction store as [| x store IH]; [reflexivity |].
  cbn [List.length seq map]. unfold deref at 1. cbn [nth].
  rewrite <- seq_shift, map_map. f_equal. exact IH.
Qed.

Lemma insertRef_In store x l y :
  In y (insertRef store x l) <-> y = x \/ In y l.
Proof.
  induction l as [| z l IH]; simpl.
  - intuition.
  - destruct (localeCompare (start (deref store x)) (start (deref store z)));
      simpl; try rewrite IH; intuition.
Qed.

Lemma insertRef_NoDup store x l :
  ~ In x l -> NoDup l -> NoDup (insertRef store x l).
Proof.
  intros Hx Hl. induction Hl as [| z l Hz Hl IH]; simpl.
  - constructor; [intros [] | constructor].
  - destruct (localeCompare (start (deref store x)) (start (deref store z)));
      try (constructor; [exact Hx | constructor; assumption]).
    constructor.
    + rewrite insertRef_In. intros [-> | H]; [apply Hx; left; reflexivity |
        contradiction].
    + apply IH. intros H. apply Hx. right. exact H.
Qed.

Lemma sortRefs_In store refs y :
  In y (sortRefs store refs) <-> In y refs.
Proof.
  induction refs as [| x refs IH]; simpl; [tauto |].
  rewrite insertRef_In, IH. intuition.
Qed.

Lemma sortRefs_NoDup store refs :
  NoDup refs -> NoDup (sortRefs store refs).
Proof.
  induction 1 as [| x refs Hx Hr IH]; simpl; [constructor |].
  apply insertRef_NoDup; [rewrite sortRefs_In; exact Hx | exact IH].
Qed.

Lemma writeEnd_length r e store :
  List.length (writeEnd r e store) = List.length store.
Proof.
  revert r. induction store as [| x store IH]; intros r; [reflexivity |].
  destruct r; simpl; [| rewrite IH]; reflexivity.
Qed.

Lemma deref_writeEnd_same r e store :
  (r < List.length store)%nat ->
  deref (writeEnd r e store) r = mkRange (start (deref store r)) e.
Proof.
  revert r. induction store as [| x store IH]; intros r H;
    [simpl in H; lia |].
  destruct r; [reflexivity |]. simpl in H.
  unfold deref in *. simpl. apply IH. lia.
Qed.

Lemma deref_writeEnd_other r e store r' :
  r' <> r -> deref (writeEnd r e store) r' = deref store r'.
Proof.
  revert r r'. induction store as [| x store IH]; intros r r' H;
    [reflexivity |].
  destruct r, r'; try reflexivity; [contradiction |].
  unfold deref in *. simpl. apply IH. congruence.
Qed.

Lemma values_writeEnd r e store refs :
  ~ In r refs ->
  map (deref (writeEnd r e store)) refs = map (deref store) refs.
Proof.
  intros H. apply map_ext_in. intros r' Hr'.
  apply deref_writeEnd_other. intros ->. contradiction.
Qed.

Lemma str_leb_refl a : str_leb a a = true.
Proof. apply str_leb_le, str_lt_irrefl. Qed.

(** The loop on references: what it returns holds the values that the loop
    on values computes; the store keeps its length, the records keep their
    starts, their ends only move later, and a record that was written to is
    one of those returned. *)
Lemma mergeLoopRefs_spec rest : forall store merged current,
  NoDup (merged ++ current :: rest) ->
  Forall (fun r => (r < List.length store)%nat) (current :: rest) ->
  let store' := fst (mergeLoopRefs store merged current rest) in
  let merged' := snd (mergeLoopRefs store merged current rest) in
  map (deref store') merged'
  = mergeLoop (map (deref store) merged) (deref store current)
      (map (deref store) rest) /\
  List.length store' = List.length store /\
  (forall x, In x (merged ++ [current]) -> In x merged') /\
  (forall r,
     start (deref store' r) = start (deref store r) /\
     str_leb (end_ (deref store r)) (end_ (deref store' r)) = true /\
     (deref store' r = deref store r \/ In r merged')).
Proof.
  induction rest as [| next rest IH]; intros store merged current Hnd Hb;
    cbv zeta.
  - cbn [mergeLoopRefs fst snd map mergeLoop]. rewrite map_app.
    split; [reflexivity |]. split; [reflexivity |]. split; [auto |].
    intros r. split; [reflexivity |]. split; [apply str_leb_refl | left;
      reflexivity].
  - cbn [mergeLoopRefs map mergeLoop].
    apply Forall_cons_iff in Hb. destruct Hb as [Hc Hb].
    apply Forall_cons_iff in Hb. destruct Hb as [Hn Hb].
    assert (Hnd' : NoDup (merged ++ current :: rest)).
    { pose proof Hnd as H.
      change (merged ++ current :: next :: rest)
        with (merged ++ [current] ++ next :: rest) in H.
      rewrite app_assoc in H. apply NoDup_remove_1 in H.
      rewrite <- app_assoc in H. exact H. }
    destruct (str_leb (start (deref store next)) (end_ (deref store current)))
      eqn:Hov.
    + destruct (str_ltb (end_ (deref store current))
                  (end_ (deref store next))) eqn:Hext.
      * set (store2 := writeEnd current (end_ (deref store next)) store).
        assert (Hcm : ~ In current merged /\ ~ In current rest).
        { apply NoDup_remove_2 in Hnd'. split; intros H; apply Hnd';
            apply in_or_app; [left | right]; exact H. }
        destruct Hcm as [Hcm Hcr].
        destruct (IH store2 merged current) as (H1 & H2 & H3 & H4).
        { exact Hnd'. }
        { constructor; unfold store2; rewrite writeEnd_length;
            [exact Hc | exact Hb]. }
        subst store2.
        rewrite (values_writeEnd _ _ _ _ Hcm), (values_writeEnd _ _ _ _ Hcr),
          (deref_writeEnd_same _ _ _ Hc) in H1.
        split; [exact H1 |].
        split; [rewrite H2; apply writeEnd_length |].
        split; [exact H3 |].
        intros r. destruct (H4 r) as (Hs & He & Hch).
        destruct (Nat.eq_dec r current) as [-> | Hne].
        -- rewrite (deref_writeEnd_same _ _ _ Hc) in Hs, He.
           cbn [start end_] in Hs, He.
           split; [exact Hs |]. split; [str_order |].
           right. apply H3, in_or_app. right. left. reflexivity.
        -- rewrite (deref_writeEnd_other _ _ _ _ Hne) in Hs, He, Hch.
           split; [exact Hs |]. split; [exact He | exact Hch].
      * apply IH; [exact Hnd' | constructor; assumption].
    + destruct (IH store (merged ++ [current]) next) as (H1 & H2 & H3 & H4).
      { rewrite <- app_assoc. exact Hnd. }
      { constructor; assumption. }
      rewrite map_app in H1.
      split; [exact H1 |]. split; [exact H2 |].
      split; [| exact H4].
      intros x Hx. apply H3, in_or_app. left. exact Hx.
Qed.

Lemma mergeExclusionsInPlace_spec l :
  let store' := fst (mergeExclusionsInPlace l) in
  snd (mergeExclusionsInPlace l) = mergeExclusions (Some l) /\
  List.length store' = List.length l /\
  (forall r,
     start (deref store' r) = start (deref l r) /\
     str_leb (end_ (deref l r)) (end_ (deref store' r)) = true /\
     (deref store' r = deref l r
      \/ In (deref store' r) (mergeExclusions (Some l)))).
Proof.
  cbv zeta. unfold mergeExclusionsInPlace, mergeExclusions.
  pose proof (sortRefs_values l (seq 0 (List.length l))) as Hv.
  rewrite deref_all in Hv.
  pose proof (sortRefs_NoDup l (seq 0 (List.length l))
                (seq_NoDup (List.length l) 0)) as Hnd.
  assert (Hb : Forall (fun r => (r < List.length l)%nat)
                 (sortRefs l (seq 0 (List.length l)))).
  { apply Forall_forall. intros r Hr. apply sortRefs_In, in_seq in Hr. lia. }
  destruct (sortRefs l (seq 0 (List.length l))) as [| current rest].
  - simpl in Hv. rewrite <- Hv. cbn [fst snd].
    split; [reflexivity |]. split; [reflexivity |].
    intros r. split; [reflexivity |]. split; [apply str_leb_refl |].
    left. reflexivity.
  - cbn [map] in Hv. rewrite <- Hv.
    destruct (mergeLoopRefs_spec rest l [] current Hnd Hb)
      as (H1 & H2 & _ & H4).
    destruct (mergeLoopRefs l [] current rest) as [store merged].
    cbn [fst snd map] in *.
    split; [exact H1 |]. split; [exact H2 |].
    intros r. destruct (H4 r) as (Hs & He & Hch).
    split; [exact Hs |]. split; [exact He |].
    destruct Hch as [Hch | Hch]; [left; exact Hch |].
    right. rewrite <- H1. apply in_map, Hch.
Qed.

(** X22. The array that [mergeExclusions] returns, with the writes of the
    script to shared records taken into account, is the array that the
    function on values returns: reading ranges as values loses nothing of
    the result. *)
Theorem mergeExclusionsInPlace_returns :
  forall (l : list Range),
    snd (mergeExclusionsInPlace l) = mergeExclusions (Some l).
Proof. intros l. apply (mergeExclusionsInPlace_spec l). Qed.

(** X23. What [mergeExclusions] does to the array it is given.  The array
    keeps its length and its order, every range keeps its start, an end is
    only ever moved later, and a range that was written to is one of the
    ranges returned; the days covered by the array are the days covered
    before. *)
Theorem mergeExclusionsInPlace_keeps_given_array :
  forall (l : list Range),
    let after := fst (mergeExclusionsInPlace l) in
    List.length after = List.length l /\
    (forall r : nat,
       start (deref after r) = start (deref l r) /\
       str_leb (end_ (deref l r)) (end_ (deref after r)) = true /\
       (deref after r = deref l r
        \/ In (deref after r) (snd (mergeExclusionsInPlace l)))) /\
    (forall s : string,
       existsb (inRange s) after = existsb (inRange s) l).
Proof.
  intros l after. subst after.
  destruct (mergeExclusionsInPlace_spec l) as (H1 & H2 & H3).
  split; [exact H2 |]. split; [rewrite H1; exact H3 |].
  intros s. apply eq_iff_eq_true. rewrite !existsb_exists. split.
  - intros (x & Hin & Hx).
    destruct (In_nth _ _ (mkRange "" "") Hin) as (r & Hr & <-).
    fold (deref (fst (mergeExclusionsInPlace l)) r) in Hx.
    destruct (H3 r) as (_ & _ & [Hsame | Hret]).
    + exists (deref l r). split; [apply nth_In; lia |].
      rewrite <- Hsame. exact Hx.
    + rewrite <- existsb_exists, <- mergeExclusions_existsb.
      apply existsb_exists. eexists. split; [exact Hret | exact Hx].
  - intros (x & Hin & Hx).
    destruct (In_nth _ _ (mkRange "" "") Hin) as (r & Hr & <-).
    fold (deref l r) in Hx.
    exists (deref (fst (mergeExclusionsInPlace l)) r).
    split; [apply nth_In; lia |].
    destruct (H3 r) as (Hs & He & _).
    unfold inRange in *. rewrite Hs.
    apply andb_true_iff in Hx. destruct Hx as [Hx1 Hx2].
    rewrite Hx1. cbn [andb]. str_order.
Qed.

(** The two overlapping ranges of the example: the call writes the later
    end into the first record of the array given. *)
Example mergeExclusionsInPlace_example :
  mergeExclusionsInPlace
    [mkRange "2024-01-01" "2024-01-05"; mkRange "2024-01-04" "2024-01-10";
     mkRange "2024-02-01" "2024-02-02"]
  = ([mkRange "2024-01-01" "2024-01-10"; mkRange "2024-01-04" "2024-01-10";
      mkRange "2024-02-01" "2024-02-02"],
     [mkRange "2024-01-01" "2024-01-10"; mkRange "2024-02-01" "2024-02-02"]).
Proof. reflexivity. Qed.

Lemma sortRefs_fixed store refs :
  StronglySorted startLe (map (deref store) refs) ->
  sortRefs store refs = refs.
Proof.
  induction refs as [| x refs IH]; intros H; [reflexivity |].
  cbn [map] in H. apply StronglySorted_inv in H. destruct H as [Hs Hx].
  cbn [sortRefs]. rewrite (IH Hs).
  destruct refs as [| y refs]; [reflexivity |].
  cbn [map] in Hx. apply Forall_cons_iff in Hx. destruct Hx as [Hy _].
  cbn [insertRef].
  destruct (localeCompare (start (deref store x)) (start (deref store y)))
    eqn:E; try reflexivity.
  exfalso. str_order.
Qed.

Lemma mergeLoopRefs_fixed store rest : forall merged current,
  StronglySorted before (map (deref store) (current :: rest)) ->
  mergeLoopRefs store merged current rest
  = (store, merged ++ current :: rest).
Proof.
  induction rest as [| next rest IH]; intros merged current S;
    [reflexivity |].
  cbn [map] in S. apply StronglySorted_inv in S. destruct S as [S Hc].
  apply Forall_cons_iff in Hc. destruct Hc as [Hn _].
  cbn [mergeLoopRefs].
  replace (str_leb (start (deref store next)) (end_ (deref store current)))
    with false by (symmetry; str_order).
  rewrite IH by exact S. rewrite <- app_assoc. reflexivity.
Qed.

Lemma mergeExclusionsInPlace_fixed l :
  StronglySorted before l -> mergeExclusionsInPlace l = (l, l).
Proof.
  intros C. unfold mergeExclusionsInPlace.
  rewrite sortRefs_fixed
    by (rewrite deref_all; apply before_weaken, C).
  pose proof (deref_all l) as Hall.
  destruct (seq 0 (List.length l)) as [| current rest] eqn:E.
  - simpl in Hall. rewrite <- Hall. reflexivity.
  - rewrite mergeLoopRefs_fixed by (rewrite Hall; exact C).
    cbn [app]. rewrite Hall. reflexivity.
Qed.

Lemma refreshPlanTarget_exclusions now plan :
  exclusions (refreshPlanTarget now plan) = exclusions plan.
Proof.
  unfold refreshPlanTarget.
  destruct (negb (dayActive plan)); [reflexivity |].
  destruct (negb (manualSavingsMode plan)); reflexivity.
Qed.

Lemma refreshPlanTargetInPlace_merged now plan :
  StronglySorted before (orEmpty (exclusions plan)) ->
  refreshPlanTargetInPlace now plan = refreshPlanTarget now plan.
Proof.
  intros C. unfold refreshPlanTargetInPlace.
  destruct (dayActive plan && negb (manualSavingsMode plan)
            && countsDays now plan); [| reflexivity].
  pose proof (refreshPlanTarget_exclusions now plan) as He.
  destruct (exclusions plan) as [l |] eqn:El; cbn [option_map orEmpty] in *.
  - rewrite (mergeExclusionsInPlace_fixed l C). cbn [fst].
    rewrite <- He. destruct (refreshPlanTarget now plan). reflexivity.
  - rewrite <- He. destruct (refreshPlanTarget now plan). reflexivity.
Qed.

(** X24. On a list of exclusions that is merged already, [mergeExclusions]
    writes to no record and returns the list as it is; so a refresh of the
    target on a plan whose exclusions are merged, or that has none, does
    what [refreshPlanTarget] does on the plan read as a value, and no more.
    *)
Theorem merged_exclusions_are_left_alone :
  (forall l : list Range,
     StronglySorted before l -> mergeExclusionsInPlace l = (l, l)) /\
  (forall (now : Z) (plan : Plan),
     StronglySorted before (orEmpty (exclusions plan)) ->
     refreshPlanTargetInPlace now plan = refreshPlanTarget now plan).
Proof.
  split; [apply mergeExclusionsInPlace_fixed |
          apply refreshPlanTargetInPlace_merged].
Qed.

Lemma merged_exclusions_witness :
  mergeExclusionsInPlace
    [mkRange "2024-01-01" "2024-01-10"; mkRange "2024-02-01" "2024-02-02"]
  = ([mkRange "2024-01-01" "2024-01-10"; mkRange "2024-02-01" "2024-02-02"],
     [mkRange "2024-01-01" "2024-01-10"; mkRange "2024-02-01" "2024-02-02"]).
Proof.
  apply (proj1 merged_exclusions_are_left_alone).
  repeat constructor.
Defined.

(** ** The exclusions of a plan *)

Lemma calculateRequiredDaily_excluded now plan allowance :
  isDateInExclusions now (orEmpty (exclusions plan)) = true ->
  calculateRequiredDaily now plan allowance = Some 0%Q.
Proof.
  intros H. unfold calculateRequiredDaily, getManilaDate. rewrite H.
  reflexivity.
Qed.

(** The refresh and the rendering that follow a change of the exclusions:
    the plan ends with a merged list that covers the days of the list it
    began with; the list as it is saved in between covers them too. *)
Lemma exclusions_settle now plan l :
  exclusions plan = Some l ->
  exists l1 m,
    exclusions (refreshPlanTargetInPlace now plan) = Some l1 /\
    exclusions (renderExclusionsPlan (refreshPlanTargetInPlace now plan))
    = Some m /\
    m = mergeExclusions (Some l1) /\
    (forall s, existsb (inRange s) l1 = existsb (inRange s) l) /\
    (l1 = l \/ l1 = fst (mergeExclusionsInPlace l)).
Proof.
  intros Hl.
  assert (H1 : exists l1,
            exclusions (refreshPlanTargetInPlace now plan) = Some l1 /\
            (l1 = l \/ l1 = fst (mergeExclusionsInPlace l))).
  { unfold refreshPlanTargetInPlace.
    destruct (dayActive plan && negb (manualSavingsMode plan)
              && countsDays now plan).
    - rewrite Hl. cbn [option_map setExclusions exclusions].
      eexists. split; [reflexivity | right; reflexivity].
    - rewrite refreshPlanTarget_exclusions, Hl.
      eexists. split; [reflexivity | left; reflexivity]. }
  destruct H1 as (l1 & E1 & Hl1).
  exists l1, (mergeExclusions (Some l1)).
  split; [exact E1 |]. split; [| split; [reflexivity | split; [| exact Hl1]]].
  - unfold renderExclusionsPlan. rewrite E1.
    destruct l1 as [| r l1']; [exact E1 |].
    cbn [setExclusions exclusions].
    rewrite (proj1 (mergeExclusionsInPlace_spec (r :: l1'))). reflexivity.
  - intros s. destruct Hl1 as [-> | ->]; [reflexivity |].
    destruct (mergeExclusionsInPlace_spec l) as (Hret & Hlen & Hr).
    apply eq_iff_eq_true. rewrite !existsb_exists. split.
    + intros (x & Hin & Hx).
      destruct (In_nth _ _ (mkRange "" "") Hin) as (r & Hrl & <-).
      fold (deref (fst (mergeExclusionsInPlace l)) r) in Hx.
      destruct (Hr r) as (_ & _ & [Hsame | Hin']).
      * exists (deref l r). split; [apply nth_In; lia |].
        rewrite <- Hsame. exact Hx.
      * rewrite <- existsb_exists, <- mergeExclusions_existsb.
        apply existsb_exists. eexists. split; [exact Hin' | exact Hx].
    + intros (x & Hin & Hx).
      destruct (In_nth _ _ (mkRange "" "") Hin) as (r & Hrl & <-).
      fold (deref l r) in Hx.
      exists (deref (fst (mergeExclusionsInPlace l)) r).
      split; [apply nth_In; lia |].
      destruct (Hr r) as (Hs & He & _).
      unfold inRange in *. rewrite Hs.
      apply andb_true_iff in Hx. destruct Hx as [Hx1 Hx2].
      rewrite Hx1. cbn [andb]. str_order.
Qed.

Lemma onCurrentPlanThen_completed (f g : Plan -> Plan) app plan :
  findPlan (currentPlanId app) (plans (state app)) = Some plan ->
  id (f plan) = id plan ->
  id (g (f plan)) = id plan ->
  exists app' saved,
    onCurrentPlanThen f g app = Completed app' /\
    findPlan (currentPlanId app') (plans (state app')) = Some (g (f plan)) /\
    storage app' = Some saved /\
    findPlan (currentPlanId app') (plans saved) = Some (f plan).
Proof.
  intros Hf Hi1 Hi2. unfold onCurrentPlanThen. rewrite Hf.
  unfold findPlan in Hf.
  destruct (currentPlanId app) as [i |] eqn:Hc; [| discriminate].
  assert (Hi : id plan = i).
  { apply find_some in Hf. destruct Hf as [_ Hf]. apply String.eqb_eq, Hf. }
  eexists. eexists. split; [reflexivity |].
  cbn [state currentPlanId plans storage findPlan].
  split; [| split; [reflexivity |]].
  - apply find_writePlan with (plan := plan); [exact Hf | congruence].
  - apply find_writePlan with (plan := plan); [exact Hf | congruence].
Qed.

Lemma renderExclusionsPlan_keeps plan :
  id (renderExclusionsPlan plan) = id plan /\
  dailySavingsGoal (renderExclusionsPlan plan) = dailySavingsGoal plan.
Proof.
  unfold renderExclusionsPlan.
  destruct (exclusions plan) as [[| r l] |]; split; reflexivity.
Qed.

(** X25. [save-excl-btn].  An empty start or end stops the handler at an
    alert.  Otherwise the plan ends with a merged list of exclusions, in
    order and with no two ranges that overlap or touch, and a day is
    excluded after the handler exactly when it was excluded before or lies
    in the new range.  The document was saved before the list was merged;
    the list saved covers the same days.  When the new range holds today and
    the day is open, manual mode off, the target of the day becomes 0. *)
Theorem saveExclusion_merges :
  forall (now : Z) (start_ end' : string) (app : App) (plan : Plan),
    (start_ = ""%string \/ end' = ""%string ->
     saveExclusion now start_ end' app = Alerted "Select both dates") /\
    (findPlan (currentPlanId app) (plans (state app)) = Some plan ->
     start_ <> ""%string -> end' <> ""%string ->
     exists app' plan' l saved stored,
       saveExclusion now start_ end' app = Completed app' /\
       findPlan (currentPlanId app') (plans (state app')) = Some plan' /\
       exclusions plan' = Some l /\
       StronglySorted startLe l /\
       ForallOrdPairs endsBefore l /\
       (forall d : Z,
          isDateInExclusions d l
          = isDateInExclusions d (orEmpty (exclusions plan))
            || inRange (toLocaleDateString d) (mkRange start_ end')) /\
       storage app' = Some saved /\
       findPlan (currentPlanId app') (plans saved) = Some stored /\
       (forall d : Z,
          isDateInExclusions d (orEmpty (exclusions stored))
          = isDateInExclusions d l) /\
       (dayActive plan = true -> manualSavingsMode plan = false ->
        inRange (getTodayStr now) (mkRange start_ end') = true ->
        dailySavingsGoal plan' = Some 0%Q)).
Proof.
  intros now start_ end' app plan. split.
  - intros H. unfold saveExclusion.
    replace (String.eqb start_ "" || String.eqb end' "") with true;
      [reflexivity |].
    symmetry. rewrite orb_true_iff, !String.eqb_eq. exact H.
  - intros Hf Hs He. unfold saveExclusion.
    replace (String.eqb start_ "" || String.eqb end' "") with false.
    2:{ symmetry. apply not_true_is_false.
        rewrite orb_true_iff, !String.eqb_eq. tauto. }
    set (pushed := setExclusions
                     (Some (orEmpty (exclusions plan)
                            ++ [mkRange start_ end'])) plan).
    destruct (exclusions_settle now pushed _ eq_refl)
      as (l1 & m & E1 & E2 & Hm & Hcov & _).
    destruct (refreshPlanTargetInPlace_keeps now pushed) as [Hid Hgoal].
    destruct (renderExclusionsPlan_keeps (refreshPlanTargetInPlace now pushed))
      as [Hid' Hgoal'].
    destruct (onCurrentPlanThen_completed (addExclusionPlan now start_ end')
                renderExclusionsPlan app plan Hf)
      as (app' & saved & H1 & H2 & H3 & H4).
    { exact Hid. }
    { unfold addExclusionPlan. fold pushed. rewrite Hid'. exact Hid. }
    unfold addExclusionPlan in H2, H4. fold pushed in H2, H4.
    exists app', (renderExclusionsPlan (refreshPlanTargetInPlace now pushed)),
      m, saved, (refreshPlanTargetInPlace now pushed).
    split; [exact H1 |]. split; [exact H2 |]. split; [exact E2 |].
    pose proof (mergeExclusions_canonical (Some l1)) as C.
    rewrite <- Hm in C. apply before_weaken in C. destruct C as [C1 C2].
    split; [exact C1 |]. split; [exact C2 |].
    assert (Hm_cov : forall s,
              existsb (inRange s) m
              = existsb (inRange s) (orEmpty (exclusions plan))
                || inRange s (mkRange start_ end')).
    { intros s. rewrite Hm, mergeExclusions_existsb, Hcov, existsb_app.
      cbn [existsb]. rewrite orb_false_r. reflexivity. }
    split; [intros d; apply Hm_cov |].
    split; [exact H3 |]. split; [exact H4 |].
    split.
    + intros d. rewrite E1. cbn [orEmpty]. unfold isDateInExclusions.
      rewrite Hm, mergeExclusions_existsb. reflexivity.
    + intros Hopen Hman Htoday. rewrite Hgoal', Hgoal.
      unfold refreshPlanTarget, pushed.
      cbn [setExclusions dayActive manualSavingsMode dailyAllowance].
      rewrite Hopen, Hman. cbn [negb setDailySavingsGoal dailySavingsGoal].
      apply calculateRequiredDaily_excluded.
      cbn [setExclusions exclusions orEmpty]. unfold isDateInExclusions.
      rewrite existsb_app. cbn [existsb].
      unfold getTodayStr in Htoday. rewrite Htoday, orb_true_r.
      reflexivity.
Qed.

Lemma saveExclusion_merges_witness :
  exists app' plan' l saved stored,
    saveExclusion 19723 "2024-01-01" "2024-01-05" appOpenDay
    = Completed app' /\
    findPlan (currentPlanId app') (plans (state app')) = Some plan' /\
    exclusions plan' = Some l /\
    StronglySorted startLe l /\
    ForallOrdPairs endsBefore l /\
    (forall d : Z,
       isDateInExclusions d l
       = isDateInExclusions d (orEmpty (exclusions planOpenDay))
         || inRange (toLocaleDateString d)
              (mkRange "2024-01-01" "2024-01-05")) /\
    storage app' = Some saved /\
    findPlan (currentPlanId app') (plans saved) = Some stored /\
    (forall d : Z,
       isDateInExclusions d (orEmpty (exclusions stored))
       = isDateInExclusions d l) /\
    (dayActive planOpenDay = true -> manualSavingsMode planOpenDay = false ->
     inRange (getTodayStr 19723) (mkRange "2024-01-01" "2024-01-05") = true ->
     dailySavingsGoal plan' = Some 0%Q).
Proof.
  apply (proj2 (saveExclusion_merges 19723 "2024-01-01" "2024-01-05"
                  appOpenDay planOpenDay)).
  - reflexivity.
  - discriminate.
  - discriminate.
Defined.

Lemma spliceOne_sorted {A : Type} (R : A -> A -> Prop) (l : list A) :
  forall idx, StronglySorted R l -> StronglySorted R (spliceOne idx l).
Proof.
  unfold spliceOne.
  induction l as [| x l IH]; intros idx Hs.
  - destruct idx; constructor.
  - apply StronglySorted_inv in Hs. destruct Hs as [Hs Hx].
    destruct idx as [| idx]; [exact Hs |].
    cbn [firstn skipn app]. constructor; [apply IH, Hs |].
    apply Forall_forall. intros y Hy.
    rewrite Forall_forall in Hx. apply Hx.
    apply in_app_or in Hy. destruct Hy as [Hy | Hy].
    + rewrite <- (firstn_skipn idx l). apply in_or_app. left. exact Hy.
    + rewrite <- (firstn_skipn (S idx) l). apply in_or_app. right.
      exact Hy.
Qed.

Lemma renderExclusionsPlan_merged plan l :
  exclusions plan = Some l ->
  StronglySorted before l ->
  renderExclusionsPlan plan = plan.
Proof.
  intros Hl C. unfold renderExclusionsPlan. rewrite Hl.
  destruct l as [| r l']; [reflexivity |].
  rewrite (mergeExclusionsInPlace_fixed (r :: l') C). cbn [snd].
  rewrite <- Hl. destruct plan. reflexivity.
Qed.

(** X26. [deleteExclusion] on a plan whose exclusions are merged, as
    [renderExclusions] keeps them: exactly the range of that index goes, the
    others stay as they are and in their order, in the plan and in the
    document saved; an index past the end removes nothing.  The target of
    the day is refreshed for the list that is left.  On a plan without an
    array of exclusions the handler throws. *)
Theorem deleteExclusion_removes_one :
  forall (now : Z) (idx : nat) (app : App) (plan : Plan),
    findPlan (currentPlanId app) (plans (state app)) = Some plan ->
    (exclusions plan = None -> deleteExclusion now idx app = Thrown) /\
    (forall l : list Range,
       exclusions plan = Some l ->
       StronglySorted before l ->
       exists app' saved,
         deleteExclusion now idx app = Completed app' /\
         findPlan (currentPlanId app') (plans (state app'))
         = Some (refreshPlanTarget now
                   (setExclusions (Some (spliceOne idx l)) plan)) /\
         exclusions (refreshPlanTarget now
                       (setExclusions (Some (spliceOne idx l)) plan))
         = Some (spliceOne idx l) /\
         storage app' = Some saved /\
         saved = state app').
Proof.
  intros now idx app plan Hf. split.
  - intros Hn. unfold deleteExclusion. rewrite Hf, Hn. reflexivity.
  - intros l Hl C. unfold deleteExclusion. rewrite Hf, Hl.
    set (cut := setExclusions (Some (spliceOne idx l)) plan).
    assert (Hc : StronglySorted before (orEmpty (exclusions cut))).
    { apply spliceOne_sorted, C. }
    assert (He : exclusions (refreshPlanTarget now cut)
                 = Some (spliceOne idx l)).
    { rewrite refreshPlanTarget_exclusions. reflexivity. }
    assert (Hr : renderExclusionsPlan (refreshPlanTargetInPlace now cut)
                 = refreshPlanTarget now cut).
    { rewrite (refreshPlanTargetInPlace_merged now cut Hc).
      apply (renderExclusionsPlan_merged _ _ He). apply Hc. }
    unfold onCurrentPlanThen. rewrite Hf. fold cut. rewrite Hr.
    rewrite (refreshPlanTargetInPlace_merged now cut Hc).
    unfold findPlan in Hf.
    destruct (currentPlanId app) as [i |] eqn:Hcur; [| discriminate].
    eexists. eexists. split; [reflexivity |].
    cbn [state currentPlanId plans storage findPlan].
    split; [| split; [exact He | split; reflexivity]].
    apply find_writePlan with (plan := plan); [exact Hf |].
    destruct (refreshPlanTarget_keeps now cut) as [Hid _].
    rewrite Hid. apply find_some in Hf. destruct Hf as [_ Hf].
    apply String.eqb_eq, Hf.
Qed.

Lemma deleteExclusion_removes_one_witness :
  exists app' saved,
    deleteExclusion 19725 0 appOnHoliday = Completed app' /\
    findPlan (currentPlanId app') (plans (state app'))
    = Some (refreshPlanTarget 19725
              (setExclusions
                 (Some (spliceOne 0 [mkRange "2024-01-03" "2024-01-03"]))
                 planOnHoliday)) /\
    exclusions (refreshPlanTarget 19725
                  (setExclusions
                     (Some (spliceOne 0 [mkRange "2024-01-03" "2024-01-03"]))
                     planOnHoliday))
    = Some (spliceOne 0 [mkRange "2024-01-03" "2024-01-03"]) /\
    storage app' = Some saved /\
    saved = state app'.
Proof.
  apply (proj2 (deleteExclusion_removes_one 19725 0 appOnHoliday
                  planOnHoliday eq_refl)
           [mkRange "2024-01-03" "2024-01-03"]).
  - reflexivity.
  - repeat constructor.
Defined.

(** ** The older variant of the engine *)

Lemma weekend_by_name g :
  0 <= g <= 6 ->
  String.eqb (weekdayName g) "Sat" || String.eqb (weekdayName g) "Sun"
  = (g =? 0) || (g =? 6).
Proof.
  intros H.
  assert (Hc : g = 0 \/ g = 1 \/ g = 2 \/ g = 3 \/ g = 4 \/ g = 5 \/ g = 6)
    by lia.
  destruct Hc as [-> | [-> | [-> | [-> | [-> | [-> | ->]]]]]]; reflexivity.
Qed.

Lemma countLoopV1_countLoop fuel : forall cur last count,
  countLoopV1 fuel cur last count = countLoop fuel [] cur last count.
Proof.
  induction fuel as [| fuel IH]; intros cur last count; [reflexivity |].
  cbn [countLoopV1 countLoop existsb negb].
  rewrite (weekend_by_name (getDay cur) (getDay_range cur)), andb_true_r, IH.
  reflexivity.
Qed.

Lemma countCalculationDaysV1_new (a b : JsDate) :
  countCalculationDaysV1 a b
  = countCalculationDays (ArgDate a) (ArgDate b) [].
Proof.
  unfold countCalculationDaysV1, countCalculationDays.
  cbn [midnightOf mergeExclusions sortByStart].
  destruct a as [| cur], b as [| last]; try reflexivity.
  apply countLoopV1_countLoop.
Qed.

(** X27. The newer [calculateRequiredDaily] against the older one, on a
    plan with a fixed end date and no exclusions: for an allowance that is
    not negative both give a number, the newer never the smaller one, and
    the two agree in manual mode and for an allowance under 80, where the
    surcharge of the newer variant does not apply. *)
Theorem calculateRequiredDaily_extends_older_variant :
  forall (now : Z) (plan : Plan) (a : Q),
    usesEndDate plan = true ->
    orEmpty (exclusions plan) = [] ->
    (0 <= a)%Q ->
    exists older newer : Q,
      calculateRequiredDailyV1 now plan (Some a) = Some older /\
      calculateRequiredDaily now plan (Some a) = Some newer /\
      (older <= newer)%Q /\
      (manualSavingsMode plan = true \/ (a < 80)%Q -> newer = older).
Proof.
  intros now plan a Hu Hex Ha.
  unfold calculateRequiredDailyV1, calculateRequiredDaily, getManilaDate.
  rewrite Hex, countCalculationDaysV1_new.
  cbn [isDateInExclusions existsb].
  unfold isDateInExclusions. cbn [existsb].
  assert (Hshape : exists older newer : Q,
    (if falsy (goal plan) then Some 0%Q
     else if dateGt (Midnight now) (newDate (endDate plan)) then Some 0%Q
     else if countCalculationDays (ArgDate (Midnight now))
               (ArgDate (newDate (endDate plan))) [] <=? 0
          then Some a
          else option_map
                 (fun a0 => Qmin a0
                    (Qmax 0 ((orZero (goal plan) - orZero (totalSaved plan))
                             / inject_Z
                                 (countCalculationDays
                                    (ArgDate (Midnight now))
                                    (ArgDate (newDate (endDate plan))) []))))
                 (Some a)) = Some older /\
    (if falsy (goal plan) then Some 0%Q
     else if dateGt (Midnight now) (newDate (endDate plan)) then Some 0%Q
     else if countCalculationDays (ArgDate (Midnight now))
               (ArgDate (newDate (endDate plan))) [] <=? 0
          then Some a
          else Some (Qmin a
                 (if usesEndDate plan && negb (manualSavingsMode plan)
                     && Qle_bool 80 a
                     && Qltb (Qmax 0 ((orZero (goal plan)
                                       - orZero (totalSaved plan))
                                      / inject_Z
                                          (countCalculationDays
                                             (ArgDate (Midnight now))
                                             (ArgDate (newDate (endDate plan)))
                                             []))) 50
                  then (Qmax 0 ((orZero (goal plan) - orZero (totalSaved plan))
                                / inject_Z
                                    (countCalculationDays
                                       (ArgDate (Midnight now))
                                       (ArgDate (newDate (endDate plan)))
                                       []))
                        + a * 0.20)%Q
                  else Qmax 0 ((orZero (goal plan) - orZero (totalSaved plan))
                               / inject_Z
                                   (countCalculationDays
                                      (ArgDate (Midnight now))
                                      (ArgDate (newDate (endDate plan)))
                                      []))))) = Some newer /\
    (older <= newer)%Q /\
    (manualSavingsMode plan = true \/ (a < 80)%Q -> newer = older)).
  { destruct (falsy (goal plan)).
    { exists 0%Q, 0%Q. repeat split; apply Qle_refl. }
    destruct (dateGt _ _).
    { exists 0%Q, 0%Q. repeat split; apply Qle_refl. }
    destruct (_ <=? 0).
    { exists a, a. repeat split; apply Qle_refl. }
    cbn [option_map].
    set (raw := Qmax 0 _).
    destruct (manualSavingsMode plan) eqn:Hm.
    { rewrite andb_false_r. cbn [andb].
      exists (Qmin a raw), (Qmin a raw). repeat split; apply Qle_refl. }
    destruct (Qle_bool 80 a) eqn:H80.
    2:{ rewrite andb_false_r. cbn [andb].
        exists (Qmin a raw), (Qmin a raw). repeat split; apply Qle_refl. }
    apply Qle_bool_iff in H80.
    destruct (usesEndDate plan && negb false && true && Qltb raw 50).
    - exists (Qmin a raw), (Qmin a (raw + a * 0.20)).
      split; [reflexivity |]. split; [reflexivity |]. split.
      + apply Q.min_glb; [apply Q.le_min_l |].
        eapply Qle_trans; [apply Q.le_min_r | lra].
      + intros [H | H]; [discriminate | lra].
    - exists (Qmin a raw), (Qmin a raw). repeat split; apply Qle_refl. }
  unfold usesEndDate in Hu.
  destruct (useEndDate plan) as [[|] |]; try exact Hshape.
  discriminate Hu.
Qed.

Lemma calculateRequiredDaily_extends_older_witness :
  exists older newer : Q,
    calculateRequiredDailyV1 19723 planNearGoal (Some 90%Q) = Some older /\
    calculateRequiredDaily 19723 planNearGoal (Some 90%Q) = Some newer /\
    (older <= newer)%Q /\
    (manualSavingsMode planNearGoal = true \/ (90 < 80)%Q -> newer = older).
Proof.
  apply (calculateRequiredDaily_extends_older_variant 19723 planNearGoal
           90%Q); try reflexivity.
  unfold Qle. simpl. lia.
Defined.
